(** * GearUp: the maintenance-due and part-recommendation rules of [main.py]

    A shallow embedding of the rule evaluators and of the session-state
    operations of the GearUp dashboard, and the properties they satisfy.

    Python values are embedded as a small tagged union, dictionaries as
    finite maps ([gmap]) or, where the iteration order is observable, as
    association lists; exceptions are the error side of a result monad;
    [float] is IEEE 754 binary64 as specified by [SpecFloat]. *)

From Stdlib Require Import ZArith QArith String Ascii List Bool Lia Zpower.
From Stdlib Require Import Floats.SpecFloat.
From stdpp Require Import base option list gmap strings sorting.

Local Open Scope string_scope.
Local Open Scope list_scope.
Local Open Scope Z_scope.

(** ** Exceptions and the result monad *)

Inductive exn :=
  | KeyError (key : string)
  | TypeError
  | AttributeError
  | IndexError
  | ValueError
  | OverflowError
  | ZeroDivisionError.

Inductive result (A : Type) :=
  | Ok (a : A)
  | Raise (e : exn).
Arguments Ok {A} a.
Arguments Raise {A} e.

Definition bind {A B} (m : result A) (f : A -> result B) : result B :=
  match m with
  | Ok a => f a
  | Raise e => Raise e
  end.

Notation "'let*' x ':=' m 'in' k" := (bind m (fun x => k))
  (at level 10, x pattern, m at level 100, k at level 200).

Definition is_ok {A} (r : result A) : bool :=
  match r with Ok _ => true | Raise _ => false end.

(** ** Binary64 floating point, as Python's [float] uses it *)

Module PyFloat.

Definition prec : Z := 53.
Definition emax : Z := 1024.

Abbreviation float := spec_float.

(** The exactly rounded image of an integer (round half to even). *)
Definition round_int (n : Z) : float := binary_normalize prec emax n 0 false.

(** [float(n)], the conversion applied to the [int] operand of a mixed
    [int]/[float] operation; Python raises [OverflowError] where the
    rounding would overflow. *)
Definition of_int (n : Z) : result float :=
  match round_int n with
  | S754_infinity _ => Raise OverflowError
  | x => Ok x
  end.

(** A decimal literal [digits * 10^-places], e.g. [30.44] is
    [decimal 3044 2]: the binary64 number nearest to it.  Numerator and
    denominator are exact, so the correctly rounded quotient is the
    correctly rounded literal. *)
Definition decimal (digits : Z) (places : Z) : float :=
  SFdiv prec emax (round_int digits) (round_int (10 ^ places)).

Definition is_zero (x : float) : bool :=
  match x with S754_zero _ => true | _ => false end.

(** [x / y] on floats: only a zero divisor raises. *)
Definition truediv (x y : float) : result float :=
  if is_zero y then Raise ZeroDivisionError else Ok (SFdiv prec emax x y).

(** [n / y] with [n] an [int]. *)
Definition int_truediv (n : Z) (y : float) : result float :=
  let* x := of_int n in truediv x y.

Definition mul (x y : float) : float := SFmul prec emax x y.

(** [n * y] with [n] an [int]. *)
Definition int_mul (n : Z) (y : float) : result float :=
  let* x := of_int n in Ok (mul x y).

(** [int(x)]: truncation toward zero. *)
Definition to_int (x : float) : result Z :=
  match x with
  | S754_zero _ => Ok 0
  | S754_nan => Raise ValueError
  | S754_infinity _ => Raise OverflowError
  | S754_finite s m e => Ok (cond_Zopp s (Z.shiftl (Z.pos m) e))
  end.

(** [x >= n] with [n] an [int]: Python compares the two exactly. *)
Definition ge_int (x : float) (n : Z) : bool :=
  match x with
  | S754_nan => false
  | S754_infinity s => negb s
  | S754_zero _ => n <=? 0
  | S754_finite s m e =>
      let v := cond_Zopp s (Z.pos m) in
      if 0 <=? e then n <=? v * 2 ^ e else n * 2 ^ (- e) <=? v
  end.

(** C's [modf] followed by the conversion of the integral part to an
    [int]: the integral part and the (exact) fractional part, both with
    the sign of [x]. *)
Definition modf (x : float) : result (Z * float) :=
  match x with
  | S754_nan => Raise ValueError
  | S754_infinity _ => Raise OverflowError
  | S754_zero _ => Ok (0, x)
  | S754_finite s m e =>
      if 0 <=? e then Ok (cond_Zopp s (Z.pos m * 2 ^ e), S754_zero s)
      else
        let d := 2 ^ (- e) in
        Ok (cond_Zopp s (Z.pos m / d),
            binary_normalize prec emax (cond_Zopp s (Z.pos m mod d)) e s)
  end.

(** C's [round] on a fractional part [-1 < x < 1], together with the
    information whether [x] lies exactly halfway. *)
Definition half : float := S754_finite false 4503599627370496 (-53).

Definition round_frac (x : float) : Z * bool :=
  match SFcompare (SFabs x) half with
  | Some Lt => (0, false)
  | Some Eq => (match x with S754_finite true _ _ => -1 | _ => 1 end, true)
  | _ => (match x with S754_finite true _ _ => -1 | _ => 1 end, false)
  end.

(** The last step of rounding: a mantissa that the rounding carried
    to one more digit is shifted back into the format. *)
Definition renormalize (s : bool) (m e : Z) : float :=
  let '(mrs, e') := shr_fexp prec emax m e loc_Exact in
  match shr_m mrs with
  | Z0 => S754_zero s
  | Z.pos m' =>
      if e' <=? emax - prec then S754_finite s m' e' else S754_infinity s
  | Z.neg _ => S754_nan
  end.

End PyFloat.

Abbreviation float := spec_float.

(** ** Python values and dictionaries *)

(** The values a vehicle record holds and the ones the rules compute from
    them.  A [date] is its proleptic Gregorian ordinal, a [timedelta]
    between two dates a whole number of days. *)
Inductive value :=
  | VNone
  | VInt (n : Z)
  | VStr (s : string)
  | VDate (ordinal : Z)
  | VTimedelta (days : Z).

#[global] Instance value_eq_dec : EqDecision value.
Proof. solve_decision. Defined.

(** [a == b] *)
Definition py_eq (a b : value) : bool := bool_decide (a = b).

(** A vehicle record is a [dict] with string keys. *)
Abbreviation dict := (gmap string value).

(** [d.get(key, default)] *)
Definition dict_get (d : dict) (key : string) (default : value) : value :=
  match d !! key with
  | Some v => v
  | None => default
  end.

(** [d[key]] *)
Definition dict_item {V} (d : gmap string V) (key : string) : result V :=
  match d !! key with
  | Some v => Ok v
  | None => Raise (KeyError key)
  end.

(** Ordering comparisons between an [int] literal and a value; every
    other operand type of the embedding raises [TypeError]. *)
Definition int_lt (n : Z) (v : value) : result bool :=
  match v with VInt k => Ok (n <? k) | _ => Raise TypeError end.

Definition gt_int (v : value) (n : Z) : result bool :=
  match v with VInt k => Ok (n <? k) | _ => Raise TypeError end.

Definition le_int (v : value) (n : Z) : result bool :=
  match v with VInt k => Ok (k <=? n) | _ => Raise TypeError end.

Definition ge_int (v : value) (n : Z) : result bool :=
  match v with VInt k => Ok (n <=? k) | _ => Raise TypeError end.

(** The chained comparison [lo < v <= hi]: the second test is evaluated
    only when the first holds. *)
Definition between (lo : Z) (v : value) (hi : Z) : result bool :=
  let* b := int_lt lo v in if b then le_int v hi else Ok false.

(** [date.min] and [date.max] as ordinals, and the bound on the days of a
    [timedelta]. *)
Definition MINORDINAL : Z := 1.
Definition MAXORDINAL : Z := 3652059.
Definition MAX_DELTA_DAYS : Z := 999999999.

Definition check_date (ordinal : Z) : result value :=
  if (MINORDINAL <=? ordinal) && (ordinal <=? MAXORDINAL)
  then Ok (VDate ordinal) else Raise OverflowError.

Definition check_delta (days : Z) : result value :=
  if (Z.opp MAX_DELTA_DAYS <=? days) && (days <=? MAX_DELTA_DAYS)
  then Ok (VTimedelta days) else Raise OverflowError.

(** [a - b] *)
Definition py_sub (a b : value) : result value :=
  match a, b with
  | VInt x, VInt y => Ok (VInt (x - y))
  | VDate x, VDate y => Ok (VTimedelta (x - y))
  | VDate x, VTimedelta d => check_date (x - d)
  | VTimedelta x, VTimedelta y => check_delta (x - y)
  | _, _ => Raise TypeError
  end.

(** [a + b] *)
Definition py_add (a b : value) : result value :=
  match a, b with
  | VInt x, VInt y => Ok (VInt (x + y))
  | VStr x, VStr y => Ok (VStr (x +:+ y))
  | VDate x, VTimedelta d => check_date (x + d)
  | VTimedelta d, VDate x => check_date (x + d)
  | VTimedelta x, VTimedelta y => check_delta (x + y)
  | _, _ => Raise TypeError
  end.

(** [v.days] *)
Definition attr_days (v : value) : result Z :=
  match v with VTimedelta d => Ok d | _ => Raise AttributeError end.

(** ** The interpreter process

    What a call can observe of the process it runs in: the clock
    ([datetime.date.today()], as the ordinal of a date) and the order in
    which a [set] built from a list of strings is enumerated, which
    depends on the string hash seed of the process and is only known to
    enumerate each distinct element once. *)
Record process := {
  today : Z;
  today_in_range : MINORDINAL ≤ today ≤ MAXORDINAL;
  set_order : list string → list string;
  set_order_perm : ∀ l, set_order l ≡ₚ remove_dups l
}.

(** [sorted(l)] on strings: code point order, which on UTF-8 encoded
    strings is the byte-wise lexicographic order. *)
Definition sorted (l : list string) : list string := merge_sort String.le l.

(** ** Part recommendation *)

Definition get_recommended_parts (p : process) (vehicle_data : dict)
  : result (list string) :=
  let current_km := dict_get vehicle_data "current_km" (VInt 0) in
  let usage := dict_get vehicle_data "usage" (VStr "Mixed") in
  let v_type := dict_get vehicle_data "type" VNone in
  let recommended_parts : list string := [] in
  let* c := between 50000 current_km 80000 in
  let recommended_parts :=
    if c then recommended_parts ++ ["Brake Pads"; "Tires"]
    else recommended_parts in
  let* c := gt_int current_km 80000 in
  let recommended_parts :=
    if c then recommended_parts ++ ["Spark Plugs"; "Suspension Components"]
    else recommended_parts in
  let recommended_parts :=
    if py_eq usage (VStr "City")
    then recommended_parts ++ ["Brake Pads"; "Air Filter"]
    else if py_eq usage (VStr "Commercial")
    then recommended_parts
           ++ ["Engine Oil"; "Brake Pads"; "Suspension Components"; "Tires"]
    else recommended_parts in
  let* recommended_parts :=
    (if py_eq v_type (VStr "Car") then
       let* c := gt_int current_km 80000 in
       let r := if c then recommended_parts ++ ["Timing Belt"]
                else recommended_parts in
       let* c := gt_int current_km 100000 in
       let r := if c then r ++ ["Water Pump"] else r in
       Ok (if py_eq usage (VStr "City") then r ++ ["Clutch Assembly"] else r)
     else if py_eq v_type (VStr "Bike") then
       Ok (if py_eq usage (VStr "City")
           then recommended_parts ++ ["Clutch Plates"]
           else recommended_parts)
     else if py_eq v_type (VStr "Scooter") then
       let* c := between 20000 current_km 40000 in
       Ok (if c then recommended_parts ++ ["CVT Belt"] else recommended_parts)
     else Ok recommended_parts) in
  Ok (sorted (set_order p recommended_parts)).

(** ** Data definitions *)

Module Schedule.
(** One entry of [SERVICE_SCHEDULES[vehicle_type]]. *)
Record info := {
  interval_months : Z;
  interval_km : Z;
  cost_range : Z * Z
}.
End Schedule.

(** The services of one vehicle type, in the insertion order that
    [.items()] enumerates. *)
Abbreviation schedule := (list (string * Schedule.info)).

Definition service (m km lo hi : Z) : Schedule.info :=
  {| Schedule.interval_months := m;
     Schedule.interval_km := km;
     Schedule.cost_range := (lo, hi) |}.

Definition SERVICE_SCHEDULES : gmap string schedule :=
  list_to_map
    [ ("Car",
        [ ("General Service", service 6 10000 2500 5000);
          ("Oil Change", service 12 10000 2000 3500);
          ("Brake Service", service 24 20000 3000 8000);
          ("Major Service", service 24 40000 8000 15000);
          ("Tire Replacement", service 48 50000 18000 40000) ]);
      ("Bike",
        [ ("General Service", service 3 3000 800 1500);
          ("Oil Change", service 6 4000 500 900);
          ("Chain Service", service 12 15000 1500 3000);
          ("Brake Pads", service 12 10000 700 1500);
          ("Tire Replacement", service 36 30000 4000 8000) ]);
      ("Scooter",
        [ ("General Service", service 4 4000 700 1200);
          ("Oil Change", service 6 6000 400 700);
          ("Brake Service", service 12 10000 600 1200);
          ("CVT & Transmission Service", service 24 20000 1000 2500);
          ("Tire Replacement", service 36 25000 3000 6000) ]) ].

Definition SERVICE_PARTS : gmap string (gmap string (list string)) :=
  list_to_map
    [ ("Car", list_to_map
        [ ("General Service",
            ["Engine Oil"; "Oil Filter"; "Air Filter"; "Coolant";
             "Wiper Fluid"]);
          ("Oil Change", ["Engine Oil"; "Oil Filter"]);
          ("Brake Service", ["Brake Pads"; "Brake Fluid"; "Brake Discs"]);
          ("Major Service",
            ["Engine Oil"; "Oil Filter"; "Air Filter"; "Spark Plugs";
             "Fuel Filter"; "Coolant"]);
          ("Tire Replacement",
            ["Tires"; "Wheel Alignment"; "Wheel Balancing"]) ]);
      ("Bike", list_to_map
        [ ("General Service",
            ["Engine Oil"; "Air Filter"; "Chain Lubrication"; "Brake Check"]);
          ("Oil Change", ["Engine Oil"; "Oil Filter"]);
          ("Chain Service", ["Chain"; "Front Sprocket"; "Rear Sprocket"]);
          ("Brake Pads",
            ["Front Brake Pads"; "Rear Brake Pads"; "Brake Fluid"]);
          ("Tire Replacement", ["Front Tire"; "Rear Tire"; "Tube"]) ]);
      ("Scooter", list_to_map
        [ ("General Service",
            ["Engine Oil"; "Air Filter"; "Spark Plug"; "Brake Check"]);
          ("Oil Change", ["Engine Oil"]);
          ("Brake Service", ["Brake Pads"; "Brake Shoes"; "Brake Fluid"]);
          ("CVT & Transmission Service",
            ["CVT Belt"; "Rollers"; "Gear Oil"]);
          ("Tire Replacement", ["Front Tire"; "Rear Tire"; "Tube"]) ]) ].

Record multiplier := {
  service_frequency : float;
  parts_wear : float
}.

Definition usage_multiplier (frequency_tenths wear_tenths : Z) : multiplier :=
  {| service_frequency := PyFloat.decimal frequency_tenths 1;
     parts_wear := PyFloat.decimal wear_tenths 1 |}.

Definition USAGE_MULTIPLIERS : gmap string multiplier :=
  list_to_map
    [ ("City", usage_multiplier 12 11);
      ("Highway", usage_multiplier 9 8);
      ("Mixed", usage_multiplier 10 10);
      ("Commercial", usage_multiplier 15 14) ].

(** [table.get(key, default)] and [key in table] for a table with string
    keys and an arbitrary (hashable) value as key. *)
Definition table_lookup {V} (table : gmap string V) (key : value) : option V :=
  match key with
  | VStr s => table !! s
  | _ => None
  end.

(** ** [timedelta(days=x)] for a float [x]

    The constructor splits [x] into its integral and fractional part,
    carries the integral part exactly in microseconds, multiplies the
    fractional part by the microseconds of a day in floating point, and
    rounds what is left of a microsecond half to even.  Only the [days]
    of the result matter to date arithmetic. *)
Definition US_PER_DAY : Z := 86400000000.

Definition timedelta_microseconds (x : float) : result Z :=
  let* parts := PyFloat.modf x in
  let '(intpart, fracpart) := parts in
  let sum := intpart * US_PER_DAY in
  if PyFloat.is_zero fracpart then Ok sum
  else
    let* factor := PyFloat.of_int US_PER_DAY in
    let* parts := PyFloat.modf (PyFloat.mul factor fracpart) in
    let '(intpart, leftover_us) := parts in
    let sum := sum + intpart in
    if PyFloat.is_zero leftover_us then Ok sum
    else
      let '(whole_us, halfway) := PyFloat.round_frac leftover_us in
      let whole_us :=
        if halfway then (if Z.odd sum then whole_us else 0) else whole_us in
      Ok (sum + whole_us).

Definition timedelta_of_days (x : float) : result value :=
  let* us := timedelta_microseconds x in
  check_delta (us / US_PER_DAY).

(** ** Services due *)

Module Due.
(** One entry of the list [calculate_service_due] returns. *)
Record entry := {
  service : string;
  due_reason : string;
  days_overdue : Z;
  cost_range : Z * Z;
  parts : list string
}.
End Due.

(** [sep.join(l)] *)
Fixpoint str_join (sep : string) (l : list string) : string :=
  match l with
  | [] => ""
  | [s] => s
  | s :: rest => s +:+ sep +:+ str_join sep rest
  end.

(** The float literal [30.44], the length of a month in days. *)
Definition DAYS_PER_MONTH : float := PyFloat.decimal 3044 2.

(** [int(interval / factor)] *)
Definition adjusted_interval (interval : Z) (factor : float) : result Z :=
  let* q := PyFloat.int_truediv interval factor in
  PyFloat.to_int q.

(** [(current_date - since).days / 30.44] *)
Definition months_since (current_date since : value) : result float :=
  let* delta := py_sub current_date since in
  let* days := attr_days delta in
  PyFloat.int_truediv days DAYS_PER_MONTH.

Section service_due.
(** The tables the function reads as globals. *)
Variable schedules : gmap string schedule.
Variable service_parts : gmap string (gmap string (list string)).

Variable p : process.
Variable vehicle_data : dict.

(** The body of the loop over the schedule of [vehicle_type]: the entry
    appended to [services_due], if any. *)
Definition service_due_step
    (purchase_date current_km : value) (multiplier : multiplier)
    (vehicle_type service_name : string) (service_info : Schedule.info)
  : result (option Due.entry) :=
  let current_date := VDate (today p) in
  let* adjusted_interval_months :=
    adjusted_interval (Schedule.interval_months service_info)
                      (service_frequency multiplier) in
  let* adjusted_interval_km :=
    adjusted_interval (Schedule.interval_km service_info)
                      (parts_wear multiplier) in
  let last_time_service_km :=
    dict_get vehicle_data ("last_service_km_" +:+ service_name)
             (dict_get vehicle_data "initial_km" (VInt 0)) in
  let last_time_service_date :=
    dict_get vehicle_data ("last_service_date_" +:+ service_name)
             purchase_date in
  let* km_since_last := py_sub current_km last_time_service_km in
  let* months_since_last := months_since current_date last_time_service_date in
  let time_due :=
    (0 <? adjusted_interval_months)
    && PyFloat.ge_int months_since_last adjusted_interval_months in
  let* km_due :=
    if 0 <? adjusted_interval_km
    then ge_int km_since_last adjusted_interval_km
    else Ok false in
  if time_due || km_due then
    let* days_overdue :=
      if time_due then
        let* days := PyFloat.int_mul adjusted_interval_months DAYS_PER_MONTH in
        let* interval := timedelta_of_days days in
        let* due_date := py_add last_time_service_date interval in
        let* overdue := py_sub current_date due_date in
        attr_days overdue
      else Ok 0 in
    let reason :=
      (if time_due then ["Time Interval"] else [])
      ++ (if km_due then ["Kilometer Reading"] else []) in
    let* parts_by_service := dict_item service_parts vehicle_type in
    Ok (Some {| Due.service := service_name;
                Due.due_reason := str_join " & " reason;
                Due.days_overdue := Z.max 0 days_overdue;
                Due.cost_range := Schedule.cost_range service_info;
                Due.parts := default [] (parts_by_service !! service_name) |})
  else Ok None.

(** The loop itself, threading [services_due]. *)
Fixpoint service_due_loop
    (purchase_date current_km : value) (multiplier : multiplier)
    (vehicle_type : string) (items : schedule)
    (services_due : list Due.entry) : result (list Due.entry) :=
  match items with
  | [] => Ok services_due
  | (service_name, service_info) :: rest =>
      let* due :=
        service_due_step purchase_date current_km multiplier vehicle_type
                         service_name service_info in
      service_due_loop purchase_date current_km multiplier vehicle_type rest
        (match due with
         | Some entry => services_due ++ [entry]
         | None => services_due
         end)
  end.

Definition calculate_service_due_with : result (list Due.entry) :=
  let* purchase_date := dict_item vehicle_data "purchase_date" in
  let current_km := dict_get vehicle_data "current_km" (VInt 0) in
  let usage := dict_get vehicle_data "usage" (VStr "Mixed") in
  let services_due : list Due.entry := [] in
  let* vehicle_type := dict_item vehicle_data "type" in
  let* mixed := dict_item USAGE_MULTIPLIERS "Mixed" in
  let multiplier := default mixed (table_lookup USAGE_MULTIPLIERS usage) in
  match vehicle_type with
  | VStr type_name =>
      match schedules !! type_name with
      | Some items =>
          service_due_loop purchase_date current_km multiplier type_name
                           items services_due
      | None => Ok []
      end
  | _ => Ok []
  end.

End service_due.

Definition calculate_service_due : process → dict → result (list Due.entry) :=
  calculate_service_due_with SERVICE_SCHEDULES SERVICE_PARTS.

(** ** Session state *)

(** The two entries of [st.session_state] the application code itself
    creates; either may be missing until the start-up code of a script
    run has created it. *)
Record session_state := {
  vehicles : option (list dict);
  parts_cache : option (gmap string string)
}.

(** The start-up code of every script run:
    [if 'vehicles' not in st.session_state: st.session_state.vehicles = []]
    and the same for [parts_cache]. *)
Definition init_session_state (s : session_state) : session_state :=
  {| vehicles := Some (default [] (vehicles s));
     parts_cache := Some (default ∅ (parts_cache s)) |}.

(** What a call that runs against the session state leaves behind: the
    value it returns or the exception it raises, the session state after
    it, and the HTTP requests it issued. *)
Record request := {
  api_url : string;
  titles : string
}.

Record outcome (A : Type) := {
  returned : result A;
  state_after : session_state;
  requests_made : list request
}.
Arguments returned {A} o.
Arguments state_after {A} o.
Arguments requests_made {A} o.

(** ** Adding a vehicle *)

Module Form.
(** The values the widgets of the Add Vehicle form return in the run
    that a press of its submit button starts. *)
Record values := {
  vehicle_type_selector : string;
  brand_selector : string;
  model_selector : string;
  year : Z;
  purchase_date : Z;
  price : Z;
  current_km : Z;
  usage : string
}.
End Form.

Definition new_vehicle (form : Form.values) : dict :=
  list_to_map
    [ ("type", VStr (Form.vehicle_type_selector form));
      ("brand", VStr (Form.brand_selector form));
      ("model", VStr (Form.model_selector form));
      ("year", VInt (Form.year form));
      ("purchase_date", VDate (Form.purchase_date form));
      ("price", VInt (Form.price form));
      ("current_km", VInt (Form.current_km form));
      ("initial_km", VInt (Form.current_km form));
      ("usage", VStr (Form.usage form)) ].

(** The [if submitted:] branch of the Add Vehicle page. *)
Definition add_vehicle_form (form : Form.values) (s : session_state)
  : outcome unit :=
  match vehicles s with
  | Some fleet =>
      {| returned := Ok ();
         state_after :=
           {| vehicles := Some (fleet ++ [new_vehicle form]);
              parts_cache := parts_cache s |};
         requests_made := [] |}
  | None =>
      {| returned := Raise AttributeError;
         state_after := s;
         requests_made := [] |}
  end.

(** The Update Kilometers button of the Maintenance Schedule page:
    [st.session_state.vehicles[selected_vehicle_idx]['current_km'] = new_km]. *)
Definition update_kilometers (selected_vehicle_idx : nat) (new_km : Z)
    (s : session_state) : outcome unit :=
  match vehicles s with
  | Some fleet =>
      match fleet !! selected_vehicle_idx with
      | Some vehicle =>
          {| returned := Ok ();
             state_after :=
               {| vehicles :=
                    Some (<[selected_vehicle_idx :=
                              <["current_km" := VInt new_km]> vehicle]> fleet);
                  parts_cache := parts_cache s |};
             requests_made := [] |}
      | None =>
          {| returned := Raise IndexError;
             state_after := s;
             requests_made := [] |}
      end
  | None =>
      {| returned := Raise AttributeError;
         state_after := s;
         requests_made := [] |}
  end.

(** ** Text clean-up: [re.sub(r'\n+', '\n', s).strip()]

    Strings are UTF-8 encoded; [str.strip()] removes the Unicode
    whitespace code points, listed here by their encodings. *)

Definition bytes (codes : list N) : string :=
  string_of_list_ascii (map ascii_of_N codes).

Definition WHITESPACE : list string :=
  map bytes
    [ [9]; [10]; [11]; [12]; [13]; [28]; [29]; [30]; [31]; [32];
      [194; 133]; [194; 160]; [225; 154; 128];
      [226; 128; 128]; [226; 128; 129]; [226; 128; 130]; [226; 128; 131];
      [226; 128; 132]; [226; 128; 133]; [226; 128; 134]; [226; 128; 135];
      [226; 128; 136]; [226; 128; 137]; [226; 128; 138];
      [226; 128; 168]; [226; 128; 169]; [226; 128; 175];
      [226; 129; 159]; [227; 128; 128] ]%N.

Fixpoint drop_prefix (prefix s : string) : option string :=
  match prefix, s with
  | EmptyString, _ => Some s
  | String a prefix', String b s' =>
      if Ascii.eqb a b then drop_prefix prefix' s' else None
  | String _ _, EmptyString => None
  end.

(** The rest of [s] after one leading element of [prefixes], if any. *)
Fixpoint drop_any_prefix (prefixes : list string) (s : string) : option string :=
  match prefixes with
  | [] => None
  | prefix :: others =>
      match drop_prefix prefix s with
      | Some rest => Some rest
      | None => drop_any_prefix others s
      end
  end.

Fixpoint lstrip_from (prefixes : list string) (fuel : nat) (s : string) : string :=
  match fuel with
  | O => s
  | S fuel' =>
      match drop_any_prefix prefixes s with
      | Some rest => lstrip_from prefixes fuel' rest
      | None => s
      end
  end.

Definition lstrip (s : string) : string :=
  lstrip_from WHITESPACE (String.length s) s.

Definition rstrip (s : string) : string :=
  String.rev (lstrip_from (map String.rev WHITESPACE) (String.length s)
                          (String.rev s)).

Definition strip (s : string) : string := rstrip (lstrip s).

Definition is_newline (c : ascii) : bool := Ascii.eqb c "010"%char.

(** Every run of line feeds becomes a single line feed. *)
Fixpoint collapse_newlines (s : string) : string :=
  match s with
  | EmptyString => EmptyString
  | String c rest =>
      match rest with
      | String c' _ =>
          if is_newline c && is_newline c' then collapse_newlines rest
          else String c (collapse_newlines rest)
      | EmptyString => String c EmptyString
      end
  end.

(** ** Decoded JSON and the operations the summary lookup applies to it *)

#[local] Unset Elimination Schemes.
Inductive json :=
  | JNull
  | JBool (b : bool)
  | JNum (n : Z)
  | JStr (s : string)
  | JArr (items : list json)
  | JObj (members : list (string * json)).
#[local] Set Elimination Schemes.

(** First binding of a key in an object's members. *)
Fixpoint assoc {V} (key : string) (members : list (string * V)) : option V :=
  match members with
  | [] => None
  | (k, v) :: rest => if String.eqb k key then Some v else assoc key rest
  end.

(** [j[key]] with a string key *)
Definition json_item (j : json) (key : string) : result json :=
  match j with
  | JObj members =>
      match assoc key members with
      | Some v => Ok v
      | None => Raise (KeyError key)
      end
  | _ => Raise TypeError
  end.

(** [list(j.keys())[0]] *)
Definition first_key (j : json) : result string :=
  match j with
  | JObj [] => Raise IndexError
  | JObj ((k, _) :: _) => Ok k
  | _ => Raise AttributeError
  end.

Fixpoint contains (needle hay : string) : bool :=
  String.prefix needle hay
  || match hay with
     | EmptyString => false
     | String _ rest => contains needle rest
     end.

(** [key in j] with a string key *)
Definition json_contains (key : string) (j : json) : result bool :=
  match j with
  | JObj members => Ok (bool_decide (is_Some (assoc key members)))
  | JStr s => Ok (contains key s)
  | JArr items =>
      Ok (existsb (λ item, match item with
                           | JStr s => String.eqb s key
                           | _ => false
                           end) items)
  | _ => Raise TypeError
  end.

(** Truth value of [j] *)
Definition truthy (j : json) : bool :=
  match j with
  | JNull => false
  | JBool b => b
  | JNum n => negb (n =? 0)
  | JStr s => negb (String.eqb s "")
  | JArr items => negb (bool_decide (items = []))
  | JObj members => negb (bool_decide (members = []))
  end.

(** ** The summary lookup and its memo *)

(** What [requests.get(...)], [raise_for_status()] and [.json()] yield for
    a request: a [RequestException] with its message, or the decoded
    body. *)
Inductive response :=
  | RequestException (message : string)
  | Body (data : json).

(** [base_url.get(project, 'wikipedia')] *)
Definition base_url : gmap string string :=
  list_to_map
    [ ("wikipedia", "https://en.wikipedia.org/w/api.php");
      ("wikibooks", "https://en.wikibooks.org/w/api.php") ].

(** The extract the decoded body carries, if it is present and not
    empty:
    [pages = data['query']['pages']; page_id = list(pages.keys())[0]] and
    the test
    [page_id != '-1' and 'extract' in pages[page_id] and pages[page_id]['extract']]. *)
Definition page_extract (data : json) : result (option json) :=
  let* query := json_item data "query" in
  let* pages := json_item query "pages" in
  let* page_id := first_key pages in
  if negb (String.eqb page_id "-1") then
    let* page := json_item pages page_id in
    let* present := json_contains "extract" page in
    if present then
      let* extract := json_item page "extract" in
      Ok (if truthy extract then Some extract else None)
    else Ok None
  else Ok None.

Section wikimedia.
(** The answer of the network to the request a call issues. *)
Variable network : request → response.

Definition get_wikimedia_summary (title : option string) (project : string)
    (s : session_state) : outcome string :=
  let done (r : result string) (s' : session_state) (sent : list request) :=
    {| returned := r; state_after := s'; requests_made := sent |} in
  match title with
  | None | Some EmptyString => done (Ok "No relevant article found.") s []
  | Some title =>
      let cache_key := project +:+ "_" +:+ title in
      match default ∅ (parts_cache s) !! cache_key with
      | Some summary => done (Ok summary) s []
      | None =>
          let req :=
            {| api_url := default "wikipedia" (base_url !! project);
               titles := title |} in
          match network req with
          | RequestException e =>
              done (Ok ("Network error retrieving information: " +:+ e))
                   s [req]
          | Body data =>
              match page_extract data with
              | Raise e => done (Raise e) s [req]
              | Ok None => done (Ok "Information not available.") s [req]
              | Ok (Some (JStr summary)) =>
                  let summary := strip (collapse_newlines summary) in
                  match parts_cache s with
                  | Some cache =>
                      done (Ok summary)
                           {| vehicles := vehicles s;
                              parts_cache :=
                                Some (<[cache_key := summary]> cache) |}
                           [req]
                  | None => done (Raise AttributeError) s [req]
                  end
              | Ok (Some _) => done (Raise TypeError) s [req]
              end
          end
      end
  end.

End wikimedia.

(** ** Operations on the session state *)

Inductive operation :=
  | ScriptStart
  | AddVehicle (form : Form.values)
  | UpdateKilometers (selected_vehicle_idx : nat) (new_km : Z)
  | WikimediaSummary (network : request → response)
                     (title : option string) (project : string).

Definition run_operation (op : operation) (s : session_state) : session_state :=
  match op with
  | ScriptStart => init_session_state s
  | AddVehicle form => state_after (add_vehicle_form form s)
  | UpdateKilometers idx new_km => state_after (update_kilometers idx new_km s)
  | WikimediaSummary network title project =>
      state_after (get_wikimedia_summary network title project s)
  end.

Definition run_operations (ops : list operation) (s : session_state)
  : session_state :=
  fold_left (λ s op, run_operation op s) ops s.

(** Entries of the memo that a step from [s] to [s'] leaves in place. *)
Definition cache_kept (s s' : session_state) : Prop :=
  ∀ cache key summary,
    parts_cache s = Some cache → cache !! key = Some summary →
    ∃ cache', parts_cache s' = Some cache' ∧ cache' !! key = Some summary.

(** ** Vehicle records

    The records the application keeps are the dictionaries the Add
    Vehicle form builds, with the kilometer reading updated in place.
    The rule evaluators rely on less: a purchase date and a type are
    present, and the fields they do arithmetic on, where present, hold
    integers and dates. *)

Definition is_int (x : value) : bool :=
  match x with VInt _ => true | _ => false end.

Definition is_date (x : value) : bool :=
  match x with
  | VDate d => (MINORDINAL <=? d) && (d <=? MAXORDINAL)
  | _ => false
  end.

Definition field_typed (key : string) (x : value) : bool :=
  if bool_decide (key = "current_km") || bool_decide (key = "initial_km")
     || String.prefix "last_service_km_" key
  then is_int x
  else if bool_decide (key = "purchase_date")
          || String.prefix "last_service_date_" key
  then is_date x
  else true.

Definition vehicle_record (v : dict) : Prop :=
  map_Forall (λ key x, field_typed key x = true) v
  ∧ is_Some (v !! "purchase_date")
  ∧ is_Some (v !! "type").

#[global] Instance vehicle_record_dec (v : dict) : Decision (vehicle_record v).
Proof. unfold vehicle_record. apply _. Defined.

(** The readings of a record the rules are stated over. *)
Definition km_of (x : value) : Z :=
  match x with VInt n => n | _ => 0 end.

Definition ordinal_of (x : value) : Z :=
  match x with VDate d => d | _ => 0 end.

Definition current_km_of (v : dict) : Z :=
  km_of (dict_get v "current_km" (VInt 0)).

Definition usage_of (v : dict) : value :=
  dict_get v "usage" (VStr "Mixed").

Definition type_of (v : dict) : value :=
  dict_get v "type" VNone.

(** Kilometers driven since the last recorded reading for a service,
    which defaults to the initial reading. *)
Definition km_since_service (v : dict) (service_name : string) : Z :=
  current_km_of v
  - km_of (dict_get v ("last_service_km_" +:+ service_name)
                    (dict_get v "initial_km" (VInt 0))).

(** Days elapsed since the last date of a service, which defaults to the
    purchase date. *)
Definition days_since_service (p : process) (v : dict) (service_name : string)
  : Z :=
  today p
  - ordinal_of (dict_get v ("last_service_date_" +:+ service_name)
                         (dict_get v "purchase_date" VNone)).

(** The multipliers of the record's usage pattern, those of ['Mixed']
    for a usage that is not a key of [USAGE_MULTIPLIERS]. *)
Definition multiplier_of (v : dict) : multiplier :=
  default (usage_multiplier 10 10)
          (table_lookup USAGE_MULTIPLIERS (usage_of v)).

(** ** The part rules, as the specification words them *)

Definition rule_selects (current_km : Z) (usage v_type : value)
    (part : string) : Prop :=
  (50000 < current_km ≤ 80000 ∧ part ∈ ["Brake Pads"; "Tires"])
  ∨ (80000 < current_km ∧ part ∈ ["Spark Plugs"; "Suspension Components"])
  ∨ (usage = VStr "City"
     ∧ (part ∈ ["Brake Pads"; "Air Filter"]
        ∨ (v_type = VStr "Car" ∧ part = "Clutch Assembly")
        ∨ (v_type = VStr "Bike" ∧ part = "Clutch Plates")))
  ∨ (usage = VStr "Commercial"
     ∧ part ∈ ["Engine Oil"; "Brake Pads"; "Suspension Components"; "Tires"])
  ∨ (v_type = VStr "Car"
     ∧ ((80000 < current_km ∧ part = "Timing Belt")
        ∨ (100000 < current_km ∧ part = "Water Pump")))
  ∨ (v_type = VStr "Scooter"
     ∧ 20000 < current_km ≤ 40000 ∧ part = "CVT Belt").

(** Strict lexicographic order on strings. *)
Definition str_lt (a b : string) : Prop := String.ltb a b = true.

(** ** The interval rules, as the specification words them

    Elapsed months, multipliers and adjusted intervals in exact rational
    arithmetic. *)

(** Months elapsed since the last date of a service: the days elapsed
    divided by 30.44. *)
Definition months_since_service (p : process) (v : dict) (service_name : string)
  : Q :=
  (inject_Z (days_since_service p v service_name) / (3044 # 100))%Q.

(** The time-interval condition of a service, as the loop evaluates it:
    the adjusted month interval is positive and the elapsed months reach
    it. *)
Definition time_interval_due (p : process) (v : dict)
    (service_name : string) (service_info : Schedule.info) : Prop :=
  ∃ months elapsed,
    adjusted_interval (Schedule.interval_months service_info)
                      (service_frequency (multiplier_of v)) = Ok months
    ∧ months_since (VDate (today p))
        (dict_get v ("last_service_date_" +:+ service_name)
                  (dict_get v "purchase_date" VNone)) = Ok elapsed
    ∧ 0 < months
    ∧ PyFloat.ge_int elapsed months = true.

(** The multipliers of a usage pattern in tenths: [service_frequency] and
    [parts_wear]; a usage that is not listed counts as ['Mixed']. *)
Definition usage_tenths (usage : value) : Z * Z :=
  if bool_decide (usage = VStr "City") then (12, 11)
  else if bool_decide (usage = VStr "Highway") then (9, 8)
  else if bool_decide (usage = VStr "Commercial") then (15, 14)
  else (10, 10).

(** [interval] divided by [tenths / 10], truncated to an integer. *)
Definition truncated_quotient (interval tenths : Z) : Z :=
  let q := (inject_Z interval / (tenths # 10))%Q in
  Z.quot (Qnum q) (Z.pos (Qden q)).

(** ** Checks over the tables

    Decision procedures for facts about every schedule entry under every
    usage multiplier; they are evaluated once, on the tables. *)

(** The interval of a due date: [timedelta(days=months * 30.44)]. *)
Definition due_interval (months : Z) : result value :=
  let* days := PyFloat.int_mul months DAYS_PER_MONTH in
  timedelta_of_days days.

(** Both adjusted intervals are computed and positive, the month interval
    is no multiple of 25 (so that [30.44] times it is no whole number of
    days), and its due interval is the whole part of that product. *)
Definition adjusted_ok (service_info : Schedule.info) (multiplier : multiplier)
  : bool :=
  match adjusted_interval (Schedule.interval_months service_info)
                          (service_frequency multiplier),
        adjusted_interval (Schedule.interval_km service_info)
                          (parts_wear multiplier) with
  | Ok m, Ok k =>
      (0 <? m) && (m <=? 1000) && negb (m mod 25 =? 0) && (0 <? k)
      && match due_interval m with
         | Ok (VTimedelta d) => (0 <=? d) && (25 * d <=? 761 * m)
         | _ => false
         end
  | _, _ => false
  end.

(** The floating-point adjustment agrees with the exact one. *)
Definition adjustment_exact (service_info : Schedule.info) (tenths : Z * Z)
  : bool :=
  let multiplier := usage_multiplier tenths.1 tenths.2 in
  match adjusted_interval (Schedule.interval_months service_info)
                          (service_frequency multiplier),
        adjusted_interval (Schedule.interval_km service_info)
                          (parts_wear multiplier) with
  | Ok m, Ok k =>
      (m =? truncated_quotient (Schedule.interval_months service_info) tenths.1)
      && (k =? truncated_quotient (Schedule.interval_km service_info) tenths.2)
  | _, _ => false
  end.

Definition schedule_ok (vehicle_type : string) (items : schedule) : bool :=
  bool_decide (NoDup items.*1)
  && bool_decide (is_Some (SERVICE_PARTS !! vehicle_type))
  && forallb (λ item,
       bool_decide (map_Forall (λ _ multiplier,
                      adjusted_ok item.2 multiplier = true) USAGE_MULTIPLIERS)
       && forallb (adjustment_exact item.2)
                  [(12, 11); (9, 8); (15, 14); (10, 10)]) items.

(** ** Sample data *)

(** A process on 2026-11-04 whose sets enumerate in first-occurrence
    order, and one on the same day whose sets enumerate in the opposite
    order. *)
Definition sample_process : process :=
  {| today := 739924;
     today_in_range := ltac:(by vm_compute);
     set_order := remove_dups;
     set_order_perm := λ l, reflexivity (remove_dups l) |}.

Definition reversed_process : process :=
  {| today := 739924;
     today_in_range := ltac:(by vm_compute);
     set_order := λ l, reverse (remove_dups l);
     set_order_perm := λ l, reverse_Permutation (remove_dups l) |}.

(** A car bought on 2024-01-15 with 52000 km on the clock, driven to
    64000 km since. *)
Definition sample_form : Form.values :=
  {| Form.vehicle_type_selector := "Car";
     Form.brand_selector := "Honda";
     Form.model_selector := "City";
     Form.year := 2024;
     Form.purchase_date := 738900;
     Form.price := 1200000;
     Form.current_km := 52000;
     Form.usage := "City" |}.

Definition sample_vehicle : dict :=
  <["current_km" := VInt 64000]> (new_vehicle sample_form).

(** The same record with a type that has no schedule. *)
Definition sample_truck : dict :=
  <["type" := VStr "Truck"]> sample_vehicle.

(** The same car bought on 2026-10-11, 24 days before the sample date:
    whatever is due is due by the kilometer reading alone. *)
Definition sample_recent : dict :=
  <["purchase_date" := VDate 739900]> sample_vehicle.

Definition sample_due : list Due.entry :=
  Eval vm_compute in
    match calculate_service_due sample_process sample_recent with
    | Ok due => due
    | Raise _ => []
    end.

Definition sample_entry : Due.entry :=
  {| Due.service := "General Service";
     Due.due_reason := "Kilometer Reading";
     Due.days_overdue := 0;
     Due.cost_range := (2500, 5000);
     Due.parts :=
       ["Engine Oil"; "Oil Filter"; "Air Filter"; "Coolant"; "Wiper Fluid"] |}.

(** The schedule of a car and its oil change. *)
Definition sample_schedule : schedule :=
  Eval vm_compute in default [] (SERVICE_SCHEDULES !! "Car").

Definition sample_service : Schedule.info := service 12 10000 2000 3500.

(** A session with one vehicle and one memoised summary, and a network
    that answers every request with a page extract. *)
Definition sample_session : session_state :=
  {| vehicles := Some [sample_vehicle];
     parts_cache := Some {[ "wikipedia_Brake" := "A brake is a device." ]} |}.

Definition sample_network (_ : request) : response :=
  Body (JObj [("query", JObj [("pages", JObj [("42", JObj
    [("title", JStr "Clutch");
     ("extract", JStr " A clutch engages power transmission. ")])])])]).

(** * The rest of the application *)

(** ** Searching Wikipedia and Wikibooks *)

(** The search request: [srsearch] and [srlimit] of the query
    parameters; the other parameters are constants. *)
Record search_request := {
  search_url : string;
  srsearch : string;
  srlimit : Z
}.

(** [hits[0]['title']].  A string subscripts to a string, which has no
    string keys; an object has no key [0] ([KeyError "0"] stands for the
    integer key). *)
Definition first_title (hits : json) : result json :=
  match hits with
  | JArr (hit :: _) => json_item hit "title"
  | JArr [] => Raise IndexError
  | JStr EmptyString => Raise IndexError
  | JStr (String _ _) => Raise TypeError
  | JObj _ => Raise (KeyError "0")
  | _ => Raise TypeError
  end.

(** The title a decoded search answer yields, [JNull] for [None]:
    [if 'query' in data and 'search' in data['query'] and data['query']['search']:
       return data['query']['search'][0]['title']] *)
Definition search_title (data : json) : result json :=
  let* has_query := json_contains "query" data in
  if has_query then
    let* query := json_item data "query" in
    let* has_search := json_contains "search" query in
    if has_search then
      let* hits := json_item query "search" in
      if truthy hits then first_title hits else Ok JNull
    else Ok JNull
  else Ok JNull.

Section search.
(** The answer of the network to a search request. *)
Variable search_net : search_request → response.

(** The value returned or the exception raised, and the request sent.
    A [RequestException] is reported on the page and turned into
    [None]. *)
Definition search_wikimedia (query project : string) (limit : Z)
  : result json * list search_request :=
  let req :=
    {| search_url := default "wikipedia" (base_url !! project);
       srsearch := query;
       srlimit := limit |} in
  match search_net req with
  | RequestException _ => (Ok JNull, [req])
  | Body data => (search_title data, [req])
  end.

End search.

(** The search on Wikipedia for [query], with the default limit. *)
Definition wikipedia_search (query : string) : search_request :=
  {| search_url := "https://en.wikipedia.org/w/api.php";
     srsearch := query; srlimit := 1 |}.

(** ** Part information and maintenance tips *)

Inductive http_request :=
  | SearchRequest (r : search_request)
  | ExtractRequest (r : request).

(** What a lookup that searches and then fetches leaves behind. *)
Record lookup (A : Type) := {
  looked_up : result A;
  session_after : session_state;
  requests_sent : list http_request
}.
Arguments looked_up {A} l.
Arguments session_after {A} l.
Arguments requests_sent {A} l.

(** ASCII case folding.  [text.lower()] also folds letters outside
    ASCII, but it yields an ASCII letter from a non-ASCII one only for
    U+0130 (an [i] followed by a combining dot) and U+212A (a [k]), so on
    UTF-8 text the folding of the ASCII letters alone decides whether
    ["not available"] occurs in the folded text. *)
Definition lower_ascii (c : ascii) : ascii :=
  let n := N_of_ascii c in
  if ((65 <=? n) && (n <=? 90))%N then ascii_of_N (n + 32) else c.

Fixpoint lower (text : string) : string :=
  match text with
  | EmptyString => EmptyString
  | String c rest => String (lower_ascii c) (lower rest)
  end.

(** ["not available" in text.lower()] *)
Definition says_not_available (text : string) : bool :=
  contains "not available" (lower text).

Definition query_map : gmap string string :=
  list_to_map
    [ ("Car", "Automobile Maintenance");
      ("Bike", "Motorcycle Maintenance");
      ("Scooter", "Motor scooter maintenance") ].

Section lookups.
Variable search_net : search_request → response.
Variable network : request → response.

(** [get_wikimedia_summary(title, project=...)] for a title that a
    search returned, after the requests [sent].  The titles of the API's
    answers are strings; the text form of any other value that counts as
    true (a number, [true], a non-empty array or object) is not embedded,
    and there is no outcome for it. *)
Definition summary_of_hit (title : json) (project : string)
    (s : session_state) (sent : list http_request) : option (lookup string) :=
  match title with
  | JStr t =>
      let call := get_wikimedia_summary network (Some t) project s in
      Some {| looked_up := returned call;
              session_after := state_after call;
              requests_sent := sent ++ (ExtractRequest <$> requests_made call) |}
  | _ => None
  end.

Definition get_part_information (part_name : string) (s : session_state)
  : option (lookup string) :=
  let search_query := "Automotive " +:+ part_name in
  let '(title, sent) := search_wikimedia search_net search_query "wikipedia" 1 in
  let sent := SearchRequest <$> sent in
  match title with
  | Raise e =>
      Some {| looked_up := Raise e; session_after := s; requests_sent := sent |}
  | Ok title =>
      if truthy title then summary_of_hit title "wikipedia" s sent
      else
        let '(title, sent') := search_wikimedia search_net part_name "wikipedia" 1 in
        let sent := sent ++ (SearchRequest <$> sent') in
        match title with
        | Raise e =>
            Some {| looked_up := Raise e; session_after := s;
                    requests_sent := sent |}
        | Ok title =>
            if truthy title then summary_of_hit title "wikipedia" s sent
            else
              Some {| looked_up := Ok "Information not available for this part.";
                      session_after := s;
                      requests_sent := sent |}
        end
  end.

(** The second half of [get_maintenance_tips]: the Wikipedia search. *)
Definition wikipedia_tips (s : session_state) (sent : list http_request)
  : option (lookup (string * string)) :=
  let wikipedia_query := "Automobile maintenance" in
  let '(title, sent') := search_wikimedia search_net wikipedia_query "wikipedia" 1 in
  let sent := sent ++ (SearchRequest <$> sent') in
  let not_found :=
    Ok ("General maintenance tips not available.", "N/A") in
  match title with
  | Raise e =>
      Some {| looked_up := Raise e; session_after := s; requests_sent := sent |}
  | Ok title =>
      if truthy title then
        hit ← summary_of_hit title "wikipedia" s sent;
        Some
          match looked_up hit with
          | Raise e =>
              {| looked_up := Raise e; session_after := session_after hit;
                 requests_sent := requests_sent hit |}
          | Ok summary =>
              {| looked_up :=
                   if negb (String.eqb summary "")
                      && negb (says_not_available summary)
                   then Ok (summary, "Wikipedia")
                   else not_found;
                 session_after := session_after hit;
                 requests_sent := requests_sent hit |}
          end
      else
        Some {| looked_up := not_found; session_after := s;
                requests_sent := sent |}
  end.

Definition get_maintenance_tips (vehicle_type : string) (s : session_state)
  : option (lookup (string * string)) :=
  let search_term :=
    default ("Automobile Maintenance/" +:+ vehicle_type)
            (query_map !! vehicle_type) in
  let wikibooks_query := search_term in
  let '(title, sent) := search_wikimedia search_net wikibooks_query "wikibooks" 1 in
  let sent := SearchRequest <$> sent in
  match title with
  | Raise e =>
      Some {| looked_up := Raise e; session_after := s; requests_sent := sent |}
  | Ok title =>
      if truthy title then
        hit ← summary_of_hit title "wikibooks" s sent;
        match looked_up hit with
        | Raise e =>
            Some {| looked_up := Raise e; session_after := session_after hit;
                    requests_sent := requests_sent hit |}
        | Ok summary =>
            if negb (String.eqb summary "") && negb (says_not_available summary)
            then
              Some {| looked_up := Ok (summary, "Wikibooks");
                      session_after := session_after hit;
                      requests_sent := requests_sent hit |}
            else wikipedia_tips (session_after hit) (requests_sent hit)
        end
      else wikipedia_tips s sent
  end.

End lookups.

(** ** Cleaned text *)

(** Two line feeds in a row somewhere in [s]. *)
Fixpoint double_newline (s : string) : bool :=
  match s with
  | EmptyString => false
  | String c rest =>
      match rest with
      | String c' _ => is_newline c && is_newline c' || double_newline rest
      | EmptyString => false
      end
  end.

(** ** Further checks over the tables *)

(** The due interval of every adjusted month interval is the whole
    number of days in [30.44] times it, and no adjusted month interval
    is shorter than two months. *)
Definition interval_days_ok (service_info : Schedule.info)
    (multiplier : multiplier) : bool :=
  match adjusted_interval (Schedule.interval_months service_info)
                          (service_frequency multiplier) with
  | Ok m =>
      (2 <=? m)
      && match due_interval m with
         | Ok (VTimedelta d) => d =? 761 * m / 25
         | _ => false
         end
  | Raise _ => false
  end.

Definition schedule_days_ok (items : schedule) : bool :=
  forallb (λ item,
    bool_decide (map_Forall (λ _ multiplier,
                   interval_days_ok item.2 multiplier = true)
                 USAGE_MULTIPLIERS)) items.

(** ** Fleets *)

(** Every stored vehicle is a vehicle record. *)
Definition fleet_ok (s : session_state) : Prop :=
  ∀ fleet, vehicles s = Some fleet → Forall vehicle_record fleet.

(** An operation as the widgets allow it: the date input yields a date. *)
Definition operation_ok (op : operation) : Prop :=
  match op with
  | AddVehicle form => MINORDINAL ≤ Form.purchase_date form ≤ MAXORDINAL
  | _ => True
  end.

(** The fields of a record other than the kilometer reading. *)
Definition same_but_km (v v' : dict) : Prop :=
  ∀ key, key ≠ "current_km" → v' !! key = v !! key.

(** The whole days of [30.44] times a number of months. *)
Definition interval_days (months : Z) : Z := 761 * months / 25.

(** ** The due rule in exact arithmetic

    The entry of one service of a schedule, computed from the readings
    of a record without floating point: the adjusted intervals are
    truncated exact quotients, the time test compares [30.44] times the
    adjusted months with the days elapsed, and an entry due by time is
    overdue by the days elapsed less the whole days of its interval. *)
Definition due_entry (p : process) (v : dict)
    (parts_by_service : gmap string (list string))
    (item : string * Schedule.info) : option Due.entry :=
  let '(service_name, service_info) := item in
  let months :=
    truncated_quotient (Schedule.interval_months service_info)
                       (usage_tenths (usage_of v)).1 in
  let km :=
    truncated_quotient (Schedule.interval_km service_info)
                       (usage_tenths (usage_of v)).2 in
  let time_due :=
    bool_decide (761 * months ≤ 25 * days_since_service p v service_name) in
  let km_due := bool_decide (km ≤ km_since_service v service_name) in
  if time_due || km_due then
    Some {| Due.service := service_name;
            Due.due_reason :=
              if time_due && km_due then "Time Interval & Kilometer Reading"
              else if time_due then "Time Interval"
              else "Kilometer Reading";
            Due.days_overdue :=
              if time_due
              then days_since_service p v service_name - interval_days months
              else 0;
            Due.cost_range := Schedule.cost_range service_info;
            Due.parts := default [] (parts_by_service !! service_name) |}
  else None.

(** ** The Parts Encyclopedia and the Dashboard *)

(** The options of the part selector:
    [all_parts = set()], updated with every list of [SERVICE_PARTS], then
    [sorted(list(all_parts))].  The result is a sorted set, so the order
    in which the two dictionaries are walked does not show in it. *)
Definition all_parts (p : process) : list string :=
  sorted (set_order p
    (concat ((λ by_service : gmap string (list string),
                concat (map_to_list by_service).*2)
             <$> (map_to_list SERVICE_PARTS).*2))).

(** The Services Due metric:
    [sum(len(calculate_service_due(v)) for v in st.session_state.vehicles)]. *)
Fixpoint total_due_services (p : process) (fleet : list dict) : result Z :=
  match fleet with
  | [] => Ok 0
  | v :: rest =>
      let* due := calculate_service_due p v in
      let* total := total_due_services p rest in
      Ok (Z.of_nat (length due) + total)
  end.

(** ** The Add Vehicle page *)

Module Model.
(** One entry of [VEHICLE_DATA[vehicle_type][brand]]. *)
Record info := {
  price_range : Z * Z;
  fuel_type : string
}.
End Model.

Definition model (low high : Z) (fuel_type : string) : Model.info :=
  {| Model.price_range := (low, high); Model.fuel_type := fuel_type |}.

(** The selectboxes list the keys of this table in its order, so it is
    kept as the association list the source writes; no key occurs
    twice at any level. *)
Definition VEHICLE_DATA : list (string * list (string * list (string * Model.info))) :=
  [
  ("Car",
    [
      ("Maruti Suzuki",
        [
          ("Swift", model 600000 900000 "Petrol");
          ("Baleno", model 700000 1000000 "Petrol");
          ("Dzire", model 650000 950000 "Petrol");
          ("Ertiga", model 850000 1300000 "Petrol/CNG");
          ("Brezza", model 830000 1400000 "Petrol");
          ("Grand Vitara", model 1100000 2000000 "Petrol/Hybrid") ]);
      ("Hyundai",
        [
          ("Creta", model 1100000 1900000 "Petrol/Diesel");
          ("i20", model 750000 1200000 "Petrol");
          ("Verna", model 1100000 1700000 "Petrol");
          ("Venue", model 790000 1350000 "Petrol/Diesel");
          ("Exter", model 610000 1030000 "Petrol/CNG") ]);
      ("Tata",
        [
          ("Nexon", model 815000 1580000 "Petrol/Diesel/EV");
          ("Punch", model 613000 1020000 "Petrol/CNG");
          ("Altroz", model 665000 1080000 "Petrol/Diesel/CNG");
          ("Harrier", model 1550000 2650000 "Diesel");
          ("Safari", model 1620000 2740000 "Diesel") ]);
      ("Mahindra",
        [
          ("XUV700", model 1400000 2700000 "Petrol/Diesel");
          ("Scorpio-N", model 1360000 2460000 "Petrol/Diesel");
          ("Thar", model 1125000 1760000 "Petrol/Diesel");
          ("XUV300", model 800000 1475000 "Petrol/Diesel") ]);
      ("Kia",
        [
          ("Seltos", model 1090000 2035000 "Petrol/Diesel");
          ("Sonet", model 799000 1570000 "Petrol/Diesel");
          ("Carens", model 1045000 1945000 "Petrol/Diesel") ]) ]);
  ("Bike",
    [
      ("Hero MotoCorp",
        [
          ("Splendor Plus", model 75000 80000 "Petrol");
          ("HF Deluxe", model 60000 70000 "Petrol");
          ("XPulse 200", model 145000 155000 "Petrol");
          ("Glamour", model 82000 88000 "Petrol");
          ("Xtreme 160R", model 122000 133000 "Petrol");
          ("Karizma XMR", model 180000 190000 "Petrol") ]);
      ("Honda",
        [
          ("CB Shine", model 80000 95000 "Petrol");
          ("SP 125", model 86000 91000 "Petrol");
          ("Hornet 2.0", model 139000 141000 "Petrol");
          ("Unicorn", model 110000 112000 "Petrol") ]);
      ("TVS",
        [
          ("Apache RTR 160", model 120000 130000 "Petrol");
          ("Raider 125", model 95000 105000 "Petrol");
          ("Ronin", model 149000 172000 "Petrol");
          ("Apache RR 310", model 272000 275000 "Petrol") ]);
      ("Bajaj",
        [
          ("Pulsar 150", model 110000 120000 "Petrol");
          ("Platina 100", model 65000 70000 "Petrol");
          ("Dominar 400", model 230000 240000 "Petrol");
          ("Pulsar N250", model 150000 152000 "Petrol") ]);
      ("Royal Enfield",
        [
          ("Classic 350", model 190000 220000 "Petrol");
          ("Himalayan", model 215000 230000 "Petrol");
          ("Meteor 350", model 205000 225000 "Petrol");
          ("Hunter 350", model 150000 175000 "Petrol");
          ("Interceptor 650", model 303000 331000 "Petrol");
          ("Super Meteor 650", model 364000 394000 "Petrol") ]);
      ("Yamaha",
        [
          ("FZ-S FI", model 120000 140000 "Petrol");
          ("R15 V4", model 180000 200000 "Petrol");
          ("MT-15", model 168000 174000 "Petrol") ]);
      ("Suzuki",
        [
          ("Gixxer", model 135000 145000 "Petrol");
          ("Gixxer SF", model 140000 150000 "Petrol");
          ("V-Strom SX", model 212000 215000 "Petrol") ]);
      ("KTM",
        [
          ("Duke 200", model 197000 200000 "Petrol");
          ("Duke 390", model 311000 315000 "Petrol");
          ("RC 200", model 218000 220000 "Petrol");
          ("Adventure 390", model 339000 342000 "Petrol") ]) ]);
  ("Scooter",
    [
      ("Honda",
        [
          ("Activa", model 75000 90000 "Petrol");
          ("Dio", model 70000 78000 "Petrol");
          ("Grazia", model 85000 92000 "Petrol") ]);
      ("TVS",
        [
          ("Jupiter", model 73000 89000 "Petrol");
          ("Ntorq 125", model 84000 105000 "Petrol");
          ("iQube", model 117000 156000 "EV") ]);
      ("Suzuki",
        [
          ("Access 125", model 80000 90000 "Petrol");
          ("Burgman Street", model 94000 115000 "Petrol") ]);
      ("Ola Electric",
        [
          ("S1 Pro", model 130000 140000 "EV");
          ("S1 Air", model 105000 115000 "EV");
          ("S1 X", model 75000 100000 "EV") ]);
      ("Ather Energy",
        [
          ("450X", model 128000 148000 "EV");
          ("450S", model 118000 130000 "EV") ]);
      ("Bajaj",
        [
          ("Chetak", model 115000 145000 "EV") ]);
      ("Yamaha",
        [
          ("RayZR 125", model 85000 95000 "Petrol");
          ("Fascino 125", model 80000 92000 "Petrol") ]) ]) ].

(** [table[key]] on such a table. *)
Definition table_item {V} (table : list (string * V)) (key : string) : result V :=
  match assoc key table with
  | Some v => Ok v
  | None => Raise (KeyError key)
  end.

(** [int(np.mean(t))] for a pair of non-negative integers below [2^52]:
    the sum and its half are exact in binary64. *)
Definition int_mean (t : Z * Z) : Z := Z.quot (t.1 + t.2) 2.

(** The three selections in [st.session_state] during a run. *)
Record selection := {
  selected_type : string;
  selected_brand : string;
  selected_model : string
}.

(** [default_price], as a run computes it from the selections:
    [VEHICLE_DATA[selected_type][selected_brand].get(selected_model,
       {'price_range': (50000, 100000)})['price_range']] and its mean. *)
Definition default_price (selected : selection) : result Z :=
  let* brands := table_item VEHICLE_DATA (selected_type selected) in
  let* models := table_item brands (selected_brand selected) in
  let default_price_tuple :=
    match assoc (selected_model selected) models with
    | Some info => Model.price_range info
    | None => (50000, 100000)
    end in
  Ok (int_mean default_price_tuple).

(** What a call of a widget without a [key] returns in the run that the
    submit button starts.  Streamlit identifies such a widget by its
    kind and parameters: the call returns the value entered into the
    widget the form showed when its parameters are those of that
    widget, and creates a new widget, which returns its default,
    when they are not. *)
Definition keyless_widget (shown_parameter parameter entered default : Z) : Z :=
  if shown_parameter =? parameter then entered else default.

(** The run of the Add Vehicle page that a press of the submit button
    starts, on the same day as the run that showed the form.  [shown]
    holds the selections of the run that showed the form, and [entered]
    the values in its widgets at the press.

    The selectboxes have keys and return the entered selections as long
    as their options are those shown; the options of the brand and of
    the model follow the type and the brand, so a submission that
    changes one of these two is outside this embedding, and so is one
    of a form that could not be shown.  The price input has no key and
    its default follows the selections; the other inputs have constant
    parameters on a given day. *)
Definition add_vehicle_page (shown : selection) (entered : Form.values)
    (s : session_state) : option (outcome unit) :=
  if bool_decide (Form.vehicle_type_selector entered = selected_type shown
                  ∧ Form.brand_selector entered = selected_brand shown)
  then
    match default_price shown with
    | Raise _ => None
    | Ok shown_default =>
        let selected :=
          {| selected_type := Form.vehicle_type_selector entered;
             selected_brand := Form.brand_selector entered;
             selected_model := Form.model_selector entered |} in
        Some
          match default_price selected with
          | Raise e =>
              {| returned := Raise e; state_after := s; requests_made := [] |}
          | Ok default_price =>
              let price :=
                keyless_widget shown_default default_price
                               (Form.price entered) default_price in
              add_vehicle_form
                {| Form.vehicle_type_selector := selected_type selected;
                   Form.brand_selector := selected_brand selected;
                   Form.model_selector := selected_model selected;
                   Form.year := Form.year entered;
                   Form.purchase_date := Form.purchase_date entered;
                   Form.price := price;
                   Form.current_km := Form.current_km entered;
                   Form.usage := Form.usage entered |}
                s
          end
    end
  else None.

(** ** More sample data *)

(** A search that finds the article Clutch, and a network that is
    down. *)
Definition sample_search (_ : search_request) : response :=
  Body (JObj [("query",
    JObj [("search", JArr [JObj [("title", JStr "Clutch")]])])]).

Definition offline_search (_ : search_request) : response :=
  RequestException "connection refused".

Definition offline_network (_ : request) : response :=
  RequestException "connection refused".

(** A first script run that adds the sample car and then updates its
    kilometer reading. *)
Definition empty_session : session_state :=
  {| vehicles := None; parts_cache := None |}.

Definition sample_operations : list operation :=
  [ScriptStart; AddVehicle sample_form; UpdateKilometers 0 64000].

(** What looking up the part Clutch and the tips for a car leave behind
    in the sample session, with that search and the sample network. *)
Definition sample_part_lookup : lookup string :=
  {| looked_up := Ok "A clutch engages power transmission.";
     session_after :=
       {| vehicles := Some [sample_vehicle];
          parts_cache :=
            Some (<["wikipedia_Clutch" := "A clutch engages power transmission."]>
                    {[ "wikipedia_Brake" := "A brake is a device." ]}) |};
     requests_sent :=
       [ SearchRequest (wikipedia_search "Automotive Clutch");
         ExtractRequest {| api_url := "https://en.wikipedia.org/w/api.php";
                           titles := "Clutch" |} ] |}.

Definition sample_tips_lookup : lookup (string * string) :=
  {| looked_up := Ok ("A clutch engages power transmission.", "Wikibooks");
     session_after :=
       {| vehicles := Some [sample_vehicle];
          parts_cache :=
            Some (<["wikibooks_Clutch" := "A clutch engages power transmission."]>
                    {[ "wikipedia_Brake" := "A brake is a device." ]}) |};
     requests_sent :=
       [ SearchRequest {| search_url := "https://en.wikibooks.org/w/api.php";
                          srsearch := "Automobile Maintenance";
                          srlimit := 1 |};
         ExtractRequest {| api_url := "https://en.wikibooks.org/w/api.php";
                           titles := "Clutch" |} ] |}.

(** The recently bought sample car after 9500 km: less than the 10000 km
    of the scheduled oil change, more than the 9090 km that city use
    leaves of it. *)
Definition sample_commuter : dict :=
  <["current_km" := VInt 61500]> sample_recent.

(** The form as a fresh session shows it, and a submission of it that
    selects another model and enters a price. *)
Definition first_selection : selection :=
  {| selected_type := "Car";
     selected_brand := "Maruti Suzuki";
     selected_model := "Swift" |}.

Definition baleno_form : Form.values :=
  {| Form.vehicle_type_selector := "Car";
     Form.brand_selector := "Maruti Suzuki";
     Form.model_selector := "Baleno";
     Form.year := 2026;
     Form.purchase_date := 739924;
     Form.price := 1200000;
     Form.current_km := 52000;
     Form.usage := "City" |}.

Definition fresh_session : session_state :=
  {| vehicles := Some []; parts_cache := Some ∅ |}.

(** * Properties *)

(** ** Binary64 arithmetic

    Small integers convert exactly, rounding moves a 53 or 54 digit
    mantissa by less than two units, and so the quotient of a day count
    by [30.44] is close enough to the exact one to decide the month
    test. *)

Section float_facts.
Import PyFloat.

Lemma digits2_pos_size (p : positive) : digits2_pos p = Pos.size p.
Proof. induction p; cbn; by rewrite ?IHp. Qed.

Lemma Zdigits2_log2 (p : positive) : Z.pos (digits2_pos p) = Z.log2 (Z.pos p) + 1.
Proof.
  rewrite digits2_pos_size. destruct p; cbn [Z.log2 Pos.size]; lia.
Qed.

Lemma digits2_pos_range (p : positive) (k : Z) :
  2 ^ (k - 1) ≤ Z.pos p < 2 ^ k → 0 < k → Z.pos (digits2_pos p) = k.
Proof.
  intros Hp Hk. rewrite Zdigits2_log2.
  rewrite (Z.log2_unique (Z.pos p) (k - 1)); [lia|lia|].
  by replace (Z.succ (k - 1)) with k by lia.
Qed.

Lemma digits2_pos_53 (p : positive) :
  2 ^ 52 ≤ Z.pos p < 2 ^ 53 → Z.pos (digits2_pos p) = 53.
Proof. intros. by apply digits2_pos_range. Qed.

Lemma digits2_pos_54 (p : positive) :
  2 ^ 53 ≤ Z.pos p < 2 ^ 54 → Z.pos (digits2_pos p) = 54.
Proof. intros. by apply digits2_pos_range. Qed.

Lemma iter_xO_mul (p d : positive) : Z.pos (Pos.iter xO p d) = Z.pos p * 2 ^ Z.pos d.
Proof.
  change (Pos.iter xO p d) with (shift_pos d p).
  rewrite shift_pos_correct, Z.pow_pos_fold. lia.
Qed.


Lemma binary_round_aux_renormalize (s : bool) (m e : Z) (l : location) :
  binary_round_aux prec emax s m e l =
    let '(mrs, e') := shr_fexp prec emax m e l in
    renormalize s (round_nearest_even (shr_m mrs) (loc_of_shr_record mrs)) e'.
Proof. reflexivity. Qed.

Lemma fexp_normal (d e : Z) :
  -1074 ≤ d + e - 53 → fexp prec emax (d + e) - e = d - 53.
Proof. unfold fexp, emin, prec, emax. lia. Qed.

Lemma shr_fexp_53 (m : positive) (e : Z) (l : location) :
  Z.pos (digits2_pos m) = 53 → -1074 ≤ e →
  shr_fexp prec emax (Z.pos m) e l = (shr_record_of_loc (Z.pos m) l, e).
Proof.
  intros Hd He. unfold shr_fexp. cbn [Zdigits2]. rewrite Hd.
  rewrite fexp_normal by lia. reflexivity.
Qed.

Lemma shr_fexp_54 (m : positive) (e : Z) (l : location) :
  Z.pos (digits2_pos m) = 54 → -1074 ≤ e →
  shr_fexp prec emax (Z.pos m) e l = (shr_1 (shr_record_of_loc (Z.pos m) l), e + 1).
Proof.
  intros Hd He. unfold shr_fexp. cbn [Zdigits2]. rewrite Hd.
  rewrite fexp_normal by lia. reflexivity.
Qed.

Lemma renormalize_53 (s : bool) (m : positive) (e : Z) :
  2 ^ 52 ≤ Z.pos m < 2 ^ 53 → -1074 ≤ e ≤ 971 →
  renormalize s (Z.pos m) e = S754_finite s m e.
Proof.
  intros Hm He. unfold renormalize.
  rewrite shr_fexp_53; [|apply digits2_pos_53; lia|lia]. cbn [shr_record_of_loc shr_m].
  rewrite (proj2 (Z.leb_le e (emax - prec))); [done|]. unfold emax, prec. lia.
Qed.

Lemma renormalize_carry (s : bool) (e : Z) :
  -1074 ≤ e ≤ 970 →
  renormalize s (2 ^ 53) e = S754_finite s 4503599627370496 (e + 1).
Proof.
  intros He. unfold renormalize.
  change (2 ^ 53) with (Z.pos 9007199254740992).
  rewrite shr_fexp_54 by (done || lia). cbn [shr_record_of_loc shr_1 shr_m].
  rewrite (proj2 (Z.leb_le (e + 1) (emax - prec))); [done|]. unfold emax, prec. lia.
Qed.

  (** Rounding a mantissa of 53 or 54 digits moves it by less than two
    units of its last place. *)
Lemma renormalize_near (s : bool) (m : positive) (e : Z) :
  2 ^ 52 ≤ Z.pos m ≤ 2 ^ 53 → -1074 ≤ e ≤ 970 →
  ∃ M E, renormalize s (Z.pos m) e = S754_finite s M E
         ∧ e ≤ E ≤ e + 1 ∧ Z.pos M * 2 ^ (E - e) = Z.pos m.
Proof.
  intros Hm He. destruct (decide (Z.pos m = 2 ^ 53)) as [Heq|Hne].
  - rewrite Heq, renormalize_carry by lia. eexists _, _. split; [done|].
    split; [lia|]. replace (e + 1 - e) with 1 by lia. done.
  - rewrite renormalize_53 by lia. eexists _, _. split; [done|].
    split; [lia|]. replace (e - e) with 0 by lia. lia.
Qed.

Lemma round_nearest_even_near (m : Z) (l : location) :
  m ≤ round_nearest_even m l ≤ m + 1.
Proof. destruct l as [|[]]; cbn; try destruct (Z.even m); lia. Qed.

Lemma loc_of_shr_record_of_loc (m : Z) (l : location) :
  loc_of_shr_record (shr_record_of_loc m l) = l.
Proof. by destruct l as [|[]]. Qed.

Lemma shr_1_half (m : positive) (l : location) :
  1 < Z.pos m →
  ∃ h, shr_m (shr_1 (shr_record_of_loc (Z.pos m) l)) = Z.pos h
       ∧ 2 * Z.pos h ≤ Z.pos m ≤ 2 * Z.pos h + 1.
Proof.
  intros Hm. destruct m as [h|h|]; [| |lia];
    exists h; (split; [by destruct l as [|[]]|lia]).
Qed.

Lemma binary_round_aux_near (s : bool) (q : positive) (e : Z) (l : location) :
  2 ^ 52 ≤ Z.pos q < 2 ^ 54 → -1074 ≤ e ≤ 900 →
  ∃ M E, binary_round_aux prec emax s (Z.pos q) e l = S754_finite s M E
         ∧ e ≤ E ≤ e + 2
         ∧ Z.pos q - 1 ≤ Z.pos M * 2 ^ (E - e) ≤ Z.pos q + 2.
Proof.
  intros Hq He. rewrite binary_round_aux_renormalize.
  destruct (Z.lt_ge_cases (Z.pos q) (2 ^ 53)) as [Hlt|Hge].
  - rewrite shr_fexp_53; [|apply digits2_pos_53; lia|lia].
    rewrite loc_of_shr_record_of_loc.
    replace (shr_m (shr_record_of_loc (Z.pos q) l)) with (Z.pos q)
      by (by destruct l as [|[]]).
    pose proof (round_nearest_even_near (Z.pos q) l) as Hr.
    destruct (round_nearest_even (Z.pos q) l) as [|r|r] eqn:Hrd; [lia| |lia].
    destruct (renormalize_near s r e) as (M & E & -> & HE & HM); [lia..|].
    exists M, E. split; [done|]. split; [lia|]. rewrite HM. lia.
  - rewrite shr_fexp_54; [|apply digits2_pos_54; lia|lia].
    destruct (shr_1_half q l) as (h & Hh & Hhq); [lia|].
    pose proof (round_nearest_even_near
      (shr_m (shr_1 (shr_record_of_loc (Z.pos q) l)))
      (loc_of_shr_record (shr_1 (shr_record_of_loc (Z.pos q) l)))) as Hr.
    destruct (round_nearest_even _ _) as [|r|r] eqn:Hrd; [lia| |lia].
    destruct (renormalize_near s r (e + 1)) as (M & E & -> & HE & HM); [lia..|].
    exists M, E. split; [done|]. split; [lia|].
    replace (E - e) with ((E - (e + 1)) + 1) by lia.
    rewrite Z.pow_add_r, Z.mul_assoc, HM by lia. lia.
Qed.

Lemma digits2_pos_iter_xO (p d : positive) :
  digits2_pos (Pos.iter xO p d) = (digits2_pos p + d)%positive.
Proof.
  induction d as [|d IH] using Pos.peano_ind.
  - cbn. lia.
  - rewrite Pos.iter_succ. cbn [digits2_pos]. rewrite IH. lia.
Qed.

Lemma digits2_pos_bounds (p : positive) :
  2 ^ (Z.pos (digits2_pos p) - 1) ≤ Z.pos p < 2 ^ Z.pos (digits2_pos p).
Proof.
  rewrite Zdigits2_log2. pose proof (Z.log2_spec (Z.pos p) eq_refl) as H.
  replace (Z.log2 (Z.pos p) + 1 - 1) with (Z.log2 (Z.pos p)) by lia.
  by replace (Z.log2 (Z.pos p) + 1) with (Z.succ (Z.log2 (Z.pos p))) by lia.
Qed.

Lemma binary_round_aux_exact (s : bool) (m : positive) (e : Z) :
  2 ^ 52 ≤ Z.pos m < 2 ^ 53 → -1074 ≤ e ≤ 971 →
  binary_round_aux prec emax s (Z.pos m) e loc_Exact = S754_finite s m e.
Proof.
  intros Hm He. rewrite binary_round_aux_renormalize.
  rewrite shr_fexp_53; [|apply digits2_pos_53; lia|lia].
  cbn [shr_record_of_loc shr_m loc_of_shr_record round_nearest_even].
  by apply renormalize_53.
Qed.

  (** Integers below [2^53] convert exactly: the mantissa is the integer
    shifted to 53 digits. *)
Lemma binary_round_exact (s : bool) (p : positive) :
  Z.pos p < 2 ^ 53 →
  ∃ m e, binary_round prec emax s p 0 = S754_finite s m e
         ∧ 2 ^ 52 ≤ Z.pos m < 2 ^ 53
         ∧ -52 ≤ e ≤ 0
         ∧ Z.pos m = Z.pos p * 2 ^ (- e).
Proof.
  intros Hp.
  pose proof (digits2_pos_bounds p) as Hb.
  assert (Z.pos (digits2_pos p) ≤ 53) as Hd.
  { destruct (Z.le_gt_cases (Z.pos (digits2_pos p)) 53) as [|Hgt]; [done|].
    assert (2 ^ 53 ≤ 2 ^ (Z.pos (digits2_pos p) - 1)); [|lia].
    apply Z.pow_le_mono_r; lia. }
  unfold binary_round.
  replace (fexp prec emax (Z.pos (digits2_pos p) + 0))
    with (Z.pos (digits2_pos p) - 53) by (unfold fexp, emin, prec, emax; lia).
  unfold shl_align.
  destruct (Z.pos (digits2_pos p) - 53 - 0) as [|k|k] eqn:Hk; [|lia|].
  - assert (Z.pos (digits2_pos p) = 53) as H53 by lia. rewrite H53 in Hb.
    change (53 - 1) with 52 in Hb.
    rewrite binary_round_aux_exact by lia. exists p, 0.
    split; [done|]. split; [done|]. split; [lia|]. change (2 ^ (- 0)) with 1. lia.
  - assert (Z.pos (digits2_pos (Pos.iter xO p k)) = 53) as H53.
    { rewrite digits2_pos_iter_xO. lia. }
    pose proof (digits2_pos_bounds (Pos.iter xO p k)) as Hb'.
    rewrite H53 in Hb'. change (53 - 1) with 52 in Hb'.
    rewrite binary_round_aux_exact by lia.
    eexists _, _. split; [done|]. split; [done|]. split; [lia|].
    rewrite iter_xO_mul. f_equal. f_equal. lia.
Qed.

Lemma DAYS_PER_MONTH_eq :
  DAYS_PER_MONTH = S754_finite false 8568098291072369 (-48).
Proof. by vm_compute. Qed.

  (** Division of a normal number by [30.44]: the result is the quotient
    [q] of the mantissas up to two units. *)
Lemma SFdiv_days_per_month (s : bool) (mx : positive) (ex : Z) :
  2 ^ 52 ≤ Z.pos mx < 2 ^ 53 → -52 ≤ ex ≤ 0 →
  ∃ M E q,
    SFdiv prec emax (S754_finite s mx ex) DAYS_PER_MONTH = S754_finite s M E
    ∧ ex - 5 ≤ E ≤ ex - 3
    ∧ q * 8568098291072369 ≤ Z.pos mx * 2 ^ 53 < (q + 1) * 8568098291072369
    ∧ q - 1 ≤ Z.pos M * 2 ^ (E - (ex - 5)) ≤ q + 2.
Proof.
  intros Hmx Hex. rewrite DAYS_PER_MONTH_eq. unfold SFdiv, SFdiv_core_binary.
  cbn [Zdigits2]. rewrite (digits2_pos_53 mx Hmx).
  change (Z.pos (digits2_pos 8568098291072369)) with 53.
  replace (Z.min (fexp prec emax (53 + ex - (53 + -48))) (ex - -48))
    with (ex - 5) by (unfold fexp, emin, prec, emax; lia).
  replace (ex - -48 - (ex - 5)) with 53 by lia.
  cbv iota. rewrite Z.shiftl_mul_pow2 by lia.
  pose proof (Z_div_mod (Z.pos mx * 2 ^ 53) 8568098291072369 eq_refl) as Hdiv.
  destruct (Z.div_eucl (Z.pos mx * 2 ^ 53) 8568098291072369) as [q r].
  destruct Hdiv as [Hqr Hr].
  assert (2 ^ 52 ≤ q < 2 ^ 54) as Hq by lia.
  destruct q as [|q|q]; [lia| |lia].
  destruct (binary_round_aux_near (xorb s false) q (ex - 5) (new_location 8568098291072369 r))
    as (M & E & HME & HE & HM); [lia..|].
  rewrite xorb_false_r in HME |- *.
  exists M, E, (Z.pos q). split; [done|]. split; [lia|]. split; [lia|done].
Qed.

Lemma ge_int_negative (M : positive) (E m : Z) :
  0 < m → PyFloat.ge_int (S754_finite true M E) m = false.
Proof.
  intros Hm. unfold PyFloat.ge_int. cbn [cond_Zopp].
  destruct (0 <=? E) eqn:HE; apply Z.leb_gt.
  - apply Z.leb_le in HE. pose proof (Z.pow_pos_nonneg 2 E). nia.
  - apply Z.leb_gt in HE. pose proof (Z.pow_pos_nonneg 2 (- E)). nia.
Qed.

Lemma truediv_days_per_month (x : float) :
  PyFloat.truediv x DAYS_PER_MONTH = Ok (SFdiv prec emax x DAYS_PER_MONTH).
Proof. unfold PyFloat.truediv. by rewrite DAYS_PER_MONTH_eq. Qed.

  (** The float test [days / 30.44 >= months] decides the exact
    inequality [30.44 * months <= days] for day counts in the range of
    date differences and month counts that are not a multiple of 25. *)
Lemma months_test_exact (n m : Z) :
  - 2 ^ 22 < n < 2 ^ 22 → 0 < m ≤ 1000 → m mod 25 ≠ 0 →
  ∃ x, PyFloat.int_truediv n DAYS_PER_MONTH = Ok x
       ∧ (PyFloat.ge_int x m = true ↔ 761 * m ≤ 25 * n).
Proof.
  intros Hn Hm Hm25. unfold PyFloat.int_truediv, PyFloat.of_int, PyFloat.round_int.
  destruct n as [|p|p]; cbn [binary_normalize bind].
  - rewrite truediv_days_per_month, DAYS_PER_MONTH_eq. cbn [SFdiv xorb].
    eexists; split; [done|]. cbn [PyFloat.ge_int]. rewrite Z.leb_le. lia.
  - destruct (binary_round_exact false p) as (mx & ex & -> & Hmx & Hex & Hval); [lia|].
    cbn [bind]. rewrite truediv_days_per_month.
    destruct (SFdiv_days_per_month false mx ex Hmx Hex)
      as (M & E & q & -> & HE & Hq & HM).
    eexists; split; [done|]. unfold PyFloat.ge_int. cbn [cond_Zopp].
    rewrite (proj2 (Z.leb_gt 0 E)) by lia. rewrite Z.leb_le.
    assert (2 ^ 36 ≤ 2 ^ (5 - ex)) as HK.
    { apply Z.pow_le_mono_r; [lia|]. 
      destruct (Z.le_gt_cases 31 (- ex)) as [|Hlt]; [lia|].
      assert (2 ^ (- ex) ≤ 2 ^ 30) by (apply Z.pow_le_mono_r; lia). nia. }
    assert (2 ^ (5 - ex) = 2 ^ (- E) * 2 ^ (E - (ex - 5))) as HKE.
    { rewrite <- Z.pow_add_r by lia. f_equal. lia. }
    assert (Z.pos mx * 2 ^ 53 = Z.pos p * 2 ^ 48 * 2 ^ (5 - ex)) as Hm'.
    { rewrite Hval. replace (5 - ex) with (5 + - ex) by lia.
      rewrite Z.pow_add_r by lia. lia. }
    assert (0 < 2 ^ (E - (ex - 5))) as HD by (apply Z.pow_pos_nonneg; lia).
    assert (0 < 2 ^ (- E)) as HP by (apply Z.pow_pos_nonneg; lia).
    set (K := 2 ^ (5 - ex)) in *. set (D := 2 ^ (E - (ex - 5))) in *.
    set (P := 2 ^ (- E)) in *.
    assert (761 * m ≠ 25 * Z.pos p) as Hne.
    { intros Heq. apply Hm25. 
      assert ((761 * m) mod 25 = 0) as H0 by (rewrite Heq, Z.mul_comm; apply Z_mod_mult).
      rewrite <- Zmult_mod_idemp_l in H0. change (761 mod 25) with 11 in H0.
      assert (H25 := Z.mod_pos_bound m 25 eq_refl).
      rewrite <- Zmult_mod_idemp_r in H0.
      remember (m mod 25) as t. 
      assert (t ∈ seqZ 0 25) as Ht by (apply elem_of_seqZ; lia).
      clear -Ht H0. cbv in Ht. 
      repeat (apply elem_of_cons in Ht as [->|Ht]; [try done; by vm_compute in H0|]).
      by apply elem_of_nil in Ht. }
    split.
    + intros Hge. destruct (Z.le_gt_cases (761 * m) (25 * Z.pos p)) as [|Hlt]; [done|].
      exfalso.
      assert (q + 2 < m * K); [|nia].
      assert (Z.pos p * 2 ^ 48 * K < (m * K - 2) * 8568098291072369); [|nia].
      assert (2 ^ 43 ≤ m * 8568098291072369 - Z.pos p * 2 ^ 48) by lia.
      nia.
    + intros Hle. 
      assert (m * K ≤ q - 1); [|nia].
      assert ((m * K + 1) * 8568098291072369 ≤ Z.pos p * 2 ^ 48 * K); [|nia].
      assert (2 ^ 43 ≤ Z.pos p * 2 ^ 48 - m * 8568098291072369) by lia.
      nia.
  - destruct (binary_round_exact true p) as (mx & ex & -> & Hmx & Hex & Hval); [lia|].
    cbn [bind]. rewrite truediv_days_per_month.
    destruct (SFdiv_days_per_month true mx ex Hmx Hex)
      as (M & E & q & -> & HE & Hq & HM).
    eexists; split; [done|]. rewrite ge_int_negative by lia. split; [done|lia].
Qed.

End float_facts.

(** ** Part recommendation *)

Lemma typed_lookup (v : dict) key x :
  vehicle_record v → v !! key = Some x → field_typed key x = true.
Proof. intros (Hall & _) Hx. exact (Hall key x Hx). Qed.

Lemma record_current_km (v : dict) :
  vehicle_record v →
  dict_get v "current_km" (VInt 0) = VInt (current_km_of v).
Proof.
  intros Hv. unfold current_km_of, dict_get.
  destruct (v !! "current_km") as [x|] eqn:Hx; [|done].
  apply (typed_lookup _ _ _ Hv) in Hx. by destruct x.
Qed.

Lemma elem_of_sorted_set (p : process) (l : list string) part :
  part ∈ sorted (set_order p l) ↔ part ∈ l.
Proof.
  unfold sorted. rewrite merge_sort_Permutation, set_order_perm.
  apply elem_of_remove_dups.
Qed.

Ltac km_region km :=
  destruct (Z.le_gt_cases km 20000);
  [|destruct (Z.le_gt_cases km 40000);
    [|destruct (Z.le_gt_cases km 50000);
      [|destruct (Z.le_gt_cases km 80000);
        [|destruct (Z.le_gt_cases km 100000)]]]].

Ltac decide_tests :=
  repeat match goal with
  | |- context [?a <? ?b] =>
      first [ rewrite (proj2 (Z.ltb_lt a b)) by lia
            | rewrite (proj2 (Z.ltb_ge a b)) by lia ]
  | |- context [?a <=? ?b] =>
      first [ rewrite (proj2 (Z.leb_le a b)) by lia
            | rewrite (proj2 (Z.leb_gt a b)) by lia ]
  end.


Ltac rule_search :=
  lazymatch goal with
  | |- _ ∧ _ => split; rule_search
  | |- _ ∨ _ => first [ solve [left; rule_search] | solve [right; rule_search] ]
  | |- _ ∈ _ => solve [repeat constructor]
  | |- @eq Z _ _ => lia
  | |- _ = _ => first [reflexivity | assumption]
  | |- _ => lia
  end.

Ltac split_members :=
  repeat match goal with
  | H : _ ∈ _ :: _ |- _ => apply elem_of_cons in H as [->|H]
  | H : _ ∈ [] |- _ => by apply elem_of_nil in H
  | H : _ ∧ _ |- _ => destruct H
  | H : _ ∨ _ |- _ => destruct H
  end.

Lemma recommended_parts_raw (p : process) (v : dict) :
  vehicle_record v →
  ∃ l, get_recommended_parts p v = Ok (sorted (set_order p l))
       ∧ ∀ part,
           part ∈ l
           ↔ rule_selects (current_km_of v) (usage_of v) (type_of v) part.
Proof.
  intros Hv. unfold get_recommended_parts.
  rewrite (record_current_km v Hv).
  fold (usage_of v). fold (type_of v).
  generalize (current_km_of v) (usage_of v) (type_of v). intros km usage ty.
  unfold between, int_lt, gt_int, le_int, bind, py_eq, rule_selects.
  km_region km; decide_tests; cbn [app];
    repeat case_bool_decide; subst; try discriminate; cbn [app];
    (eexists; split; [reflexivity|]);
    intros part; (split; [intros Hin | intros Hrule]).
  all: split_members; subst; try lia; try congruence; try done.
  all: try rule_search.
  all: try solve [repeat constructor].
Qed.

Lemma sorted_Sorted (l : list string) : Sorted String.le (sorted l).
Proof. apply (Sorted_merge_sort String.le). Qed.

Lemma sorted_set_NoDup (p : process) (l : list string) :
  NoDup (sorted (set_order p l)).
Proof.
  unfold sorted. rewrite merge_sort_Permutation, set_order_perm.
  apply NoDup_remove_dups.
Qed.

Lemma str_lt_le_ne (a b : string) : String.le a b → a ≠ b → str_lt a b.
Proof.
  unfold String.le, str_lt, String.leb, String.ltb. intros Hle Hne.
  destruct (String.compare a b) eqn:Hc; [|done..].
  by apply String.compare_eq_iff in Hc.
Qed.

Lemma strictly_sorted (l : list string) :
  Sorted String.le l → NoDup l → StronglySorted str_lt l.
Proof.
  intros Hs%(Sorted_StronglySorted String.le). 
  induction Hs as [|x l Hs IH Hx]; intros Hnd; [constructor|].
  apply NoDup_cons in Hnd as [Hx' Hnd]. constructor; [by apply IH|].
  rewrite Forall_forall in Hx |- *. intros y Hy.
  apply str_lt_le_ne; [by apply Hx|]. by intros ->.
Qed.

Lemma sorted_set_order_irrelevant (p1 p2 : process) (l : list string) :
  sorted (set_order p1 l) = sorted (set_order p2 l).
Proof.
  apply (Sorted_unique String.le); [apply sorted_Sorted..|].
  unfold sorted. by rewrite !merge_sort_Permutation, !set_order_perm.
Qed.

(** C3: for every vehicle record, [get_recommended_parts] returns a list
    without duplicates whose members are exactly the parts the kilometer
    and usage rules select: brake pads and tires between 50000 and 80000
    km, spark plugs and suspension components above 80000 km, the city
    and commercial parts of the usage, and the parts particular to a car,
    a bike or a scooter. *)
Theorem get_recommended_parts_rules (p : process) (v : dict) :
  vehicle_record v →
  ∃ parts,
    get_recommended_parts p v = Ok parts
    ∧ NoDup parts
    ∧ ∀ part,
        part ∈ parts
        ↔ rule_selects (current_km_of v) (usage_of v) (type_of v) part.
Proof.
  intros Hv. destruct (recommended_parts_raw p v Hv) as (l & -> & Hl).
  eexists; split; [reflexivity|]. split; [apply sorted_set_NoDup|].
  intros part. by rewrite elem_of_sorted_set.
Qed.

Lemma get_recommended_parts_rules_witness :
  vehicle_record sample_vehicle
  ∧ ∃ parts,
      get_recommended_parts reversed_process sample_vehicle = Ok parts
      ∧ NoDup parts
      ∧ ∀ part,
          part ∈ parts
          ↔ rule_selects (current_km_of sample_vehicle)
                         (usage_of sample_vehicle) (type_of sample_vehicle)
                         part.
Proof.
  assert (vehicle_record sample_vehicle) as Hv
    by (apply (bool_decide_unpack _); vm_compute; exact I).
  split; [exact Hv|].
  exact (get_recommended_parts_rules reversed_process sample_vehicle Hv).
Defined.

(** C9: for every vehicle record, the list [get_recommended_parts]
    returns is strictly ascending in lexicographic order and has no
    duplicates. *)
Theorem get_recommended_parts_sorted (p : process) (v : dict) :
  vehicle_record v →
  ∃ parts,
    get_recommended_parts p v = Ok parts
    ∧ StronglySorted str_lt parts
    ∧ NoDup parts.
Proof.
  intros Hv. destruct (recommended_parts_raw p v Hv) as (l & -> & _).
  eexists; split; [reflexivity|].
  split; [|apply sorted_set_NoDup].
  apply strictly_sorted; [apply sorted_Sorted|apply sorted_set_NoDup].
Qed.

Lemma get_recommended_parts_sorted_witness :
  vehicle_record sample_vehicle
  ∧ ∃ parts,
      get_recommended_parts reversed_process sample_vehicle = Ok parts
      ∧ StronglySorted str_lt parts
      ∧ NoDup parts.
Proof.
  assert (vehicle_record sample_vehicle) as Hv
    by (apply (bool_decide_unpack _); vm_compute; exact I).
  split; [exact Hv|].
  exact (get_recommended_parts_sorted reversed_process sample_vehicle Hv).
Defined.

(** ** Services due *)

Lemma bind_ok {A B} (m : result A) (f : A → result B) (b : B) :
  bind m f = Ok b ↔ ∃ a, m = Ok a ∧ f a = Ok b.
Proof.
  destruct m as [a|e]; cbn; [|split; [done|by intros (? & ? & ?)]].
  split; [by exists a|by intros (? & [= ->] & ?)].
Qed.

(** *** The tables *)

Lemma tables_ok :
  map_Forall (λ ty items, schedule_ok ty items = true) SERVICE_SCHEDULES.
Proof. apply (bool_decide_unpack _). by vm_compute. Qed.

Lemma schedule_names_NoDup ty items :
  SERVICE_SCHEDULES !! ty = Some items → NoDup items.*1.
Proof.
  intros H%tables_ok. unfold schedule_ok in H.
  apply andb_prop in H as [H _]. apply andb_prop in H as [H _].
  by apply bool_decide_eq_true in H.
Qed.

Lemma schedule_has_parts ty items :
  SERVICE_SCHEDULES !! ty = Some items → is_Some (SERVICE_PARTS !! ty).
Proof.
  intros H%tables_ok. unfold schedule_ok in H.
  apply andb_prop in H as [H _]. apply andb_prop in H as [_ H].
  by apply bool_decide_eq_true in H.
Qed.

Lemma schedule_adjusted_ok ty items name info usage mult :
  SERVICE_SCHEDULES !! ty = Some items → (name, info) ∈ items →
  USAGE_MULTIPLIERS !! usage = Some mult →
  adjusted_ok info mult = true.
Proof.
  intros H%tables_ok Hin Hm. unfold schedule_ok in H.
  apply andb_prop in H as [_ H]. rewrite forallb_forall in H.
  apply list_elem_of_In in Hin. apply H in Hin.
  apply andb_prop in Hin as [Hin _]. apply bool_decide_eq_true in Hin.
  exact (Hin usage mult Hm).
Qed.

Lemma schedule_adjustment_exact ty items name info usage :
  SERVICE_SCHEDULES !! ty = Some items → (name, info) ∈ items →
  adjustment_exact info (usage_tenths usage) = true.
Proof.
  intros H%tables_ok Hin. unfold schedule_ok in H.
  apply andb_prop in H as [_ H]. rewrite forallb_forall in H.
  apply list_elem_of_In in Hin. apply H in Hin.
  apply andb_prop in Hin as [_ Hin]. rewrite forallb_forall in Hin.
  apply Hin. unfold usage_tenths.
  repeat (destruct (bool_decide _); [cbn; auto 6|]). cbn; auto 6.
Qed.

Lemma mixed_multiplier :
  dict_item USAGE_MULTIPLIERS "Mixed" = Ok (usage_multiplier 10 10).
Proof. reflexivity. Qed.

Lemma multiplier_of_tenths (v : dict) :
  multiplier_of v
  = usage_multiplier (usage_tenths (usage_of v)).1 (usage_tenths (usage_of v)).2.
Proof.
  unfold multiplier_of, usage_tenths, table_lookup.
  destruct (usage_of v) as [| |s| |]; try reflexivity.
  destruct (decide (s = "City")) as [->|]; [reflexivity|].
  destruct (decide (s = "Highway")) as [->|]; [reflexivity|].
  destruct (decide (s = "Commercial")) as [->|]; [reflexivity|].
  destruct (decide (s = "Mixed")) as [->|]; [reflexivity|].
  rewrite !bool_decide_eq_false_2 by congruence.
  unfold USAGE_MULTIPLIERS. rewrite (not_elem_of_list_to_map_1 _ s); [done|].
  cbn. rewrite !elem_of_cons, elem_of_nil.
  intros [?|[?|[?|[?|[]]]]]; congruence.
Qed.

Lemma multiplier_of_listed (v : dict) :
  ∃ usage, USAGE_MULTIPLIERS !! usage = Some (multiplier_of v).
Proof.
  unfold multiplier_of. destruct (table_lookup _ _) as [m|] eqn:H.
  - destruct (usage_of v); try done. by eexists.
  - by exists "Mixed".
Qed.

(** *** Fields of a vehicle record *)

Lemma is_date_inv x :
  is_date x = true → ∃ d, x = VDate d ∧ MINORDINAL ≤ d ≤ MAXORDINAL.
Proof.
  destruct x as [| | |d|]; try done. cbn. intros [??]%andb_prop.
  exists d. split; [done|lia].
Qed.

Lemma is_int_inv x : is_int x = true → x = VInt (km_of x).
Proof. by destruct x. Qed.

Lemma record_purchase_date (v : dict) :
  vehicle_record v →
  ∃ d, v !! "purchase_date" = Some (VDate d) ∧ MINORDINAL ≤ d ≤ MAXORDINAL.
Proof.
  intros Hv. destruct Hv as (Hall & [x Hx] & _).
  pose proof (Hall _ _ Hx) as Ht. apply is_date_inv in Ht as (d & -> & Hd).
  by exists d.
Qed.

Lemma prefix_app (s t : string) : String.prefix s (s +:+ t) = true.
Proof.
  induction s as [|a s IH]; [by destruct t|].
  change (String.prefix (String a s) (String a (s +:+ t)) = true).
  cbn [String.prefix]. by destruct (Ascii.ascii_dec a a).
Qed.

Lemma field_typed_last_km name x :
  field_typed ("last_service_km_" +:+ name) x = is_int x.
Proof.
  unfold field_typed.
  by rewrite prefix_app, orb_true_r.
Qed.

Lemma field_typed_last_date name x :
  field_typed ("last_service_date_" +:+ name) x = is_date x.
Proof.
  unfold field_typed.
  replace (String.prefix "last_service_km_" ("last_service_date_" +:+ name))
    with false by reflexivity.
  rewrite prefix_app, !bool_decide_eq_false_2 by done. by rewrite orb_true_r.
Qed.

Lemma record_last_km (v : dict) name :
  vehicle_record v →
  dict_get v ("last_service_km_" +:+ name) (dict_get v "initial_km" (VInt 0))
  = VInt (km_of (dict_get v ("last_service_km_" +:+ name)
                          (dict_get v "initial_km" (VInt 0)))).
Proof.
  intros Hv. apply is_int_inv. unfold dict_get.
  destruct (v !! ("last_service_km_" +:+ name)) as [x|] eqn:Hx.
  - apply (typed_lookup _ _ _ Hv) in Hx. by rewrite field_typed_last_km in Hx.
  - destruct (v !! "initial_km") as [x|] eqn:Hi; [|done].
    apply (typed_lookup _ _ _ Hv) in Hi. exact Hi.
Qed.

Lemma record_last_date (v : dict) name pd :
  vehicle_record v → v !! "purchase_date" = Some (VDate pd) →
  ∃ d, dict_get v ("last_service_date_" +:+ name) (VDate pd) = VDate d
       ∧ d = ordinal_of (dict_get v ("last_service_date_" +:+ name)
                                  (dict_get v "purchase_date" VNone))
       ∧ MINORDINAL ≤ d ≤ MAXORDINAL.
Proof.
  intros Hv Hpd. unfold dict_get at 1 2. 
  destruct (v !! ("last_service_date_" +:+ name)) as [x|] eqn:Hx.
  - apply (typed_lookup _ _ _ Hv) in Hx.
    rewrite field_typed_last_date in Hx.
    apply is_date_inv in Hx as (d & -> & Hd). by exists d.
  - unfold dict_get. rewrite Hpd. exists pd. split; [done|]. split; [done|].
    apply (typed_lookup _ _ _ Hv) in Hpd. by apply is_date_inv in Hpd as (? & [= <-] & ?).
Qed.

(** The records the application builds and updates are vehicle records. *)
Lemma new_vehicle_record (form : Form.values) :
  MINORDINAL ≤ Form.purchase_date form ≤ MAXORDINAL →
  vehicle_record (new_vehicle form).
Proof.
  intros Hdate. split; [|split; by eexists].
  apply map_Forall_to_list. unfold new_vehicle.
  rewrite map_to_list_to_map
    by (apply (bool_decide_unpack _); vm_compute; exact I).
  repeat (apply Forall_cons; split; [try reflexivity|]); [|apply Forall_nil_2].
  cbn. apply andb_true_intro. split; apply Z.leb_le; lia.
Qed.

Lemma update_kilometers_record (v : dict) (new_km : Z) :
  vehicle_record v → vehicle_record (<["current_km" := VInt new_km]> v).
Proof.
  intros (Hall & Hpd & Hty). split; [|split].
  - by apply map_Forall_insert_2.
  - by rewrite lookup_insert_ne.
  - by rewrite lookup_insert_ne.
Qed.

(** *** One iteration of the loop *)

Lemma service_due_step_inv service_parts p v purchase_date current_km mult ty
    name info r :
  service_due_step service_parts p v purchase_date current_km mult ty name info = Ok r →
  ∃ m k driven elapsed km_due,
    adjusted_interval (Schedule.interval_months info) (service_frequency mult) = Ok m
    ∧ adjusted_interval (Schedule.interval_km info) (parts_wear mult) = Ok k
    ∧ py_sub current_km
        (dict_get v ("last_service_km_" +:+ name) (dict_get v "initial_km" (VInt 0)))
      = Ok driven
    ∧ months_since (VDate (today p))
        (dict_get v ("last_service_date_" +:+ name) purchase_date) = Ok elapsed
    ∧ (if 0 <? k then ge_int driven k else Ok false) = Ok km_due
    ∧ let time_due := (0 <? m) && PyFloat.ge_int elapsed m in
      match r with
      | None => time_due || km_due = false
      | Some entry =>
          time_due || km_due = true
          ∧ Due.service entry = name
          ∧ 0 ≤ Due.days_overdue entry
          ∧ (time_due = false → Due.days_overdue entry = 0)
          ∧ Due.due_reason entry =
              str_join " & " ((if time_due then ["Time Interval"] else [])
                              ++ (if km_due then ["Kilometer Reading"] else []))
          ∧ Due.cost_range entry = Schedule.cost_range info
      end.
Proof.
  unfold service_due_step. intros H.
  apply bind_ok in H as (m & Hm & H). apply bind_ok in H as (k & Hk & H).
  apply bind_ok in H as (driven & Hd & H). apply bind_ok in H as (elapsed & He & H).
  apply bind_ok in H as (km_due & Hkd & H).
  exists m, k, driven, elapsed, km_due. do 5 (split; [done|]). cbn zeta.
  destruct ((0 <? m) && PyFloat.ge_int elapsed m || km_due) eqn:Hdue.
  - apply bind_ok in H as (overdue & Ho & H). apply bind_ok in H as (parts & Hp & H).
    injection H as <-. cbn. split; [done|]. split; [done|]. split; [lia|].
    split; [|done]. intros Ht. rewrite Ht in Ho. injection Ho as <-. done.
  - by injection H as <-.
Qed.

Lemma adjusted_ok_inv info mult :
  adjusted_ok info mult = true →
  ∃ m k d,
    adjusted_interval (Schedule.interval_months info) (service_frequency mult) = Ok m
    ∧ adjusted_interval (Schedule.interval_km info) (parts_wear mult) = Ok k
    ∧ due_interval m = Ok (VTimedelta d)
    ∧ 0 < m ≤ 1000 ∧ m mod 25 ≠ 0 ∧ 0 < k ∧ 0 ≤ d ∧ 25 * d ≤ 761 * m.
Proof.
  unfold adjusted_ok. intros H.
  destruct (adjusted_interval _ (service_frequency mult)) as [m|]; [|done].
  destruct (adjusted_interval _ (parts_wear mult)) as [k|]; [|done].
  destruct (due_interval m) as [[| | | |d]|] eqn:Hdue;
    rewrite ?andb_false_r in H; try done.
  apply andb_prop in H as [H Hd]. apply andb_prop in Hd as [Hd0 Hd1].
  apply andb_prop in H as [H Hk]. apply andb_prop in H as [H Hm25].
  apply andb_prop in H as [Hm0 Hm1].
  apply negb_true_iff, Z.eqb_neq in Hm25.
  apply Z.ltb_lt in Hm0, Hk. apply Z.leb_le in Hm1, Hd0, Hd1.
  exists m, k, d. repeat split; first [done | lia].
Qed.

Lemma service_due_step_total p v ty items name info pd :
  vehicle_record v → v !! "purchase_date" = Some (VDate pd) →
  SERVICE_SCHEDULES !! ty = Some items → (name, info) ∈ items →
  ∃ m k r,
    adjusted_interval (Schedule.interval_months info)
                      (service_frequency (multiplier_of v)) = Ok m
    ∧ adjusted_interval (Schedule.interval_km info)
                        (parts_wear (multiplier_of v)) = Ok k
    ∧ 0 < m ∧ 0 < k
    ∧ service_due_step SERVICE_PARTS p v (VDate pd)
        (dict_get v "current_km" (VInt 0)) (multiplier_of v) ty name info = Ok r
    ∧ (is_Some r
       ↔ 761 * m ≤ 25 * days_since_service p v name
         ∨ k ≤ km_since_service v name).
Proof.
  intros Hv Hpd Hty Hin.
  destruct (multiplier_of_listed v) as (usage & Hmult).
  destruct (adjusted_ok_inv _ _ (schedule_adjusted_ok _ _ _ _ _ _ Hty Hin Hmult))
    as (m & k & d & Hm & Hk & Hd & Hm0 & Hm25 & Hk0 & Hd0 & Hdm).
  destruct (schedule_has_parts _ _ Hty) as [parts Hparts].
  destruct (record_last_date v name pd Hv Hpd) as (d0 & Hlast & Hd0eq & Hd0r).
  pose proof (today_in_range p) as Htoday.
  unfold MINORDINAL, MAXORDINAL in *.
  destruct (months_test_exact (today p - d0) m) as (x & Hx & Htest);
    [lia..|done|].
  exists m, k. unfold service_due_step.
  rewrite Hm, Hk. cbn [bind].
  rewrite (record_current_km v Hv), (record_last_km v name Hv), Hlast.
  cbn [py_sub bind]. unfold months_since. cbn [py_sub bind attr_days].
  rewrite Hx. cbn [bind].
  rewrite (proj2 (Z.ltb_lt 0 m)), (proj2 (Z.ltb_lt 0 k)) by lia.
  cbn [andb ge_int bind].
  fold (km_since_service v name).
  apply bind_ok in Hd as (days & Hdays & Hdelta).
  assert (days_since_service p v name = today p - d0) as ->.
  { unfold days_since_service. by rewrite <- Hd0eq. }
  unfold dict_item. rewrite Hparts, Hdays. cbn [bind]. rewrite Hdelta.
  cbn [bind py_add]. unfold check_date, MINORDINAL, MAXORDINAL.
  destruct (PyFloat.ge_int x m) eqn:Htime.
  - assert (761 * m ≤ 25 * (today p - d0)) as Hexact by by apply Htest.
    rewrite (proj2 (Z.leb_le 1 (d0 + d))), (proj2 (Z.leb_le (d0 + d) 3652059))
      by lia.
    cbn. eexists. do 5 (split; [done || lia|]). split; [by left|by eexists].
  - assert (¬ 761 * m ≤ 25 * (today p - d0)) as Hexact.
    { intros H%Htest. congruence. }
    destruct (k <=? km_since_service v name) eqn:Hkm; cbn.
    + apply Z.leb_le in Hkm. eexists. do 5 (split; [done || lia|]).
      split; [by right|by eexists].
    + apply Z.leb_gt in Hkm. eexists. do 5 (split; [done || lia|]).
      split; [by intros [? [=]]|lia].
Qed.

(** *** The loop *)

Section loop.
Variable service_parts : gmap string (gmap string (list string)).
Variables (p : process) (v : dict) (pd ckm : value) (mult : multiplier).
Variable ty : string.

Let step (item : string * Schedule.info) : result (option Due.entry) :=
  service_due_step service_parts p v pd ckm mult ty item.1 item.2.

Let produced (item : string * Schedule.info) : option Due.entry :=
  match step item with Ok r => r | Raise _ => None end.

Lemma produced_cons name info (items : schedule) :
  omap produced ((name, info) :: items)
  = match service_due_step service_parts p v pd ckm mult ty name info with
    | Ok (Some e) => e :: omap produced items
    | _ => omap produced items
    end.
Proof.
  change (omap produced ((name, info) :: items))
    with (match produced (name, info) with
          | Some e => e :: omap produced items
          | None => omap produced items
          end).
  unfold produced, step. cbn [fst snd].
  by destruct (service_due_step _ _ _ _ _ _ _ name info) as [[e|]|].
Qed.

Lemma service_due_loop_ok items acc :
  Forall (λ item, is_ok (step item) = true) items →
  service_due_loop service_parts p v pd ckm mult ty items acc
  = Ok (acc ++ omap produced items).
Proof.
  intros Hall. revert acc.
  induction Hall as [|[name info] items Hstep _ IH]; intros acc.
  { cbn. by rewrite app_nil_r. }
  cbn [service_due_loop]. rewrite produced_cons.
  unfold step in Hstep. cbn [fst snd] in Hstep.
  destruct (service_due_step _ _ _ _ _ _ _ name info) as [[e|]|]; [| |done];
    cbn [bind]; rewrite IH; [by rewrite <- app_assoc|done].
Qed.

Lemma service_due_loop_inv items acc due :
  service_due_loop service_parts p v pd ckm mult ty items acc = Ok due →
  Forall (λ item, is_ok (step item) = true) items
  ∧ due = acc ++ omap produced items.
Proof.
  revert acc. induction items as [|[name info] items IH]; intros acc H.
  { cbn in H. injection H as <-. by rewrite app_nil_r. }
  cbn [service_due_loop] in H. apply bind_ok in H as (r & Hr & H).
  apply IH in H as [Hall ->]. split.
  - constructor; [|done]. unfold step. cbn [fst snd]. by rewrite Hr.
  - rewrite produced_cons, Hr. destruct r; [|done]. by rewrite <- app_assoc.
Qed.

Lemma produced_elem_of (items : schedule) (e : Due.entry) :
  e ∈ omap produced items
  ↔ ∃ name info, (name, info) ∈ items
      ∧ service_due_step service_parts p v pd ckm mult ty name info
        = Ok (Some e).
Proof.
  rewrite list_elem_of_omap. split.
  - intros ([name info] & Hin & He). exists name, info. split; [done|].
    unfold produced, step in He. cbn [fst snd] in He.
    by destruct (service_due_step _ _ _ _ _ _ _ name info) as [[?|]|];
      simplify_eq.
  - intros (name & info & Hin & He). exists (name, info). split; [done|].
    unfold produced, step. cbn [fst snd]. by rewrite He.
Qed.
End loop.

Lemma type_of_str (v : dict) ty :
  type_of v = VStr ty → v !! "type" = Some (VStr ty).
Proof. unfold type_of, dict_get. by destruct (v !! "type") as [x|]; intros; simplify_eq. Qed.

Lemma calculate_service_due_unfold p v ty items pd :
  v !! "purchase_date" = Some pd → type_of v = VStr ty →
  SERVICE_SCHEDULES !! ty = Some items →
  calculate_service_due p v
  = service_due_loop SERVICE_PARTS p v pd (dict_get v "current_km" (VInt 0))
                     (multiplier_of v) ty items [].
Proof.
  intros Hpd Hty%type_of_str Hitems.
  unfold calculate_service_due, calculate_service_due_with.
  unfold dict_item at 1 2. rewrite Hpd, Hty, mixed_multiplier. cbn [bind].
  by rewrite Hitems.
Qed.

Lemma calculate_service_due_inv p v due :
  calculate_service_due p v = Ok due →
  due = []
  ∨ ∃ pd ty items,
      v !! "purchase_date" = Some pd ∧ type_of v = VStr ty
      ∧ SERVICE_SCHEDULES !! ty = Some items
      ∧ service_due_loop SERVICE_PARTS p v pd
          (dict_get v "current_km" (VInt 0)) (multiplier_of v) ty items []
        = Ok due.
Proof.
  unfold calculate_service_due, calculate_service_due_with. intros H.
  apply bind_ok in H as (pd & Hpd & H). apply bind_ok in H as (ty & Hty & H).
  rewrite mixed_multiplier in H. cbn [bind] in H.
  unfold dict_item in Hpd, Hty.
  destruct (v !! "purchase_date") as [pd'|] eqn:Hpd'; [|done].
  destruct (v !! "type") as [ty'|] eqn:Hty'; [|done]. simplify_eq.
  destruct ty as [| |s| |]; try (left; congruence).
  destruct (SERVICE_SCHEDULES !! s) as [items|] eqn:Hitems; [|left; congruence].
  right. exists pd, s, items. split; [done|]. split; [|done].
  unfold type_of, dict_get. by rewrite Hty'.
Qed.

Lemma months_reached_exact (m n : Z) :
  (inject_Z m <= inject_Z n / (3044 # 100))%Q ↔ 761 * m ≤ 25 * n.
Proof. unfold Qle, Qdiv, Qmult, Qinv. cbn. lia. Qed.

Lemma schedule_info_unique (items : schedule) name info info' :
  NoDup items.*1 → (name, info) ∈ items → (name, info') ∈ items → info = info'.
Proof.
  induction items as [|[a b] items IH]; intros Hnd H1 H2;
    [by apply elem_of_nil in H1|].
  cbn in Hnd. apply NoDup_cons in Hnd as [Ha Hnd].
  apply elem_of_cons in H1 as [H1|H1], H2 as [H2|H2]; simplify_eq; [done|..].
  - exfalso. apply Ha, list_elem_of_fmap. eexists; split; [|eassumption]. done.
  - exfalso. apply Ha, list_elem_of_fmap. eexists; split; [|eassumption]. done.
  - by apply IH.
Qed.

(** C1: for every vehicle record whose type has a schedule and every
    service of that schedule, [calculate_service_due] returns, and the
    service is among the entries it returns exactly when the months
    elapsed since the last service date (days divided by 30.44) reach the
    adjusted month interval or the kilometers driven since the last
    recorded reading reach the adjusted kilometer interval, each provided
    the adjusted interval is positive. *)
Theorem calculate_service_due_includes p v ty items name info :
  vehicle_record v → type_of v = VStr ty →
  SERVICE_SCHEDULES !! ty = Some items → (name, info) ∈ items →
  ∃ due months km,
    calculate_service_due p v = Ok due
    ∧ adjusted_interval (Schedule.interval_months info)
                        (service_frequency (multiplier_of v)) = Ok months
    ∧ adjusted_interval (Schedule.interval_km info)
                        (parts_wear (multiplier_of v)) = Ok km
    ∧ (name ∈ Due.service <$> due
       ↔ (0 < months
          ∧ (inject_Z months <= months_since_service p v name)%Q)
         ∨ (0 < km ∧ km ≤ km_since_service v name)).
Proof.
  intros Hv Hty Hitems Hin.
  destruct (record_purchase_date v Hv) as (pd & Hpd & _).
  destruct (service_due_step_total p v ty items name info pd Hv Hpd Hitems Hin)
    as (m & k & r & Hm & Hk & Hm0 & Hk0 & Hr & Hdue).
  rewrite (calculate_service_due_unfold p v ty items (VDate pd) Hpd Hty Hitems).
  rewrite service_due_loop_ok.
  2:{ apply Forall_forall. intros [name' info'] Hin'. cbn [fst snd].
      destruct (service_due_step_total p v ty items name' info' pd Hv Hpd Hitems Hin')
        as (? & ? & ? & _ & _ & _ & _ & -> & _). done. }
  eexists _, m, k. split; [done|]. split; [done|]. split; [done|].
  unfold months_since_service. rewrite months_reached_exact, app_nil_l.
  rewrite list_elem_of_fmap. setoid_rewrite produced_elem_of.
  split.
  - intros (e & -> & name' & info' & Hin' & He).
    pose proof (service_due_step_inv _ _ _ _ _ _ _ _ _ _ He)
      as (_ & _ & _ & _ & _ & _ & _ & _ & _ & _ & _ & Hname & _).
    subst name'.
    assert (info' = info) as ->.
    { by eapply schedule_info_unique; [eapply schedule_names_NoDup|..]. }
    assert (is_Some r) as Hs by (exists e; congruence).
    apply Hdue in Hs. lia.
  - intros Hcond. assert (is_Some r) as [e ->] by (apply Hdue; lia).
    exists e. split; [|by exists name, info].
    by apply service_due_step_inv in Hr as (_ & _ & _ & _ & _ & _ & _ & _ & _ & _ & _ & -> & _).
Qed.

Lemma calculate_service_due_includes_witness :
  vehicle_record sample_vehicle
  ∧ type_of sample_vehicle = VStr "Car"
  ∧ SERVICE_SCHEDULES !! "Car" = Some sample_schedule
  ∧ ("Oil Change", sample_service) ∈ sample_schedule
  ∧ ∃ due months km,
      calculate_service_due sample_process sample_vehicle = Ok due
      ∧ adjusted_interval (Schedule.interval_months sample_service)
          (service_frequency (multiplier_of sample_vehicle)) = Ok months
      ∧ adjusted_interval (Schedule.interval_km sample_service)
          (parts_wear (multiplier_of sample_vehicle)) = Ok km
      ∧ ("Oil Change" ∈ Due.service <$> due
         ↔ (0 < months
            ∧ (inject_Z months
               <= months_since_service sample_process sample_vehicle
                    "Oil Change")%Q)
           ∨ (0 < km ∧ km ≤ km_since_service sample_vehicle "Oil Change")).
Proof.
  assert (vehicle_record sample_vehicle) as Hv
    by (apply (bool_decide_unpack _); vm_compute; exact I).
  assert (type_of sample_vehicle = VStr "Car") as Hty by (vm_compute; reflexivity).
  assert (SERVICE_SCHEDULES !! "Car" = Some sample_schedule) as Hs
    by (vm_compute; reflexivity).
  assert (("Oil Change", sample_service) ∈ sample_schedule) as Hin
    by (unfold sample_schedule, sample_service, service; repeat constructor).
  do 4 (split; [assumption|]).
  exact (calculate_service_due_includes sample_process sample_vehicle "Car"
           sample_schedule "Oil Change" sample_service Hv Hty Hs Hin).
Defined.

(** C10: in every entry [calculate_service_due] returns, [days_overdue]
    is a non-negative integer, and it is 0 whenever the entry is due by
    the kilometer reading alone: when its reason names only the
    kilometer reading, and when the time-interval condition of its
    service does not hold. *)
Theorem days_overdue_nonneg p v due e :
  calculate_service_due p v = Ok due → e ∈ due →
  0 ≤ Due.days_overdue e
  ∧ (Due.due_reason e = "Kilometer Reading" → Due.days_overdue e = 0)
  ∧ ∀ ty items info,
      type_of v = VStr ty → SERVICE_SCHEDULES !! ty = Some items →
      (Due.service e, info) ∈ items →
      ¬ time_interval_due p v (Due.service e) info →
      Due.days_overdue e = 0.
Proof.
  intros [->|(pd & ty & items & Hpd & Hty & Hitems & Hloop)]%calculate_service_due_inv He;
    [by apply elem_of_nil in He|].
  apply service_due_loop_inv in Hloop as [_ ->]. rewrite app_nil_l in He.
  apply produced_elem_of in He as (name & info & Hin & He).
  apply service_due_step_inv in He
    as (m & k & driven & elapsed & km_due & Hm & Hk & _ & Helapsed & _ & Hdue).
  cbn zeta in Hdue.
  destruct Hdue as (_ & <- & Hnonneg & Hzero & Hreason & _).
  split; [done|]. split.
  - intros Hkm. apply Hzero. rewrite Hreason in Hkm.
    destruct ((0 <? m) && PyFloat.ge_int elapsed m); [|done].
    by destruct km_due.
  - intros ty' items' info' Hty' Hitems' Hin' Hnot. apply Hzero.
    rewrite Hty in Hty'. injection Hty' as <-.
    rewrite Hitems in Hitems'. injection Hitems' as <-.
    assert (info' = info) as ->
      by (by eapply schedule_info_unique; [eapply schedule_names_NoDup|..]).
    apply not_true_is_false. intros [Hpos Hge]%andb_prop. apply Hnot.
    exists m, elapsed. unfold dict_get at 2. rewrite Hpd.
    split; [done|]. split; [done|]. split; [by apply Z.ltb_lt|done].
Qed.

Lemma days_overdue_nonneg_witness :
  calculate_service_due sample_process sample_recent = Ok sample_due
  ∧ sample_entry ∈ sample_due
  ∧ 0 ≤ Due.days_overdue sample_entry
  ∧ (Due.due_reason sample_entry = "Kilometer Reading" →
     Due.days_overdue sample_entry = 0)
  ∧ ∀ ty items info,
      type_of sample_recent = VStr ty → SERVICE_SCHEDULES !! ty = Some items →
      (Due.service sample_entry, info) ∈ items →
      ¬ time_interval_due sample_process sample_recent
          (Due.service sample_entry) info →
      Due.days_overdue sample_entry = 0.
Proof.
  assert (calculate_service_due sample_process sample_recent = Ok sample_due)
    as Hdue by (vm_compute; reflexivity).
  assert (sample_entry ∈ sample_due) as Hin
    by (unfold sample_due, sample_entry; repeat constructor).
  do 2 (split; [assumption|]).
  exact (days_overdue_nonneg sample_process sample_recent sample_due
           sample_entry Hdue Hin).
Defined.

(** C8: for every vehicle record whose type is not a key of the schedule
    table, [calculate_service_due] returns the empty list and raises
    nothing; this holds whatever the schedule and parts tables contain,
    so no schedule data enters the result. *)
Theorem calculate_service_due_unknown_type
    (schedules : gmap string schedule)
    (service_parts : gmap string (gmap string (list string)))
    (p : process) (v : dict) :
  vehicle_record v → table_lookup schedules (type_of v) = None →
  calculate_service_due_with schedules service_parts p v = Ok [].
Proof.
  intros (_ & [pd Hpd] & [ty Hty]) Hnone.
  unfold calculate_service_due_with, dict_item at 1 2.
  rewrite Hpd, Hty, mixed_multiplier. cbn [bind].
  unfold type_of, dict_get in Hnone. rewrite Hty in Hnone.
  destruct ty; try done. cbn in Hnone. by rewrite Hnone.
Qed.

Lemma calculate_service_due_unknown_type_witness :
  vehicle_record sample_truck
  ∧ table_lookup SERVICE_SCHEDULES (type_of sample_truck) = None
  ∧ calculate_service_due sample_process sample_truck = Ok [].
Proof.
  assert (vehicle_record sample_truck) as Hv
    by (apply (bool_decide_unpack _); vm_compute; exact I).
  assert (table_lookup SERVICE_SCHEDULES (type_of sample_truck) = None) as Hnone
    by (vm_compute; reflexivity).
  do 2 (split; [assumption|]).
  exact (calculate_service_due_unknown_type SERVICE_SCHEDULES SERVICE_PARTS
           sample_process sample_truck Hv Hnone).
Defined.

Lemma service_due_step_today service_parts p1 p2 v pd ckm mult ty name info :
  today p1 = today p2 →
  service_due_step service_parts p1 v pd ckm mult ty name info
  = service_due_step service_parts p2 v pd ckm mult ty name info.
Proof. intros H. unfold service_due_step. by rewrite H. Qed.

Lemma service_due_loop_today service_parts p1 p2 v pd ckm mult ty items acc :
  today p1 = today p2 →
  service_due_loop service_parts p1 v pd ckm mult ty items acc
  = service_due_loop service_parts p2 v pd ckm mult ty items acc.
Proof.
  intros H. revert acc. induction items as [|[name info] items IH]; intros acc;
    [done|].
  cbn [service_due_loop].
  rewrite (service_due_step_today _ p1 p2) by done.
  destruct (service_due_step _ p2 _ _ _ _ _ _ _) as [r|]; [|done]. apply IH.
Qed.

(** C5: the two rule evaluators are deterministic.  Two runs of
    [get_recommended_parts] on the same record return the same result in
    any two processes, whatever their clocks and set enumeration orders;
    two runs of [calculate_service_due] on the same record return the
    same result whenever the two processes read the same current date.
    Neither takes the session state as an input. *)
Theorem rule_evaluators_deterministic (p1 p2 : process) (v : dict) :
  get_recommended_parts p1 v = get_recommended_parts p2 v
  ∧ (today p1 = today p2 →
     calculate_service_due p1 v = calculate_service_due p2 v).
Proof.
  split.
  - unfold get_recommended_parts.
    repeat match goal with
    | |- bind ?m _ = bind ?m _ => destruct m; cbn [bind]; [|reflexivity]
    end.
    f_equal. apply sorted_set_order_irrelevant.
  - intros Htoday. unfold calculate_service_due, calculate_service_due_with.
    repeat match goal with
    | |- bind ?m _ = bind ?m _ => destruct m; cbn [bind]; [|reflexivity]
    end.
    repeat case_match; try done. by apply service_due_loop_today.
Qed.

Lemma rule_evaluators_deterministic_witness :
  today sample_process = today reversed_process
  ∧ get_recommended_parts sample_process sample_vehicle
    = get_recommended_parts reversed_process sample_vehicle
  ∧ calculate_service_due sample_process sample_vehicle
    = calculate_service_due reversed_process sample_vehicle.
Proof.
  assert (today sample_process = today reversed_process) as Htoday
    by reflexivity.
  split; [assumption|].
  split.
  - exact (proj1 (rule_evaluators_deterministic sample_process
                    reversed_process sample_vehicle)).
  - exact (proj2 (rule_evaluators_deterministic sample_process
                    reversed_process sample_vehicle) Htoday).
Defined.

(** C4: for every vehicle type and service of [SERVICE_SCHEDULES] and
    every usage pattern of [USAGE_MULTIPLIERS], both adjusted intervals
    are computed and strictly positive, so the positivity guards of the
    loop leave the time test and the kilometer test as they are. *)
Theorem adjusted_intervals_positive ty items name info usage mult :
  SERVICE_SCHEDULES !! ty = Some items → (name, info) ∈ items →
  USAGE_MULTIPLIERS !! usage = Some mult →
  ∃ months km,
    adjusted_interval (Schedule.interval_months info) (service_frequency mult)
    = Ok months
    ∧ adjusted_interval (Schedule.interval_km info) (parts_wear mult) = Ok km
    ∧ 0 < months ∧ 0 < km
    ∧ (∀ elapsed,
         (0 <? months) && PyFloat.ge_int elapsed months
         = PyFloat.ge_int elapsed months)
    ∧ (∀ driven,
         (if 0 <? km then ge_int driven km else Ok false) = ge_int driven km).
Proof.
  intros Hitems Hin Hmult.
  destruct (adjusted_ok_inv _ _ (schedule_adjusted_ok _ _ _ _ _ _ Hitems Hin Hmult))
    as (m & k & d & Hm & Hk & _ & Hm0 & _ & Hk0 & _).
  exists m, k. do 2 (split; [done|]). do 2 (split; [lia|]).
  split; intros ?.
  - by rewrite (proj2 (Z.ltb_lt 0 m)) by lia.
  - by rewrite (proj2 (Z.ltb_lt 0 k)) by lia.
Qed.

Lemma adjusted_intervals_positive_witness :
  SERVICE_SCHEDULES !! "Car" = Some sample_schedule
  ∧ ("Oil Change", sample_service) ∈ sample_schedule
  ∧ USAGE_MULTIPLIERS !! "City" = Some (usage_multiplier 12 11)
  ∧ ∃ months km,
      adjusted_interval (Schedule.interval_months sample_service)
        (service_frequency (usage_multiplier 12 11)) = Ok months
      ∧ adjusted_interval (Schedule.interval_km sample_service)
          (parts_wear (usage_multiplier 12 11)) = Ok km
      ∧ 0 < months ∧ 0 < km
      ∧ (∀ elapsed,
           (0 <? months) && PyFloat.ge_int elapsed months
           = PyFloat.ge_int elapsed months)
      ∧ (∀ driven,
           (if 0 <? km then ge_int driven km else Ok false)
           = ge_int driven km).
Proof.
  assert (SERVICE_SCHEDULES !! "Car" = Some sample_schedule) as Hs
    by (vm_compute; reflexivity).
  assert (("Oil Change", sample_service) ∈ sample_schedule) as Hin
    by (unfold sample_schedule, sample_service, service; repeat constructor).
  assert (USAGE_MULTIPLIERS !! "City" = Some (usage_multiplier 12 11)) as Hm
    by (vm_compute; reflexivity).
  do 3 (split; [assumption|]).
  exact (adjusted_intervals_positive "Car" sample_schedule "Oil Change"
           sample_service "City" (usage_multiplier 12 11) Hs Hin Hm).
Defined.

Lemma truncated_quotient_unit (n : Z) : truncated_quotient n 10 = n.
Proof. unfold truncated_quotient. cbn. by rewrite Z.quot_mul. Qed.

Lemma adjustment_exact_inv info tenths :
  adjustment_exact info tenths = true →
  adjusted_interval (Schedule.interval_months info)
    (service_frequency (usage_multiplier tenths.1 tenths.2))
  = Ok (truncated_quotient (Schedule.interval_months info) tenths.1)
  ∧ adjusted_interval (Schedule.interval_km info)
      (parts_wear (usage_multiplier tenths.1 tenths.2))
    = Ok (truncated_quotient (Schedule.interval_km info) tenths.2).
Proof.
  unfold adjustment_exact. cbn zeta.
  destruct (adjusted_interval _ (service_frequency _)) as [m|]; [|done].
  destruct (adjusted_interval _ (parts_wear _)) as [k|]; [|done].
  by intros [->%Z.eqb_eq ->%Z.eqb_eq]%andb_prop.
Qed.

Lemma unlisted_usage_tenths (usage : value) :
  table_lookup USAGE_MULTIPLIERS usage = None → usage_tenths usage = (10, 10).
Proof.
  unfold usage_tenths. intros H.
  repeat (case_bool_decide; [subst; by vm_compute in H|]). done.
Qed.

(** ** Session state *)

Lemma cache_kept_refl s : cache_kept s s.
Proof. intros cache key summary ??. by exists cache. Qed.

Lemma cache_kept_trans s1 s2 s3 :
  cache_kept s1 s2 → cache_kept s2 s3 → cache_kept s1 s3.
Proof.
  intros H12 H23 cache key summary Hc Hk.
  destruct (H12 _ _ _ Hc Hk) as (cache' & Hc' & Hk'). by eapply H23.
Qed.

Lemma get_wikimedia_summary_kept network title project s :
  cache_kept s (state_after (get_wikimedia_summary network title project s)).
Proof.
  unfold get_wikimedia_summary.
  destruct title as [[|c title]|]; try apply cache_kept_refl.
  destruct (default ∅ (parts_cache s) !! _) as [hit|] eqn:Hmiss;
    [apply cache_kept_refl|].
  destruct (network _) as [msg|data]; [apply cache_kept_refl|].
  destruct (page_extract data) as [[[| | |extract| |]|]|]; try apply cache_kept_refl.
  destruct (parts_cache s) as [cache|] eqn:Hcache; [|apply cache_kept_refl].
  intros cache0 key summary Hc Hk. cbn in *. simplify_eq.
  eexists. split; [done|].
  rewrite lookup_insert_ne; [done|]. intros <-. congruence.
Qed.

Lemma run_operation_kept op s : cache_kept s (run_operation op s).
Proof.
  destruct op as [|form|idx km|network title project]; cbn.
  - intros cache key summary Hc Hk. unfold init_session_state. cbn.
    rewrite Hc. by exists cache.
  - unfold add_vehicle_form. destruct (vehicles s); cbn; [|apply cache_kept_refl].
    intros cache key summary Hc Hk. by exists cache.
  - unfold update_kilometers. destruct (vehicles s) as [fleet|];
      [destruct (fleet !! idx)|]; cbn; try apply cache_kept_refl.
    intros cache key summary Hc Hk. by exists cache.
  - apply get_wikimedia_summary_kept.
Qed.

Lemma run_operations_kept ops s : cache_kept s (run_operations ops s).
Proof.
  revert s. induction ops as [|op ops IH]; intros s; [apply cache_kept_refl|].
  cbn. eapply cache_kept_trans; [apply run_operation_kept|apply IH].
Qed.



(** Given the values the widgets returned, the submit branch appends
    exactly one record to [st.session_state.vehicles]: the list grows by
    one, every record stored before is still at its index, unchanged,
    the memo is left alone, and the new record holds exactly the nine
    fields of those values, with [initial_km] equal to the current
    kilometers. *)
Theorem add_vehicle_form_appends (form : Form.values) (s : session_state)
    (fleet : list dict) :
  vehicles s = Some fleet →
  let submit := add_vehicle_form form s in
  returned submit = Ok ()
  ∧ vehicles (state_after submit) = Some (fleet ++ [new_vehicle form])
  ∧ parts_cache (state_after submit) = parts_cache s
  ∧ (∀ i record, fleet !! i = Some record →
       (fleet ++ [new_vehicle form]) !! i = Some record)
  ∧ length (fleet ++ [new_vehicle form]) = S (length fleet)
  ∧ new_vehicle form !! "initial_km" = new_vehicle form !! "current_km"
  ∧ map_to_list (new_vehicle form)
    ≡ₚ [ ("type", VStr (Form.vehicle_type_selector form));
         ("brand", VStr (Form.brand_selector form));
         ("model", VStr (Form.model_selector form));
         ("year", VInt (Form.year form));
         ("purchase_date", VDate (Form.purchase_date form));
         ("price", VInt (Form.price form));
         ("current_km", VInt (Form.current_km form));
         ("initial_km", VInt (Form.current_km form));
         ("usage", VStr (Form.usage form)) ].
Proof.
  intros Hfleet. cbv zeta. unfold add_vehicle_form. rewrite Hfleet.
  cbn [returned state_after vehicles parts_cache].
  split; [reflexivity|]. split; [reflexivity|]. split; [reflexivity|]. split.
  { intros i record Hi. by apply lookup_app_l_Some. }
  split; [rewrite length_app; cbn [length]; lia|].
  split; [by vm_compute|].
  unfold new_vehicle. apply map_to_list_to_map.
  apply (bool_decide_unpack _). vm_compute. exact I.
Qed.

Lemma add_vehicle_form_appends_witness :
  vehicles sample_session = Some [sample_vehicle]
  ∧ returned (add_vehicle_form sample_form sample_session) = Ok ()
  ∧ vehicles (state_after (add_vehicle_form sample_form sample_session))
    = Some ([sample_vehicle] ++ [new_vehicle sample_form])
  ∧ parts_cache (state_after (add_vehicle_form sample_form sample_session))
    = parts_cache sample_session.
Proof.
  assert (vehicles sample_session = Some [sample_vehicle]) as Hfleet
    by reflexivity.
  split; [assumption|].
  destruct (add_vehicle_form_appends sample_form sample_session
              [sample_vehicle] Hfleet) as (Hret & Hveh & Hcache & _).
  exact (conj Hret (conj Hveh Hcache)).
Defined.

(** ** The Add Vehicle page *)

Lemma VEHICLE_DATA_keys :
  NoDup VEHICLE_DATA.*1
  ∧ Forall (λ brands : string * list (string * list (string * Model.info)),
              NoDup brands.2.*1
              ∧ Forall (λ models : string * list (string * Model.info),
                          NoDup models.2.*1) brands.2)
           VEHICLE_DATA.
Proof. apply (bool_decide_unpack _). by vm_compute. Qed.

(** Within the embedding the page appends exactly one record and leaves
    the records stored before and the memo as they were.  The record
    holds the entered values, with [initial_km] equal to the entered
    kilometers, except for the price: that is the entered one only when
    the default price of the entered model is the one the form
    showed, and the default price of the entered model otherwise. *)
Lemma add_vehicle_page_appends shown entered s fleet o :
  vehicles s = Some fleet →
  add_vehicle_page shown entered s = Some o →
  ∃ shown_default default_price_ price,
    default_price shown = Ok shown_default
    ∧ default_price {| selected_type := Form.vehicle_type_selector entered;
                       selected_brand := Form.brand_selector entered;
                       selected_model := Form.model_selector entered |}
      = Ok default_price_
    ∧ price = (if shown_default =? default_price_
               then Form.price entered else default_price_)
    ∧ returned o = Ok ()
    ∧ parts_cache (state_after o) = parts_cache s
    ∧ vehicles (state_after o)
      = Some (fleet ++
              [new_vehicle
                 {| Form.vehicle_type_selector := Form.vehicle_type_selector entered;
                    Form.brand_selector := Form.brand_selector entered;
                    Form.model_selector := Form.model_selector entered;
                    Form.year := Form.year entered;
                    Form.purchase_date := Form.purchase_date entered;
                    Form.price := price;
                    Form.current_km := Form.current_km entered;
                    Form.usage := Form.usage entered |}]).
Proof.
  intros Hfleet. unfold add_vehicle_page.
  case_bool_decide as Hsame; [|done]. destruct Hsame as [Htype Hbrand].
  destruct (default_price shown) as [shown_default|] eqn:Hshown; [|done].
  apply bind_ok in Hshown as (brands & Hbrands & Hshown).
  apply bind_ok in Hshown as (models & Hmodels & _).
  unfold default_price.
  cbn [selected_type selected_brand selected_model].
  rewrite Htype, Hbrand, Hbrands. cbn [bind]. rewrite Hmodels. cbn [bind].
  unfold keyless_widget, add_vehicle_form. rewrite Hfleet.
  intros [= <-]. cbn [returned state_after vehicles parts_cache].
  eexists shown_default, _, _. by repeat split.
Qed.

(** C7: the form of a fresh session shows the model Swift and its
    default price 750000.  Submitted with the model Baleno and the
    price 1200000 entered, the page stores one record for the Baleno
    whose price is 850000, the default price of a Baleno, and not the
    price entered. *)
Theorem add_vehicle_page_replaces_price :
  Form.model_selector baleno_form = "Baleno"
  ∧ Form.price baleno_form = 1200000
  ∧ default_price first_selection = Ok 750000
  ∧ ∃ record,
      state_after <$> add_vehicle_page first_selection baleno_form fresh_session
      = Some {| vehicles := Some [record]; parts_cache := Some ∅ |}
      ∧ record !! "model" = Some (VStr "Baleno")
      ∧ record !! "initial_km" = record !! "current_km"
      ∧ record !! "price" = Some (VInt 850000).
Proof.
  split; [reflexivity|]. split; [reflexivity|].
  split; [by vm_compute|].
  exists (new_vehicle
            {| Form.vehicle_type_selector := "Car";
               Form.brand_selector := "Maruti Suzuki";
               Form.model_selector := "Baleno";
               Form.year := 2026;
               Form.purchase_date := 739924;
               Form.price := 850000;
               Form.current_km := 52000;
               Form.usage := "City" |}).
  split; [by vm_compute|]. by vm_compute.
Qed.

(** * Further properties *)

(** ** The due rule in exact arithmetic *)

Lemma days_tables_ok :
  map_Forall (λ _ items, schedule_days_ok items = true) SERVICE_SCHEDULES.
Proof. apply (bool_decide_unpack _). by vm_compute. Qed.

Lemma schedule_interval_days ty items name info usage mult m :
  SERVICE_SCHEDULES !! ty = Some items → (name, info) ∈ items →
  USAGE_MULTIPLIERS !! usage = Some mult →
  adjusted_interval (Schedule.interval_months info) (service_frequency mult)
  = Ok m →
  2 ≤ m ∧ due_interval m = Ok (VTimedelta (interval_days m)).
Proof.
  intros H%days_tables_ok Hin Hmult Hm. unfold schedule_days_ok in H.
  rewrite forallb_forall in H. apply list_elem_of_In, H in Hin.
  apply bool_decide_eq_true in Hin. specialize (Hin usage mult Hmult).
  cbn [snd] in Hin. unfold interval_days_ok in Hin. rewrite Hm in Hin.
  apply andb_prop in Hin as [H2 Hd]. apply Z.leb_le in H2.
  destruct (due_interval m) as [[| | | |d]|]; try done.
  apply Z.eqb_eq in Hd. by subst.
Qed.

(** One iteration of the loop on a vehicle record, in closed form. *)
Lemma service_due_step_exact p v ty items name info pd :
  vehicle_record v → v !! "purchase_date" = Some (VDate pd) →
  SERVICE_SCHEDULES !! ty = Some items → (name, info) ∈ items →
  ∃ m k parts,
    adjusted_interval (Schedule.interval_months info)
                      (service_frequency (multiplier_of v)) = Ok m
    ∧ adjusted_interval (Schedule.interval_km info)
                        (parts_wear (multiplier_of v)) = Ok k
    ∧ 2 ≤ m ∧ 0 < k
    ∧ SERVICE_PARTS !! ty = Some parts
    ∧ service_due_step SERVICE_PARTS p v (VDate pd)
        (dict_get v "current_km" (VInt 0)) (multiplier_of v) ty name info
      = Ok
          (let time_due :=
             bool_decide (761 * m ≤ 25 * days_since_service p v name) in
           let km_due := bool_decide (k ≤ km_since_service v name) in
           if time_due || km_due then
             Some {| Due.service := name;
                     Due.due_reason :=
                       str_join " & "
                         ((if time_due then ["Time Interval"] else [])
                          ++ (if km_due then ["Kilometer Reading"] else []));
                     Due.days_overdue :=
                       if time_due
                       then days_since_service p v name - interval_days m
                       else 0;
                     Due.cost_range := Schedule.cost_range info;
                     Due.parts := default [] (parts !! name) |}
           else None).
Proof.
  intros Hv Hpd Hty Hin.
  destruct (multiplier_of_listed v) as (usage & Hmult).
  destruct (adjusted_ok_inv _ _ (schedule_adjusted_ok _ _ _ _ _ _ Hty Hin Hmult))
    as (m & k & d & Hm & Hk & Hd & Hm0 & Hm25 & Hk0 & Hd0 & Hdm).
  destruct (schedule_interval_days _ _ _ _ _ _ _ Hty Hin Hmult Hm) as [Hm2 Hd'].
  rewrite Hd in Hd'. injection Hd' as ->.
  destruct (schedule_has_parts _ _ Hty) as [parts Hparts].
  destruct (record_last_date v name pd Hv Hpd) as (d0 & Hlast & Hd0eq & Hd0r).
  pose proof (today_in_range p) as Htoday.
  unfold MINORDINAL, MAXORDINAL in *.
  destruct (months_test_exact (today p - d0) m) as (x & Hx & Htest);
    [lia..|done|].
  exists m, k, parts. do 5 (split; [done || lia|]).
  unfold service_due_step.
  rewrite Hm, Hk. cbn [bind].
  rewrite (record_current_km v Hv), (record_last_km v name Hv), Hlast.
  cbn [py_sub bind]. unfold months_since. cbn [py_sub bind attr_days].
  rewrite Hx. cbn [bind].
  rewrite (proj2 (Z.ltb_lt 0 m)), (proj2 (Z.ltb_lt 0 k)) by lia.
  cbn [andb ge_int bind].
  fold (km_since_service v name).
  apply bind_ok in Hd as (days & Hdays & Hdelta).
  assert (days_since_service p v name = today p - d0) as ->.
  { unfold days_since_service. by rewrite <- Hd0eq. }
  unfold dict_item. rewrite Hparts, Hdays. cbn [bind]. rewrite Hdelta.
  cbn [bind py_add]. unfold check_date, MINORDINAL, MAXORDINAL.
  cbv zeta.
  destruct (PyFloat.ge_int x m) eqn:Htime.
  - assert (761 * m ≤ 25 * (today p - d0)) as Hexact by by apply Htest.
    rewrite (bool_decide_eq_true_2 _ Hexact).
    rewrite (proj2 (Z.leb_le 1 (d0 + interval_days m))),
      (proj2 (Z.leb_le (d0 + interval_days m) 3652059)) by lia.
    cbn [andb orb bind py_sub attr_days].
    destruct (k <=? km_since_service v name) eqn:Hkm.
    + apply Z.leb_le in Hkm. rewrite (bool_decide_eq_true_2 _ Hkm).
      do 3 f_equal. lia.
    + apply Z.leb_gt in Hkm. rewrite bool_decide_eq_false_2 by lia.
      do 3 f_equal. lia.
  - assert (¬ 761 * m ≤ 25 * (today p - d0)) as Hexact.
    { intros H%Htest. congruence. }
    rewrite (bool_decide_eq_false_2 _ Hexact).
    destruct (k <=? km_since_service v name) eqn:Hkm; cbn.
    + apply Z.leb_le in Hkm. by rewrite (bool_decide_eq_true_2 _ Hkm).
    + apply Z.leb_gt in Hkm. by rewrite bool_decide_eq_false_2 by lia.
Qed.

Lemma service_due_step_entry p v ty items name info pd :
  vehicle_record v → v !! "purchase_date" = Some (VDate pd) →
  SERVICE_SCHEDULES !! ty = Some items → (name, info) ∈ items →
  ∃ parts,
    SERVICE_PARTS !! ty = Some parts
    ∧ service_due_step SERVICE_PARTS p v (VDate pd)
        (dict_get v "current_km" (VInt 0)) (multiplier_of v) ty name info
      = Ok (due_entry p v parts (name, info)).
Proof.
  intros Hv Hpd Hty Hin.
  destruct (service_due_step_exact p v ty items name info pd Hv Hpd Hty Hin)
    as (m & k & parts & Hm & Hk & _ & _ & Hparts & ->).
  destruct (adjustment_exact_inv _ _
              (schedule_adjustment_exact _ _ _ _ (usage_of v) Hty Hin))
    as [Hm' Hk'].
  rewrite <- multiplier_of_tenths in Hm', Hk'.
  rewrite Hm in Hm'. rewrite Hk in Hk'. injection Hm' as ->. injection Hk' as ->.
  exists parts. split; [done|]. unfold due_entry. cbv zeta.
  by repeat case_bool_decide.
Qed.

Lemma service_due_loop_entries p v ty items pd :
  vehicle_record v → v !! "purchase_date" = Some (VDate pd) →
  SERVICE_SCHEDULES !! ty = Some items →
  ∃ parts,
    SERVICE_PARTS !! ty = Some parts
    ∧ service_due_loop SERVICE_PARTS p v (VDate pd)
        (dict_get v "current_km" (VInt 0)) (multiplier_of v) ty items []
      = Ok (omap (due_entry p v parts) items).
Proof.
  intros Hv Hpd Hitems.
  destruct (schedule_has_parts _ _ Hitems) as [parts Hparts].
  exists parts. split; [done|].
  rewrite service_due_loop_ok.
  2:{ apply Forall_forall. intros [name info] Hin. cbn [fst snd].
      destruct (service_due_step_entry p v ty items name info pd Hv Hpd Hitems Hin)
        as (? & _ & ->). done. }
  rewrite app_nil_l. f_equal. apply list_omap_ext.
  apply Forall2_same_length_lookup. split; [done|].
  intros i [name info] [name' info'] H1 H2. simplify_eq. cbn [fst snd].
  destruct (service_due_step_entry p v ty items name info pd Hv Hpd Hitems)
    as (parts' & Hparts' & ->); [by eapply list_elem_of_lookup_2|].
  by simplify_eq.
Qed.

Lemma service_due_entries p v ty items :
  vehicle_record v → type_of v = VStr ty →
  SERVICE_SCHEDULES !! ty = Some items →
  ∃ parts,
    SERVICE_PARTS !! ty = Some parts
    ∧ calculate_service_due p v = Ok (omap (due_entry p v parts) items).
Proof.
  intros Hv Hty Hitems.
  destruct (record_purchase_date v Hv) as (pd & Hpd & _).
  destruct (service_due_loop_entries p v ty items pd Hv Hpd Hitems)
    as (parts & Hparts & Hloop).
  exists parts. split; [done|].
  by rewrite (calculate_service_due_unfold p v ty items (VDate pd) Hpd Hty Hitems).
Qed.

(** X1: on a vehicle record whose type has a schedule, [calculate_service_due]
    returns exactly the entries of the due rule in exact arithmetic, one
    for each service of the schedule that is due, in the order of the
    schedule: IEEE 754 rounding changes no test and no count of days. *)
Theorem calculate_service_due_exact p v ty items :
  vehicle_record v → type_of v = VStr ty →
  SERVICE_SCHEDULES !! ty = Some items →
  ∃ parts,
    SERVICE_PARTS !! ty = Some parts
    ∧ calculate_service_due p v = Ok (omap (due_entry p v parts) items).
Proof.
  intros Hv Hty Hitems.
  destruct (record_purchase_date v Hv) as (pd & Hpd & _).
  assert (v !! "type" = Some (VStr ty)) as Htype by by apply type_of_str.
  destruct (service_due_loop_entries p v ty items pd Hv Hpd Hitems)
    as (parts & Hparts & Hloop).
  exists parts. split; [done|].
  unfold calculate_service_due, calculate_service_due_with.
  unfold dict_item at 1 2. rewrite Hpd, Htype, mixed_multiplier. cbn [bind].
  by rewrite Hitems.
Qed.

Lemma calculate_service_due_exact_witness :
  vehicle_record sample_vehicle
  ∧ type_of sample_vehicle = VStr "Car"
  ∧ SERVICE_SCHEDULES !! "Car" = Some sample_schedule
  ∧ ∃ parts,
      SERVICE_PARTS !! "Car" = Some parts
      ∧ calculate_service_due sample_process sample_vehicle
        = Ok (omap (due_entry sample_process sample_vehicle parts)
                   sample_schedule).
Proof.
  assert (vehicle_record sample_vehicle) as Hv
    by (apply (bool_decide_unpack _); vm_compute; exact I).
  assert (type_of sample_vehicle = VStr "Car") as Hty by (vm_compute; reflexivity).
  assert (SERVICE_SCHEDULES !! "Car" = Some sample_schedule) as Hs
    by (vm_compute; reflexivity).
  do 3 (split; [assumption|]).
  exact (calculate_service_due_exact sample_process sample_vehicle "Car"
           sample_schedule Hv Hty Hs).
Defined.

Lemma calculate_service_due_no_schedule p v :
  vehicle_record v → table_lookup SERVICE_SCHEDULES (type_of v) = None →
  calculate_service_due p v = Ok [].
Proof.
  intros (_ & [pd Hpd] & [ty Hty]) Hnone.
  unfold calculate_service_due, calculate_service_due_with, dict_item at 1 2.
  rewrite Hpd, Hty, mixed_multiplier. cbn [bind].
  unfold type_of, dict_get in Hnone. rewrite Hty in Hnone.
  destruct ty; try done. unfold table_lookup in Hnone. by rewrite Hnone.
Qed.

Lemma due_entry_service p v parts name info e :
  due_entry p v parts (name, info) = Some e → Due.service e = name.
Proof.
  unfold due_entry. cbv zeta. destruct (_ || _); [|done]. by intros [= <-].
Qed.

Lemma due_entry_is_Some p v parts name info :
  is_Some (due_entry p v parts (name, info))
  ↔ 761 * truncated_quotient (Schedule.interval_months info)
            (usage_tenths (usage_of v)).1
      ≤ 25 * days_since_service p v name
    ∨ truncated_quotient (Schedule.interval_km info)
        (usage_tenths (usage_of v)).2
      ≤ km_since_service v name.
Proof.
  unfold due_entry. cbv zeta.
  do 2 case_bool_decide; cbn [orb andb]; (split; intros Hdue);
    first [by eexists | lia | by destruct Hdue as [? [=]]].
Qed.

Lemma due_names p v parts (items : schedule) name :
  name ∈ Due.service <$> omap (due_entry p v parts) items
  ↔ ∃ info, (name, info) ∈ items ∧ is_Some (due_entry p v parts (name, info)).
Proof.
  rewrite list_elem_of_fmap. setoid_rewrite list_elem_of_omap. split.
  - intros (e & -> & [name' info] & Hin & He).
    rewrite (due_entry_service _ _ _ _ _ _ He). by eauto.
  - intros (info & Hin & [e He]). exists e.
    split; [by rewrite (due_entry_service _ _ _ _ _ _ He)|]. by eauto.
Qed.

Lemma last_km_key_ne name : "last_service_km_" +:+ name ≠ "current_km".
Proof. done. Qed.

Lemma last_date_key_ne name : "last_service_date_" +:+ name ≠ "current_km".
Proof. done. Qed.

Lemma dict_get_update_km (v : dict) x key d :
  key ≠ "current_km" →
  dict_get (<["current_km" := x]> v) key d = dict_get v key d.
Proof. intros Hne. unfold dict_get. by rewrite lookup_insert_ne. Qed.

Lemma due_entry_overdue p v parts name info e :
  due_entry p v parts (name, info) = Some e →
  Due.days_overdue e
  = if bool_decide
         (761 * truncated_quotient (Schedule.interval_months info)
                  (usage_tenths (usage_of v)).1
          ≤ 25 * days_since_service p v name)
    then days_since_service p v name
         - interval_days (truncated_quotient (Schedule.interval_months info)
                            (usage_tenths (usage_of v)).1)
    else 0.
Proof.
  unfold due_entry. cbv zeta. destruct (_ || _); [|done]. by intros [= <-].
Qed.

(** C2: [calculate_service_due] adjusts the intervals of every service
    by the usage pattern of the record.  The adjusted month interval is
    [interval_months] divided by the [service_frequency] multiplier of
    the usage, truncated to an integer, and the adjusted kilometer
    interval is [interval_km] divided by its [parts_wear] multiplier,
    truncated: the binary64 computation yields the exact truncated
    quotients.  A usage that is not a key of [USAGE_MULTIPLIERS] gets the
    multipliers of ['Mixed'] and leaves both intervals unchanged.  These
    adjusted intervals are the ones the call decides by: on a vehicle
    record it lists the service exactly when [30.44] times the adjusted
    months are at most the days since the last service or the adjusted
    kilometers are at most the kilometers driven since, and the days
    overdue of its entry are counted from the adjusted months. *)
Theorem adjusted_intervals_by_usage (v : dict) ty items name info :
  SERVICE_SCHEDULES !! ty = Some items → (name, info) ∈ items →
  adjusted_interval (Schedule.interval_months info)
                    (service_frequency (multiplier_of v))
  = Ok (truncated_quotient (Schedule.interval_months info)
                           (usage_tenths (usage_of v)).1)
  ∧ adjusted_interval (Schedule.interval_km info)
                      (parts_wear (multiplier_of v))
    = Ok (truncated_quotient (Schedule.interval_km info)
                             (usage_tenths (usage_of v)).2)
  ∧ (table_lookup USAGE_MULTIPLIERS (usage_of v) = None →
     Some (multiplier_of v) = USAGE_MULTIPLIERS !! "Mixed"
     ∧ adjusted_interval (Schedule.interval_months info)
                         (service_frequency (multiplier_of v))
       = Ok (Schedule.interval_months info)
     ∧ adjusted_interval (Schedule.interval_km info)
                         (parts_wear (multiplier_of v))
       = Ok (Schedule.interval_km info))
  ∧ (∀ p pd,
       v !! "purchase_date" = Some pd → type_of v = VStr ty →
       calculate_service_due p v
       = service_due_loop SERVICE_PARTS p v pd
           (dict_get v "current_km" (VInt 0)) (multiplier_of v) ty items [])
  ∧ ∀ p,
      vehicle_record v → type_of v = VStr ty →
      let months :=
        truncated_quotient (Schedule.interval_months info)
                           (usage_tenths (usage_of v)).1 in
      let km :=
        truncated_quotient (Schedule.interval_km info)
                           (usage_tenths (usage_of v)).2 in
      ∃ due,
        calculate_service_due p v = Ok due
        ∧ (name ∈ Due.service <$> due
           ↔ 761 * months ≤ 25 * days_since_service p v name
             ∨ km ≤ km_since_service v name)
        ∧ ∀ e, e ∈ due → Due.service e = name →
            Due.days_overdue e
            = if bool_decide (761 * months ≤ 25 * days_since_service p v name)
              then days_since_service p v name - interval_days months
              else 0.
Proof.
  intros Hitems Hin.
  destruct (adjustment_exact_inv _ _
              (schedule_adjustment_exact _ _ _ _ (usage_of v) Hitems Hin))
    as [Hm Hk].
  rewrite <- multiplier_of_tenths in Hm, Hk.
  split; [done|]. split; [done|]. split; [|split].
  - intros Hnone. rewrite Hm, Hk, (unlisted_usage_tenths _ Hnone).
    cbn [fst snd]. rewrite !truncated_quotient_unit.
    split; [|done]. unfold multiplier_of. by rewrite Hnone.
  - intros p pd Hpd Hty. by apply calculate_service_due_unfold.
  - intros p Hv Hty. cbv zeta.
    destruct (service_due_entries p v ty items Hv Hty Hitems)
      as (parts & _ & ->).
    pose proof (schedule_names_NoDup _ _ Hitems) as Hnd.
    eexists. split; [done|]. split.
    + rewrite due_names, <- due_entry_is_Some. split.
      * intros (info' & Hin' & Hdue).
        by rewrite (schedule_info_unique items name info info' Hnd Hin Hin').
      * intros Hdue. by exists info.
    + intros e ([name' info'] & Hin' & He)%list_elem_of_omap Hname.
      rewrite (due_entry_service _ _ _ _ _ _ He) in Hname. subst name'.
      rewrite (schedule_info_unique items name info info' Hnd Hin Hin').
      by apply (due_entry_overdue p v parts name).
Qed.

Lemma adjusted_intervals_by_usage_witness :
  SERVICE_SCHEDULES !! "Car" = Some sample_schedule
  ∧ ("Oil Change", sample_service) ∈ sample_schedule
  ∧ vehicle_record sample_commuter
  ∧ type_of sample_commuter = VStr "Car"
  ∧ adjusted_interval (Schedule.interval_months sample_service)
      (service_frequency (multiplier_of sample_commuter)) = Ok 10
  ∧ adjusted_interval (Schedule.interval_km sample_service)
      (parts_wear (multiplier_of sample_commuter)) = Ok 9090
  ∧ km_since_service sample_commuter "Oil Change" = 9500
  ∧ ∃ due,
      calculate_service_due sample_process sample_commuter = Ok due
      ∧ "Oil Change" ∈ Due.service <$> due.
Proof.
  assert (SERVICE_SCHEDULES !! "Car" = Some sample_schedule) as Hs
    by (vm_compute; reflexivity).
  assert (("Oil Change", sample_service) ∈ sample_schedule) as Hin
    by (unfold sample_schedule, sample_service, service; repeat constructor).
  assert (vehicle_record sample_commuter) as Hv
    by (apply (bool_decide_unpack _); vm_compute; exact I).
  assert (type_of sample_commuter = VStr "Car") as Hty
    by (vm_compute; reflexivity).
  do 4 (split; [assumption|]).
  destruct (adjusted_intervals_by_usage sample_commuter "Car" sample_schedule
              "Oil Change" sample_service Hs Hin) as (Hm & Hk & _ & _ & Hdue).
  split; [exact Hm|]. split; [exact Hk|]. split; [reflexivity|].
  destruct (Hdue sample_process Hv Hty) as (due & Hcall & Hlisted & _).
  exists due. split; [exact Hcall|].
  apply Hlisted. right. vm_compute. discriminate.
Defined.

Lemma update_km_readings p (v : dict) km name :
  let v' := <["current_km" := VInt km]> v in
  type_of v' = type_of v ∧ usage_of v' = usage_of v
  ∧ days_since_service p v' name = days_since_service p v name
  ∧ km_since_service v' name
    = km - current_km_of v + km_since_service v name.
Proof.
  cbv zeta. unfold type_of, usage_of, days_since_service, km_since_service,
    current_km_of.
  assert (dict_get (<["current_km" := VInt km]> v) "current_km" (VInt 0)
          = VInt km) as ->
    by (unfold dict_get; by rewrite lookup_insert_eq).
  rewrite !dict_get_update_km
    by first [done | apply last_km_key_ne | apply last_date_key_ne].
  cbn [km_of]. repeat split; lia.
Qed.

(** X2: a service that is due stays due as the odometer advances and as time
    passes. *)
Theorem due_services_monotone p1 p2 v km :
  vehicle_record v → today p1 ≤ today p2 → current_km_of v ≤ km →
  ∃ due due',
    calculate_service_due p1 v = Ok due
    ∧ calculate_service_due p2 (<["current_km" := VInt km]> v) = Ok due'
    ∧ ∀ name, name ∈ Due.service <$> due → name ∈ Due.service <$> due'.
Proof.
  intros Hv Hday Hkm.
  pose proof (update_kilometers_record v km Hv) as Hv'.
  destruct (table_lookup SERVICE_SCHEDULES (type_of v)) as [items|] eqn:Hitems.
  - destruct (type_of v) as [| |ty| |] eqn:Hty; try done.
    unfold table_lookup in Hitems.
    destruct (service_due_entries p1 v ty items Hv Hty Hitems)
      as (parts & Hparts & ->).
    destruct (service_due_entries p2 _ ty items Hv')
      as (parts' & Hparts' & ->); [|done|].
    { by rewrite (proj1 (update_km_readings p2 v km "")). }
    simplify_eq. eexists _, _. split; [done|]. split; [done|].
    intros name. rewrite !due_names. intros (info & Hin & Hdue).
    exists info. split; [done|]. revert Hdue. rewrite !due_entry_is_Some.
    destruct (update_km_readings p2 v km name) as (_ & -> & -> & ->).
    unfold days_since_service. lia.
  - rewrite (calculate_service_due_no_schedule p1 v Hv Hitems).
    rewrite (calculate_service_due_no_schedule p2 _ Hv').
    + by eexists _, _.
    + by rewrite (proj1 (update_km_readings p2 v km "")).
Qed.

Lemma due_services_monotone_witness :
  vehicle_record sample_vehicle
  ∧ today sample_process ≤ today reversed_process
  ∧ current_km_of sample_vehicle ≤ 70000
  ∧ ∃ due due',
      calculate_service_due sample_process sample_vehicle = Ok due
      ∧ calculate_service_due reversed_process
          (<["current_km" := VInt 70000]> sample_vehicle) = Ok due'
      ∧ ∀ name, name ∈ Due.service <$> due → name ∈ Due.service <$> due'.
Proof.
  assert (vehicle_record sample_vehicle) as Hv
    by (apply (bool_decide_unpack _); vm_compute; exact I).
  assert (today sample_process ≤ today reversed_process) as Hday
    by (vm_compute; discriminate).
  assert (current_km_of sample_vehicle ≤ 70000) as Hkm
    by (vm_compute; discriminate).
  do 3 (split; [assumption|]).
  exact (due_services_monotone sample_process reversed_process sample_vehicle
           70000 Hv Hday Hkm).
Defined.

(** ** Newly added vehicles *)

Lemma exact_intervals v ty items name info :
  SERVICE_SCHEDULES !! ty = Some items → (name, info) ∈ items →
  2 ≤ truncated_quotient (Schedule.interval_months info)
        (usage_tenths (usage_of v)).1
  ∧ 0 < truncated_quotient (Schedule.interval_km info)
          (usage_tenths (usage_of v)).2.
Proof.
  intros Hty Hin.
  destruct (multiplier_of_listed v) as (usage & Hmult).
  destruct (adjusted_ok_inv _ _ (schedule_adjusted_ok _ _ _ _ _ _ Hty Hin Hmult))
    as (m & k & d & Hm & Hk & _ & _ & _ & Hk0 & _).
  destruct (schedule_interval_days _ _ _ _ _ _ _ Hty Hin Hmult Hm) as [Hm2 _].
  destruct (adjustment_exact_inv _ _
              (schedule_adjustment_exact _ _ _ _ (usage_of v) Hty Hin))
    as [Hm' Hk'].
  rewrite <- multiplier_of_tenths in Hm', Hk'.
  rewrite Hm in Hm'. rewrite Hk in Hk'. by simplify_eq.
Qed.

Lemma new_vehicle_no_last_km form name :
  new_vehicle form !! ("last_service_km_" +:+ name) = None.
Proof.
  unfold new_vehicle. apply not_elem_of_list_to_map_1. cbn.
  rewrite !elem_of_cons, elem_of_nil. by intros [?|[?|[?|[?|[?|[?|[?|[?|[?|[]]]]]]]]]].
Qed.

Lemma new_vehicle_no_last_date form name :
  new_vehicle form !! ("last_service_date_" +:+ name) = None.
Proof.
  unfold new_vehicle. apply not_elem_of_list_to_map_1. cbn.
  rewrite !elem_of_cons, elem_of_nil. by intros [?|[?|[?|[?|[?|[?|[?|[?|[?|[]]]]]]]]]].
Qed.

Lemma dict_get_absent (d : dict) key x : d !! key = None → dict_get d key x = x.
Proof. unfold dict_get. by intros ->. Qed.

Lemma new_vehicle_readings p form name :
  type_of (new_vehicle form) = VStr (Form.vehicle_type_selector form)
  ∧ km_since_service (new_vehicle form) name = 0
  ∧ days_since_service p (new_vehicle form) name
    = today p - Form.purchase_date form.
Proof.
  unfold km_since_service, days_since_service, current_km_of.
  rewrite (dict_get_absent _ _ _ (new_vehicle_no_last_km form name)).
  rewrite (dict_get_absent _ _ _ (new_vehicle_no_last_date form name)).
  split; [reflexivity|]. split.
  - change (dict_get (new_vehicle form) "current_km" (VInt 0))
      with (VInt (Form.current_km form)).
    change (dict_get (new_vehicle form) "initial_km" (VInt 0))
      with (VInt (Form.current_km form)).
    cbn [km_of]. lia.
  - reflexivity.
Qed.

Lemma omap_none {A B} (f : A → option B) (l : list A) :
  (∀ x, x ∈ l → f x = None) → omap f l = [].
Proof.
  induction l as [|x l IH]; intros Hall; [done|].
  change (omap f (x :: l))
    with (match f x with Some y => y :: omap f l | None => omap f l end).
  rewrite (Hall x) by left. apply IH. intros y Hy. apply Hall. by right.
Qed.

(** X3: a vehicle as the form adds it is never due by its kilometer reading,
    and nothing is due for it in the first 60 days after the purchase. *)
Theorem new_vehicle_due p form :
  MINORDINAL ≤ Form.purchase_date form ≤ MAXORDINAL →
  ∃ due,
    calculate_service_due p (new_vehicle form) = Ok due
    ∧ (∀ e, e ∈ due → Due.due_reason e = "Time Interval")
    ∧ (today p - Form.purchase_date form ≤ 60 → due = []).
Proof.
  intros Hdate. pose proof (new_vehicle_record form Hdate) as Hv.
  destruct (new_vehicle_readings p form "") as (Hty & _ & _).
  destruct (SERVICE_SCHEDULES !! Form.vehicle_type_selector form)
    as [items|] eqn:Hitems.
  - destruct (service_due_entries p _ _ items Hv Hty Hitems)
      as (parts & _ & ->).
    eexists. split; [done|].
    assert (∀ name info e, (name, info) ∈ items →
              due_entry p (new_vehicle form) parts (name, info) = Some e →
              Due.due_reason e = "Time Interval"
              ∧ 60 < today p - Form.purchase_date form) as Hentry.
    { intros name info e Hin. unfold due_entry. cbv zeta.
      destruct (exact_intervals (new_vehicle form) _ _ _ _ Hitems Hin) as [Hm Hk].
      cbn [fst snd].
      destruct (new_vehicle_readings p form name) as (_ & -> & ->).
      rewrite (bool_decide_eq_false_2 (_ ≤ 0)) by lia.
      case_bool_decide; [|done]. cbn. intros [= <-]. cbn. split; [done|lia]. }
    split.
    + intros e ([name info] & Hin & He)%list_elem_of_omap.
      by apply (Hentry name info e).
    + intros Hfresh. apply omap_none. intros [name info] Hin.
      destruct (due_entry p (new_vehicle form) parts (name, info)) as [e|] eqn:He;
        [|done].
      destruct (Hentry name info e Hin He). lia.
  - exists []. split; [|split; [by intros e ?%elem_of_nil|done]].
    apply (calculate_service_due_no_schedule p _ Hv). by rewrite Hty.
Qed.

Lemma new_vehicle_due_witness :
  MINORDINAL ≤ Form.purchase_date sample_form ≤ MAXORDINAL
  ∧ ∃ due,
      calculate_service_due sample_process (new_vehicle sample_form) = Ok due
      ∧ (∀ e, e ∈ due → Due.due_reason e = "Time Interval")
      ∧ (today sample_process - Form.purchase_date sample_form ≤ 60 →
         due = []).
Proof.
  assert (MINORDINAL ≤ Form.purchase_date sample_form ≤ MAXORDINAL) as Hdate
    by (split; vm_compute; discriminate).
  split; [assumption|].
  exact (new_vehicle_due sample_process sample_form Hdate).
Defined.

(** ** The shape of the result, errors and the Dashboard *)

Lemma omap_sublist {A B C} (f : A → option B) (g : B → C) (h : A → C)
    (l : list A) :
  (∀ x y, f x = Some y → g y = h x) →
  g <$> omap f l `sublist_of` h <$> l.
Proof.
  intros Hfg. induction l as [|x l IH]; [constructor|].
  change (omap f (x :: l))
    with (match f x with Some y => y :: omap f l | None => omap f l end).
  destruct (f x) as [y|] eqn:Hy; cbn [fmap list_fmap].
  - rewrite (Hfg x y Hy). by constructor.
  - by constructor.
Qed.

Lemma schedule_lengths :
  map_Forall (λ _ (items : schedule), length items = 5%nat) SERVICE_SCHEDULES.
Proof. apply (bool_decide_unpack _). by vm_compute. Qed.

Lemma due_services_sublist p v due :
  calculate_service_due p v = Ok due →
  Due.service <$> due
    `sublist_of` (default [] (table_lookup SERVICE_SCHEDULES (type_of v))).*1.
Proof.
  intros [->|(pd & ty & items & Hpd & Hty & Hitems & Hloop)]%calculate_service_due_inv.
  { apply sublist_nil_l. }
  apply service_due_loop_inv in Hloop as [_ ->]. rewrite app_nil_l.
  rewrite Hty. cbn [table_lookup]. rewrite Hitems.
  change (default [] (Some items)) with items.
  apply omap_sublist. intros [name info] e. cbn [fst snd].
  destruct (service_due_step _ _ _ _ _ _ _ name info) as [r|] eqn:Hr; [|done].
  intros ->.
  by apply service_due_step_inv in Hr
    as (_ & _ & _ & _ & _ & _ & _ & _ & _ & _ & _ & -> & _).
Qed.

Lemma scheduled_names v :
  NoDup (default [] (table_lookup SERVICE_SCHEDULES (type_of v))).*1
  ∧ (length (default [] (table_lookup SERVICE_SCHEDULES (type_of v))) ≤ 5)%nat.
Proof.
  destruct (table_lookup SERVICE_SCHEDULES (type_of v)) as [items|] eqn:Hitems;
    [|split; [constructor|cbn; lia]].
  destruct (type_of v) as [| |ty| |]; try done. cbn [table_lookup] in Hitems.
  change (default [] (Some items)) with items.
  split; [by eapply schedule_names_NoDup|].
  by rewrite (schedule_lengths _ _ Hitems).
Qed.

Lemma due_services_length p v due :
  calculate_service_due p v = Ok due → (length due ≤ 5)%nat.
Proof.
  intros Hsub%due_services_sublist. apply sublist_length in Hsub.
  rewrite !length_fmap in Hsub. pose proof (proj2 (scheduled_names v)). lia.
Qed.

(** X4: whatever the dictionary holds, the services [calculate_service_due]
    returns are services of the schedule of its type, each at most once
    and in the order of the schedule; there are at most five. *)
Theorem due_services_in_schedule_order p v due :
  calculate_service_due p v = Ok due →
  Due.service <$> due
    `sublist_of` (default [] (table_lookup SERVICE_SCHEDULES (type_of v))).*1
  ∧ NoDup (Due.service <$> due)
  ∧ (length due ≤ 5)%nat.
Proof.
  intros Hdue. pose proof (due_services_sublist p v due Hdue) as Hsub.
  split; [exact Hsub|]. split.
  - eapply sublist_NoDup; [|exact Hsub]. apply scheduled_names.
  - by eapply due_services_length.
Qed.

Lemma due_services_in_schedule_order_witness :
  calculate_service_due sample_process sample_recent = Ok sample_due
  ∧ Due.service <$> sample_due
      `sublist_of`
      (default [] (table_lookup SERVICE_SCHEDULES (type_of sample_recent))).*1
  ∧ NoDup (Due.service <$> sample_due)
  ∧ (length sample_due ≤ 5)%nat.
Proof.
  assert (calculate_service_due sample_process sample_recent = Ok sample_due)
    as Hdue by (vm_compute; reflexivity).
  split; [assumption|].
  exact (due_services_in_schedule_order sample_process sample_recent
           sample_due Hdue).
Defined.

(** X5: [get_recommended_parts] returns for every dictionary whose
    [current_km] is an integer or is missing, whatever its other fields
    hold, and raises [TypeError] when [current_km] holds [None], a
    string, a date or a time delta. *)
Theorem get_recommended_parts_type_error p v :
  match dict_get v "current_km" (VInt 0) with
  | VInt _ => is_ok (get_recommended_parts p v) = true
  | _ => get_recommended_parts p v = Raise TypeError
  end.
Proof.
  unfold get_recommended_parts.
  destruct (dict_get v "current_km" (VInt 0)) as [|km| | |]; try reflexivity.
  unfold between, int_lt, gt_int, le_int, bind.
  repeat match goal with
         | |- context [if ?b then _ else _] => destruct b
         end; reflexivity.
Qed.

(** X6: [calculate_service_due] reads [purchase_date] and then [type] by
    subscript: a dictionary without a purchase date raises [KeyError] for
    it, one with a purchase date and no type raises [KeyError] for the
    type, whatever the other fields hold. *)
Theorem calculate_service_due_missing_keys p v :
  (v !! "purchase_date" = None →
   calculate_service_due p v = Raise (KeyError "purchase_date"))
  ∧ (is_Some (v !! "purchase_date") → v !! "type" = None →
     calculate_service_due p v = Raise (KeyError "type")).
Proof.
  unfold calculate_service_due, calculate_service_due_with, dict_item.
  split.
  - by intros ->.
  - intros [pd ->] ->. done.
Qed.

Lemma vehicle_record_due p v :
  vehicle_record v →
  ∃ due, calculate_service_due p v = Ok due ∧ (length due ≤ 5)%nat.
Proof.
  intros Hv. destruct (proj2 (proj2 Hv)) as [ty Hty].
  assert (∃ due, calculate_service_due p v = Ok due) as [due Hdue].
  { destruct (table_lookup SERVICE_SCHEDULES (type_of v)) as [items|] eqn:Hitems.
    - unfold type_of, dict_get in Hitems. rewrite Hty in Hitems.
      destruct ty as [| |s| |]; try done. cbn [table_lookup] in Hitems.
      destruct (service_due_entries p v s items Hv) as (? & _ & ->);
        [|done|by eexists].
      unfold type_of, dict_get. by rewrite Hty.
    - eexists. by apply calculate_service_due_no_schedule. }
  exists due. split; [done|]. by eapply due_services_length.
Qed.

(** X7: the Services Due metric of the Dashboard is computed for every fleet
    of vehicle records, and counts at most five services a vehicle. *)
Theorem total_due_services_bound p fleet :
  Forall vehicle_record fleet →
  ∃ total,
    total_due_services p fleet = Ok total
    ∧ 0 ≤ total ≤ 5 * Z.of_nat (length fleet).
Proof.
  induction 1 as [|v fleet Hv _ (total & Htotal & Hbound)].
  { exists 0. split; [done|cbn; lia]. }
  destruct (vehicle_record_due p v Hv) as (due & Hdue & Hlen).
  exists (Z.of_nat (length due) + total). cbn [total_due_services].
  rewrite Hdue, Htotal. cbn [bind]. split; [done|]. cbn [length]. lia.
Qed.

Lemma total_due_services_bound_witness :
  Forall vehicle_record [sample_vehicle; sample_recent]
  ∧ ∃ total,
      total_due_services sample_process [sample_vehicle; sample_recent]
      = Ok total
      ∧ 0 ≤ total ≤ 5 * Z.of_nat (length [sample_vehicle; sample_recent]).
Proof.
  assert (Forall vehicle_record [sample_vehicle; sample_recent]) as Hfleet
    by (apply (bool_decide_unpack _); vm_compute; exact I).
  split; [assumption|].
  exact (total_due_services_bound sample_process
           [sample_vehicle; sample_recent] Hfleet).
Defined.

(** ** The Parts Encyclopedia *)

Lemma elem_of_concat {A} (x : A) (ls : list (list A)) :
  x ∈ concat ls ↔ ∃ l, l ∈ ls ∧ x ∈ l.
Proof.
  rewrite list_elem_of_In, in_concat. setoid_rewrite list_elem_of_In.
  naive_solver.
Qed.

Lemma all_parts_elem p part :
  part ∈ all_parts p
  ↔ ∃ ty by_service service parts,
      SERVICE_PARTS !! ty = Some by_service
      ∧ by_service !! service = Some parts ∧ part ∈ parts.
Proof.
  unfold all_parts. rewrite elem_of_sorted_set, elem_of_concat.
  setoid_rewrite list_elem_of_fmap. split.
  - intros (l & (by_service & -> & ([ty by_service'] & -> & Hty)%list_elem_of_fmap)
              & Hl).
    apply elem_of_map_to_list in Hty. cbn [snd] in Hl.
    apply elem_of_concat in Hl
      as (parts & ([service parts'] & -> & Hs)%list_elem_of_fmap & Hpart).
    apply elem_of_map_to_list in Hs. by exists ty, by_service', service, parts'.
  - intros (ty & by_service & service & parts & Hty & Hs & Hpart).
    exists (concat (map_to_list by_service).*2). split.
    + exists by_service. split; [done|]. apply list_elem_of_fmap.
      exists (ty, by_service). split; [done|]. by apply elem_of_map_to_list.
    + apply elem_of_concat. exists parts. split; [|done].
      apply list_elem_of_fmap. exists (service, parts). split; [done|].
      by apply elem_of_map_to_list.
Qed.

(** X8: the part selector of the Parts Encyclopedia offers exactly the parts
    of the lists of [SERVICE_PARTS], each once, in strictly ascending
    order, the same in every process. *)
Theorem all_parts_spec p p' :
  StronglySorted str_lt (all_parts p)
  ∧ all_parts p = all_parts p'
  ∧ ∀ part,
      part ∈ all_parts p
      ↔ ∃ ty by_service service parts,
          SERVICE_PARTS !! ty = Some by_service
          ∧ by_service !! service = Some parts ∧ part ∈ parts.
Proof.
  split; [|split].
  - apply strictly_sorted; [apply sorted_Sorted|apply sorted_set_NoDup].
  - apply sorted_set_order_irrelevant.
  - apply all_parts_elem.
Qed.

Lemma service_due_step_parts service_parts p v pd ckm mult ty name info e :
  service_due_step service_parts p v pd ckm mult ty name info = Ok (Some e) →
  ∃ by_service,
    service_parts !! ty = Some by_service
    ∧ Due.parts e = default [] (by_service !! name).
Proof.
  unfold service_due_step. intros H.
  apply bind_ok in H as (m & Hm & H). apply bind_ok in H as (k & Hk & H).
  apply bind_ok in H as (driven & Hd & H). apply bind_ok in H as (elapsed & He & H).
  apply bind_ok in H as (km_due & Hkd & H).
  destruct ((0 <? m) && PyFloat.ge_int elapsed m || km_due) eqn:Hdue; [|done].
  apply bind_ok in H as (overdue & Ho & H). apply bind_ok in H as (parts & Hp & H).
  injection H as <-. exists parts. split; [|done].
  unfold dict_item in Hp. by destruct (service_parts !! ty); simplify_eq.
Qed.

(** X9: every part that an entry of [calculate_service_due] names, for any
    dictionary, is among the parts the Parts Encyclopedia offers. *)
Theorem due_parts_in_encyclopedia p p' v due e part :
  calculate_service_due p v = Ok due → e ∈ due → part ∈ Due.parts e →
  part ∈ all_parts p'.
Proof.
  intros [->|(pd & ty & items & Hpd & Hty & Hitems & Hloop)]%calculate_service_due_inv
    He Hpart; [by apply elem_of_nil in He|].
  apply service_due_loop_inv in Hloop as [_ ->]. rewrite app_nil_l in He.
  apply produced_elem_of in He as (name & info & Hin & He).
  apply service_due_step_parts in He as (by_service & Hby & Hparts).
  rewrite Hparts in Hpart.
  destruct (by_service !! name) as [parts|] eqn:Hname;
    [|by apply elem_of_nil in Hpart].
  apply all_parts_elem. by exists ty, by_service, name, parts.
Qed.

Lemma due_parts_in_encyclopedia_witness :
  calculate_service_due sample_process sample_recent = Ok sample_due
  ∧ sample_entry ∈ sample_due
  ∧ "Engine Oil" ∈ Due.parts sample_entry
  ∧ "Engine Oil" ∈ all_parts reversed_process.
Proof.
  assert (calculate_service_due sample_process sample_recent = Ok sample_due)
    as Hdue by (vm_compute; reflexivity).
  assert (sample_entry ∈ sample_due) as Hin
    by (unfold sample_due, sample_entry; repeat constructor).
  assert ("Engine Oil" ∈ Due.parts sample_entry) as Hpart
    by (unfold sample_entry; cbn [Due.parts]; repeat constructor).
  do 3 (split; [assumption|]).
  exact (due_parts_in_encyclopedia sample_process reversed_process
           sample_recent sample_due sample_entry "Engine Oil" Hdue Hin Hpart).
Defined.

(** ** The fleet under the operations of the pages *)

(** ** Fleets *)

Lemma same_but_km_refl v : same_but_km v v.
Proof. by intros key _. Qed.

Lemma same_but_km_trans v1 v2 v3 :
  same_but_km v1 v2 → same_but_km v2 v3 → same_but_km v1 v3.
Proof. intros H12 H23 key Hkey. by rewrite H23, H12. Qed.

Lemma same_but_km_update v km : same_but_km v (<["current_km" := VInt km]> v).
Proof. intros key Hkey. by rewrite lookup_insert_ne. Qed.

(** X10: the Update Kilometers button changes the kilometer reading of the
    selected vehicle and nothing else: no vehicle is added or removed,
    every other vehicle and every other field of the selected one stay as
    they were, and so does the memo; an index past the end raises
    [IndexError] and changes nothing. *)
Theorem update_kilometers_frame idx new_km s fleet :
  vehicles s = Some fleet →
  let update := update_kilometers idx new_km s in
  parts_cache (state_after update) = parts_cache s
  ∧ requests_made update = []
  ∧ match fleet !! idx with
    | Some v =>
        returned update = Ok ()
        ∧ ∃ fleet' v',
            vehicles (state_after update) = Some fleet'
            ∧ length fleet' = length fleet
            ∧ (∀ i, i ≠ idx → fleet' !! i = fleet !! i)
            ∧ fleet' !! idx = Some v'
            ∧ v' !! "current_km" = Some (VInt new_km)
            ∧ same_but_km v v'
    | None => returned update = Raise IndexError ∧ state_after update = s
    end.
Proof.
  intros Hfleet. cbv zeta. unfold update_kilometers. rewrite Hfleet.
  destruct (fleet !! idx) as [v|] eqn:Hv;
    cbn [returned state_after requests_made vehicles parts_cache];
    [|done].
  split; [done|]. split; [done|]. split; [done|].
  eexists _, _. split; [done|]. split; [apply length_insert|]. split.
  { intros i Hi. by apply list_lookup_insert_ne. }
  split.
  { apply list_lookup_insert_eq. by eapply lookup_lt_Some. }
  split; [apply lookup_insert_eq|apply same_but_km_update].
Qed.

Lemma update_kilometers_frame_witness :
  vehicles sample_session = Some [sample_vehicle]
  ∧ parts_cache (state_after (update_kilometers 0 70000 sample_session))
    = parts_cache sample_session
  ∧ requests_made (update_kilometers 0 70000 sample_session) = [].
Proof.
  assert (vehicles sample_session = Some [sample_vehicle]) as Hfleet
    by reflexivity.
  split; [assumption|].
  destruct (update_kilometers_frame 0 70000 sample_session [sample_vehicle]
              Hfleet) as (Hcache & Hsent & _).
  exact (conj Hcache Hsent).
Defined.

Lemma get_wikimedia_summary_vehicles network title project s :
  vehicles (state_after (get_wikimedia_summary network title project s))
  = vehicles s.
Proof.
  unfold get_wikimedia_summary.
  destruct title as [[|c title]|]; try done.
  destruct (default ∅ (parts_cache s) !! _); [done|].
  destruct (network _) as [msg|data]; [done|].
  destruct (page_extract data) as [[[| | |extract| |]|]|]; try done.
  by destruct (parts_cache s).
Qed.

Lemma run_operation_fleet_ok op s :
  operation_ok op → fleet_ok s → fleet_ok (run_operation op s).
Proof.
  intros Hop Hs. destruct op as [|form|idx km|network title project];
    cbn [run_operation].
  - intros fleet. unfold init_session_state. cbn [vehicles]. intros [= <-].
    destruct (vehicles s) as [fleet|] eqn:Hfleet; [by apply Hs|constructor].
  - unfold add_vehicle_form.
    destruct (vehicles s) as [fleet|] eqn:Hfleet; cbn [state_after]; [|done].
    intros fleet'. cbn [vehicles]. intros [= <-].
    apply Forall_app. split; [by apply Hs|].
    apply Forall_cons. split; [by apply new_vehicle_record|constructor].
  - unfold update_kilometers.
    destruct (vehicles s) as [fleet|] eqn:Hfleet; cbn [state_after]; [|done].
    destruct (fleet !! idx) as [v|] eqn:Hv; cbn [state_after]; [|done].
    intros fleet'. cbn [vehicles]. intros [= <-].
    apply Forall_insert; [by apply Hs|].
    apply update_kilometers_record.
    by eapply (Forall_lookup_1 _ fleet); [apply Hs|].
  - intros fleet. rewrite get_wikimedia_summary_vehicles. apply Hs.
Qed.

Lemma run_operations_fleet_ok ops s :
  Forall operation_ok ops → fleet_ok s → fleet_ok (run_operations ops s).
Proof.
  intros Hops. revert s. induction Hops as [|op ops Hop _ IH]; intros s Hs;
    [done|].
  cbn. apply IH. by apply run_operation_fleet_ok.
Qed.

Lemma vehicle_record_parts p v :
  vehicle_record v → is_ok (get_recommended_parts p v) = true.
Proof. intros Hv. by destruct (recommended_parts_raw p v Hv) as (l & -> & _). Qed.

(** X11: after any sequence of operations on a session whose fleet holds
    vehicle records, with the date input of the form yielding dates, the
    rule evaluators return for every vehicle of the fleet: neither
    raises an exception. *)
Theorem rule_evaluators_never_raise ops s p fleet v :
  Forall operation_ok ops → fleet_ok s →
  vehicles (run_operations ops s) = Some fleet → v ∈ fleet →
  is_ok (calculate_service_due p v) = true
  ∧ is_ok (get_recommended_parts p v) = true.
Proof.
  intros Hops Hs Hfleet Hv.
  pose proof (run_operations_fleet_ok ops s Hops Hs fleet Hfleet) as Hall.
  rewrite Forall_forall in Hall. specialize (Hall v Hv). split.
  - by destruct (vehicle_record_due p v Hall) as (due & -> & _).
  - by apply vehicle_record_parts.
Qed.

Lemma rule_evaluators_never_raise_witness :
  Forall operation_ok sample_operations
  ∧ fleet_ok empty_session
  ∧ vehicles (run_operations sample_operations empty_session)
    = Some [sample_vehicle]
  ∧ sample_vehicle ∈ [sample_vehicle]
  ∧ is_ok (calculate_service_due sample_process sample_vehicle) = true
  ∧ is_ok (get_recommended_parts sample_process sample_vehicle) = true.
Proof.
  assert (Forall operation_ok sample_operations) as Hops.
  { repeat (apply Forall_cons; split); try apply Forall_nil_2; try exact I.
    split; vm_compute; discriminate. }
  assert (fleet_ok empty_session) as Hs by (intros fleet; discriminate).
  assert (vehicles (run_operations sample_operations empty_session)
          = Some [sample_vehicle]) as Hfleet by reflexivity.
  assert (sample_vehicle ∈ [sample_vehicle]) as Hin by (left).
  do 4 (split; [assumption|]).
  exact (rule_evaluators_never_raise sample_operations empty_session
           sample_process [sample_vehicle] sample_vehicle Hops Hs Hfleet Hin).
Defined.

Lemma run_operation_fleet op s fleet :
  vehicles s = Some fleet →
  ∃ fleet',
    vehicles (run_operation op s) = Some fleet'
    ∧ (length fleet ≤ length fleet')%nat
    ∧ ∀ i v, fleet !! i = Some v →
        ∃ v', fleet' !! i = Some v' ∧ same_but_km v v'.
Proof.
  intros Hfleet.
  assert (∀ i v, fleet !! i = Some v →
            ∃ v', fleet !! i = Some v' ∧ same_but_km v v') as Hsame
    by (intros i v Hi; exists v; split; [done|apply same_but_km_refl]).
  destruct op as [|form|idx km|network title project]; cbn [run_operation].
  - exists fleet. unfold init_session_state. cbn [vehicles]. by rewrite Hfleet.
  - unfold add_vehicle_form. rewrite Hfleet. cbn [state_after vehicles].
    eexists. split; [done|]. split; [rewrite length_app; lia|].
    intros i v Hi. exists v. split; [by apply lookup_app_l_Some|].
    apply same_but_km_refl.
  - unfold update_kilometers. rewrite Hfleet.
    destruct (fleet !! idx) as [v0|] eqn:Hv0; cbn [state_after vehicles];
      [|by exists fleet].
    eexists. split; [done|]. split; [by rewrite length_insert|].
    intros i v Hi. destruct (decide (i = idx)) as [->|Hne].
    + rewrite list_lookup_insert_eq by (by eapply lookup_lt_Some).
      eexists. split; [done|]. simplify_eq. apply same_but_km_update.
    + rewrite list_lookup_insert_ne by done. by apply Hsame.
  - rewrite get_wikimedia_summary_vehicles. by exists fleet.
Qed.

(** X12: no sequence of operations removes a vehicle from the fleet, moves
    it, or changes a field of it other than the kilometer reading. *)
Theorem fleet_only_grows ops s fleet :
  vehicles s = Some fleet →
  ∃ fleet',
    vehicles (run_operations ops s) = Some fleet'
    ∧ (length fleet ≤ length fleet')%nat
    ∧ ∀ i v, fleet !! i = Some v →
        ∃ v', fleet' !! i = Some v' ∧ same_but_km v v'.
Proof.
  revert s fleet. induction ops as [|op ops IH]; intros s fleet Hfleet.
  { exists fleet. split; [done|]. split; [done|].
    intros i v Hi. exists v. split; [done|apply same_but_km_refl]. }
  destruct (run_operation_fleet op s fleet Hfleet) as (fleet1 & H1 & Hlen1 & Hsame1).
  destruct (IH _ _ H1) as (fleet' & H' & Hlen' & Hsame').
  exists fleet'. split; [done|]. split; [lia|].
  intros i v Hi. destruct (Hsame1 i v Hi) as (v1 & Hi1 & Hv1).
  destruct (Hsame' i v1 Hi1) as (v' & Hi' & Hv').
  exists v'. split; [done|]. by eapply same_but_km_trans.
Qed.

Lemma fleet_only_grows_witness :
  vehicles sample_session = Some [sample_vehicle]
  ∧ ∃ fleet',
      vehicles (run_operations sample_operations sample_session) = Some fleet'
      ∧ (length [sample_vehicle] ≤ length fleet')%nat
      ∧ ∀ i v, [sample_vehicle] !! i = Some v →
          ∃ v', fleet' !! i = Some v' ∧ same_but_km v v'.
Proof.
  assert (vehicles sample_session = Some [sample_vehicle]) as Hfleet
    by reflexivity.
  split; [assumption|].
  exact (fleet_only_grows sample_operations sample_session [sample_vehicle]
           Hfleet).
Defined.

(** ** The summary lookup *)

Lemma get_wikimedia_summary_requests network title project s :
  (length (requests_made (get_wikimedia_summary network title project s)) ≤ 1)%nat.
Proof.
  unfold get_wikimedia_summary.
  repeat case_match; cbn [requests_made length]; lia.
Qed.

Lemma get_wikimedia_summary_change network title project s :
  let call := get_wikimedia_summary network title project s in
  state_after call = s
  ∨ ∃ t cache summary,
      title = Some t ∧ parts_cache s = Some cache
      ∧ cache !! (project +:+ "_" +:+ t) = None
      ∧ returned call = Ok summary
      ∧ parts_cache (state_after call)
        = Some (<[project +:+ "_" +:+ t := summary]> cache).
Proof.
  cbv zeta. unfold get_wikimedia_summary.
  destruct title as [[|c title]|]; try by left.
  destruct (default ∅ (parts_cache s) !! _) as [hit|] eqn:Hmiss; [by left|].
  destruct (network _) as [msg|data] eqn:Hnet; [by left|].
  destruct (page_extract data) as [[[| | |extract| |]|]|]; try by left.
  destruct (parts_cache s) as [cache|] eqn:Hcache; [|by left].
  right. eexists _, cache, _. split; [done|]. split; [done|].
  split; [exact Hmiss|]. done.
Qed.

(** X13: a call of [get_wikimedia_summary] sends at most one request and
    never touches the fleet.  It changes the session state only by
    storing the summary it returns under the key of project and title,
    which had no entry; whenever the request fails, the failure is
    reported in the returned text and nothing is stored. *)
Theorem get_wikimedia_summary_frame network title project s :
  let call := get_wikimedia_summary network title project s in
  (length (requests_made call) ≤ 1)%nat
  ∧ vehicles (state_after call) = vehicles s
  ∧ (state_after call = s
     ∨ ∃ t cache summary,
         title = Some t ∧ parts_cache s = Some cache
         ∧ cache !! (project +:+ "_" +:+ t) = None
         ∧ returned call = Ok summary
         ∧ parts_cache (state_after call)
           = Some (<[project +:+ "_" +:+ t := summary]> cache))
  ∧ ∀ req e,
      req ∈ requests_made call → network req = RequestException e →
      returned call = Ok ("Network error retrieving information: " +:+ e)
      ∧ state_after call = s.
Proof.
  cbv zeta. split; [apply get_wikimedia_summary_requests|].
  split; [apply get_wikimedia_summary_vehicles|].
  split; [apply get_wikimedia_summary_change|].
  unfold get_wikimedia_summary.
  destruct title as [[|c title]|]; try by intros ? ? ?%elem_of_nil.
  destruct (default ∅ (parts_cache s) !! _) as [hit|] eqn:Hmiss;
    [by intros ? ? ?%elem_of_nil|].
  destruct (network _) as [msg|data] eqn:Hnet.
  { cbn [requests_made returned state_after].
    intros req e ->%list_elem_of_singleton Hreq.
    rewrite Hnet in Hreq. by injection Hreq as <-. }
  assert (∀ req e,
            req ∈ [{| api_url := default "wikipedia" (base_url !! project);
                      titles := String c title |}] →
            network req = RequestException e → False) as Hbody
    by (intros req e ->%list_elem_of_singleton Hreq; congruence).
  repeat case_match; cbn [requests_made];
    by intros req0 e0 Hin Hreq; destruct (Hbody req0 e0).
Qed.

(** X14: once a call of [get_wikimedia_summary] has left a summary in the
    memo, then after any further operations on the session and whatever
    the network answers, the same call returns the same summary without
    sending a request and without changing the state. *)
Theorem summary_served_from_memo network network' (title project : string)
    s ops summary :
  title ≠ "" →
  let key := project +:+ "_" +:+ title in
  let call := get_wikimedia_summary network (Some title) project s in
  returned call = Ok summary →
  is_Some (default ∅ (parts_cache (state_after call)) !! key) →
  let s' := run_operations ops (state_after call) in
  let again := get_wikimedia_summary network' (Some title) project s' in
  returned again = Ok summary
  ∧ requests_made again = []
  ∧ state_after again = s'.
Proof.
  intros Htitle. cbv zeta. intros Hret Hkey.
  assert (∃ cache, parts_cache
            (state_after (get_wikimedia_summary network (Some title) project s))
            = Some cache
          ∧ cache !! (project +:+ "_" +:+ title) = Some summary)
    as (cache & Hcache & Hsummary).
  { revert Hret Hkey. unfold get_wikimedia_summary.
    destruct title as [|c title]; [done|].
    destruct (default ∅ (parts_cache s) !! _) as [hit|] eqn:Hhit;
      cbn [returned state_after].
    { intros [= ->] _. destruct (parts_cache s) as [cache|]; [|done].
      by exists cache. }
    destruct (network _) as [msg|data]; cbn [returned state_after];
      [intros _; rewrite Hhit; by intros [? [=]]|].
    destruct (page_extract data) as [[[| | |extract| |]|]|];
      cbn [returned state_after];
      try (intros _; rewrite Hhit; by intros [? [=]]).
    destruct (parts_cache s) as [cache|] eqn:Hcache;
      cbn [returned state_after parts_cache]; [|done].
    intros [= <-] _. eexists. split; [done|]. apply lookup_insert_eq. }
  destruct (run_operations_kept ops _ cache _ summary Hcache Hsummary)
    as (cache' & Hcache' & Hsummary').
  unfold get_wikimedia_summary at 1 3 5.
  destruct title as [|c title]; [done|].
  rewrite Hcache'. change (default ∅ (Some cache')) with cache'.
  by rewrite Hsummary'.
Qed.

Lemma summary_served_from_memo_witness :
  "Clutch" ≠ ""
  ∧ returned (get_wikimedia_summary sample_network (Some "Clutch") "wikipedia"
                                    sample_session)
    = Ok "A clutch engages power transmission."
  ∧ is_Some (default ∅ (parts_cache (state_after
               (get_wikimedia_summary sample_network (Some "Clutch")
                  "wikipedia" sample_session)))
             !! ("wikipedia" +:+ "_" +:+ "Clutch"))
  ∧ returned
      (get_wikimedia_summary offline_network (Some "Clutch") "wikipedia"
         (run_operations sample_operations
            (state_after (get_wikimedia_summary sample_network (Some "Clutch")
                            "wikipedia" sample_session))))
    = Ok "A clutch engages power transmission.".
Proof.
  assert ("Clutch" ≠ "") as Htitle by discriminate.
  assert (returned (get_wikimedia_summary sample_network (Some "Clutch")
                      "wikipedia" sample_session)
          = Ok "A clutch engages power transmission.") as Hret
    by (vm_compute; reflexivity).
  assert (is_Some (default ∅ (parts_cache (state_after
               (get_wikimedia_summary sample_network (Some "Clutch")
                  "wikipedia" sample_session)))
             !! ("wikipedia" +:+ "_" +:+ "Clutch"))) as Hkey
    by (exists "A clutch engages power transmission."; vm_compute; reflexivity).
  do 3 (split; [assumption|]).
  exact (proj1 (summary_served_from_memo sample_network offline_network
                  "Clutch" "wikipedia" sample_session sample_operations
                  "A clutch engages power transmission." Htitle Hret Hkey)).
Defined.

Lemma known_project project :
  is_Some (base_url !! project) →
  project = "wikipedia" ∨ project = "wikibooks".
Proof.
  intros [url Hurl].
  destruct (decide (project = "wikipedia")) as [|Hp]; [by left|].
  destruct (decide (project = "wikibooks")) as [|Hb]; [by right|].
  unfold base_url in Hurl. cbn [list_to_map foldr uncurry fst snd] in Hurl.
  by rewrite !lookup_insert_ne, lookup_empty in Hurl.
Qed.

Lemma append_inj_r (a b c : string) : a +:+ b = a +:+ c → b = c.
Proof.
  induction a as [|ch a IH]; [done|].
  change (String ch (a +:+ b) = String ch (a +:+ c) → b = c).
  intros [= H]. by apply IH.
Qed.

Lemma append_cons ch (a b : string) : String ch a +:+ b = String ch (a +:+ b).
Proof. reflexivity. Qed.

Lemma cache_key_inj project1 project2 title1 title2 :
  is_Some (base_url !! project1) → is_Some (base_url !! project2) →
  project1 +:+ "_" +:+ title1 = project2 +:+ "_" +:+ title2 →
  project1 = project2 ∧ title1 = title2.
Proof.
  intros [->| ->]%known_project [->| ->]%known_project Hkey.
  - split; [done|]. by apply append_inj_r, append_inj_r in Hkey.
  - exfalso. rewrite !append_cons in Hkey. by injection Hkey.
  - exfalso. rewrite !append_cons in Hkey. by injection Hkey.
  - split; [done|]. by apply append_inj_r, append_inj_r in Hkey.
Qed.

(** X15: for the two projects the application uses, [wikipedia] and
    [wikibooks], a lookup of one article does not change what a later
    lookup of another article returns or requests: the memo keys of
    different pairs of project and title differ. *)
Theorem lookups_do_not_interfere network1 network2
    (title1 title2 project1 project2 : string) s :
  is_Some (base_url !! project1) → is_Some (base_url !! project2) →
  (project1, title1) ≠ (project2, title2) →
  let s1 := state_after (get_wikimedia_summary network1 (Some title1) project1 s) in
  returned (get_wikimedia_summary network2 (Some title2) project2 s1)
  = returned (get_wikimedia_summary network2 (Some title2) project2 s)
  ∧ requests_made (get_wikimedia_summary network2 (Some title2) project2 s1)
    = requests_made (get_wikimedia_summary network2 (Some title2) project2 s).
Proof.
  intros Hp1 Hp2 Hne. cbv zeta.
  destruct (get_wikimedia_summary_change network1 (Some title1) project1 s)
    as [->|(t & cache & summary & [= <-] & Hcache & Hmiss & _ & Hstored)];
    [done|].
  pose proof (get_wikimedia_summary_vehicles network1 (Some title1) project1 s)
    as Hfleet.
  destruct (state_after _) as [fleet1 cache1]. cbn in Hstored, Hfleet.
  subst fleet1 cache1.
  assert (project2 +:+ "_" +:+ title2 ≠ project1 +:+ "_" +:+ title1) as Hkey.
  { intros Hkey. destruct (cache_key_inj _ _ _ _ Hp2 Hp1 Hkey) as [Hp Ht].
    apply Hne. by rewrite Hp, Ht. }
  unfold get_wikimedia_summary. destruct title2 as [|c title2]; [done|].
  rewrite Hcache. cbn [parts_cache].
  change (default ∅ (Some cache)) with cache.
  change (default ∅ (Some ?m)) with m.
  rewrite lookup_insert_ne by done.
  clear Hmiss. destruct (cache !! _); [done|].
  destruct (network2 _) as [msg|data]; [done|].
  by destruct (page_extract data) as [[[| | |extract| |]|]|].
Qed.

Lemma lookups_do_not_interfere_witness :
  is_Some (base_url !! "wikipedia")
  ∧ is_Some (base_url !! "wikibooks")
  ∧ ("wikipedia", "Clutch") ≠ ("wikibooks", "Clutch")
  ∧ returned
      (get_wikimedia_summary offline_network (Some "Clutch") "wikibooks"
         (state_after (get_wikimedia_summary sample_network (Some "Clutch")
                         "wikipedia" sample_session)))
    = returned (get_wikimedia_summary offline_network (Some "Clutch")
                  "wikibooks" sample_session).
Proof.
  assert (is_Some (base_url !! "wikipedia")) as Hp1
    by (exists "https://en.wikipedia.org/w/api.php"; reflexivity).
  assert (is_Some (base_url !! "wikibooks")) as Hp2
    by (exists "https://en.wikibooks.org/w/api.php"; reflexivity).
  assert (("wikipedia", "Clutch") ≠ ("wikibooks", "Clutch")) as Hne
    by discriminate.
  do 3 (split; [assumption|]).
  exact (proj1 (lookups_do_not_interfere sample_network offline_network
                  "Clutch" "Clutch" "wikipedia" "wikibooks" sample_session
                  Hp1 Hp2 Hne)).
Defined.

(** ** The clean-up of extracts *)

(** ** Strings *)

Lemma app_empty_l (a : string) : "" +:+ a = a.
Proof. reflexivity. Qed.

Lemma app_empty_r (a : string) : a +:+ "" = a.
Proof. induction a as [|ch a IH]; [done|]. by rewrite append_cons, IH. Qed.

Lemma app_assoc' (a b c : string) : (a +:+ b) +:+ c = a +:+ (b +:+ c).
Proof. induction a as [|ch a IH]; [done|]. by rewrite !append_cons, IH. Qed.

Lemma app_length (a b : string) :
  String.length (a +:+ b) = (String.length a + String.length b)%nat.
Proof. induction a as [|ch a IH]; [done|]. rewrite append_cons. cbn. by rewrite IH. Qed.

Lemma rev_app_spec (a b : string) : String.rev_app a b = String.rev a +:+ b.
Proof.
  unfold String.rev. revert b. induction a as [|ch a IH]; intros b; [done|].
  cbn [String.rev_app]. rewrite (IH (String ch b)), (IH (String ch "")).
  by rewrite app_assoc'.
Qed.

Lemma rev_cons ch (a : string) :
  String.rev (String ch a) = String.rev a +:+ String ch "".
Proof. unfold String.rev at 1. cbn [String.rev_app]. apply rev_app_spec. Qed.

Lemma rev_app_distr (a b : string) :
  String.rev (a +:+ b) = String.rev b +:+ String.rev a.
Proof.
  induction a as [|ch a IH]; [by rewrite app_empty_l, app_empty_r|].
  by rewrite append_cons, !rev_cons, IH, app_assoc'.
Qed.

Lemma rev_involutive (a : string) : String.rev (String.rev a) = a.
Proof.
  induction a as [|ch a IH]; [done|].
  by rewrite rev_cons, rev_app_distr, IH.
Qed.

(** ** Stripping *)

Lemma drop_prefix_Some (w s rest : string) :
  drop_prefix w s = Some rest ↔ s = w +:+ rest.
Proof.
  revert s. induction w as [|a w IH]; intros s.
  { cbn. rewrite app_empty_l. by split; [intros [= ->]|intros ->]. }
  destruct s as [|b s]; [by rewrite append_cons|].
  cbn [drop_prefix]. rewrite append_cons.
  destruct (Ascii.eqb_spec a b) as [->|Hne].
  - rewrite IH. split; [by intros ->|by intros [= ->]].
  - split; [done|]. intros [= -> _]. done.
Qed.

Lemma drop_any_prefix_Some (ws : list string) (s rest : string) :
  drop_any_prefix ws s = Some rest → ∃ w, w ∈ ws ∧ s = w +:+ rest.
Proof.
  induction ws as [|w ws IH]; [done|]. cbn [drop_any_prefix].
  destruct (drop_prefix w s) as [rest'|] eqn:Hw.
  - intros [= ->]. exists w. split; [by left|]. by apply drop_prefix_Some.
  - intros (w' & Hin & ->)%IH. exists w'. split; [by right|done].
Qed.

Lemma drop_any_prefix_None (ws : list string) (s : string) :
  drop_any_prefix ws s = None ↔ ∀ w rest, w ∈ ws → s ≠ w +:+ rest.
Proof.
  induction ws as [|w ws IH]; cbn [drop_any_prefix].
  { split; [by intros _ w rest ?%elem_of_nil|done]. }
  destruct (drop_prefix w s) as [rest'|] eqn:Hw.
  - split; [done|]. intros Hall. apply drop_prefix_Some in Hw.
    by destruct (Hall w rest' ltac:(by left)).
  - rewrite IH. split.
    + intros Hall w' rest [->|Hin]%elem_of_cons; [|by apply Hall].
      intros Heq%drop_prefix_Some. congruence.
    + intros Hall w' rest Hin. apply Hall. by right.
Qed.

Lemma lstrip_from_suffix ws fuel s :
  ∃ pre, s = pre +:+ lstrip_from ws fuel s.
Proof.
  revert s. induction fuel as [|fuel IH]; intros s; cbn [lstrip_from].
  { by exists "". }
  destruct (drop_any_prefix ws s) as [rest|] eqn:Hdrop; [|by exists ""].
  apply drop_any_prefix_Some in Hdrop as (w & _ & ->).
  destruct (IH rest) as (pre & Hpre). exists (w +:+ pre).
  by rewrite app_assoc', <- Hpre.
Qed.

Lemma lstrip_from_done ws fuel s :
  Forall (λ w, w ≠ "") ws → (String.length s ≤ fuel)%nat →
  drop_any_prefix ws (lstrip_from ws fuel s) = None.
Proof.
  intros Hws. revert s. induction fuel as [|fuel IH]; intros s Hlen.
  { destruct s; [|cbn in Hlen; lia]. cbn [lstrip_from].
    apply drop_any_prefix_None. intros w rest Hin Heq.
    rewrite Forall_forall in Hws. apply (Hws w Hin).
    by destruct w. }
  cbn [lstrip_from].
  destruct (drop_any_prefix ws s) as [rest|] eqn:Hdrop; [|done].
  apply IH. apply drop_any_prefix_Some in Hdrop as (w & Hin & ->).
  rewrite Forall_forall in Hws. specialize (Hws w Hin).
  rewrite app_length in Hlen. destruct w; [done|]. cbn in Hlen. lia.
Qed.

Lemma lstrip_from_id ws fuel s :
  drop_any_prefix ws s = None → lstrip_from ws fuel s = s.
Proof. intros Hs. destruct fuel; [done|]. cbn [lstrip_from]. by rewrite Hs. Qed.

Lemma WHITESPACE_nonempty : Forall (λ w, w ≠ "") WHITESPACE.
Proof. apply (bool_decide_unpack _). by vm_compute. Qed.

Lemma rev_WHITESPACE_nonempty : Forall (λ w, w ≠ "") (map String.rev WHITESPACE).
Proof. apply (bool_decide_unpack _). by vm_compute. Qed.

Lemma lstrip_suffix s : ∃ pre, s = pre +:+ lstrip s.
Proof. apply lstrip_from_suffix. Qed.

Lemma rstrip_prefix s : ∃ post, s = rstrip s +:+ post.
Proof.
  unfold rstrip.
  destruct (lstrip_from_suffix (map String.rev WHITESPACE)
              (String.length s) (String.rev s)) as (pre & Hpre).
  exists (String.rev pre).
  by rewrite <- rev_app_distr, <- Hpre, rev_involutive.
Qed.

Lemma rev_length (s : string) : String.length (String.rev s) = String.length s.
Proof.
  induction s as [|ch s IH]; [done|].
  rewrite rev_cons, app_length, IH. cbn. lia.
Qed.

Lemma lstrip_clean s : drop_any_prefix WHITESPACE (lstrip s) = None.
Proof. apply lstrip_from_done; [apply WHITESPACE_nonempty|done]. Qed.

Lemma rstrip_clean s :
  drop_any_prefix (map String.rev WHITESPACE) (String.rev (rstrip s)) = None.
Proof.
  unfold rstrip. rewrite rev_involutive.
  apply lstrip_from_done; [apply rev_WHITESPACE_nonempty|].
  by rewrite rev_length.
Qed.

Lemma strip_clean s :
  drop_any_prefix WHITESPACE (strip s) = None
  ∧ drop_any_prefix (map String.rev WHITESPACE) (String.rev (strip s)) = None.
Proof.
  unfold strip. split; [|apply rstrip_clean].
  apply drop_any_prefix_None. intros w rest Hw Heq.
  destruct (rstrip_prefix (lstrip s)) as (post & Hpost).
  rewrite Heq, app_assoc' in Hpost.
  pose proof (lstrip_clean s) as Hclean.
  rewrite drop_any_prefix_None in Hclean. exact (Hclean w _ Hw Hpost).
Qed.

Lemma strip_id s :
  drop_any_prefix WHITESPACE s = None →
  drop_any_prefix (map String.rev WHITESPACE) (String.rev s) = None →
  strip s = s.
Proof.
  intros Hl Hr. unfold strip, lstrip. rewrite (lstrip_from_id _ _ _ Hl).
  unfold rstrip. by rewrite (lstrip_from_id _ _ _ Hr), rev_involutive.
Qed.

(** ** Line feeds *)

Lemma collapse_newlines_head c rest :
  ∃ rest', collapse_newlines (String c rest) = String c rest'.
Proof.
  revert c. induction rest as [|c' rest IH]; intros c; [by eexists|].
  cbn [collapse_newlines].
  destruct (is_newline c && is_newline c') eqn:Hnl; [|by eexists].
  apply andb_prop in Hnl as [Hc Hc'].
  unfold is_newline in Hc, Hc'.
  apply Ascii.eqb_eq in Hc as ->. apply Ascii.eqb_eq in Hc' as ->.
  apply IH.
Qed.

Lemma collapse_newlines_clean s : double_newline (collapse_newlines s) = false.
Proof.
  induction s as [|c rest IH]; [done|].
  destruct rest as [|c' rest]; [done|].
  change (collapse_newlines (String c (String c' rest)))
    with (if is_newline c && is_newline c'
          then collapse_newlines (String c' rest)
          else String c (collapse_newlines (String c' rest))).
  destruct (is_newline c && is_newline c') eqn:Hnl; [done|].
  destruct (collapse_newlines_head c' rest) as (rest' & Hrest).
  rewrite Hrest in IH |- *.
  change (double_newline (String c (String c' rest')))
    with (is_newline c && is_newline c' || double_newline (String c' rest')).
  by rewrite Hnl, IH.
Qed.

Lemma collapse_newlines_id s :
  double_newline s = false → collapse_newlines s = s.
Proof.
  induction s as [|c rest IH]; [done|].
  destruct rest as [|c' rest]; [done|].
  change (double_newline (String c (String c' rest)))
    with (is_newline c && is_newline c' || double_newline (String c' rest)).
  intros [Hnl Hrest]%orb_false_elim.
  change (collapse_newlines (String c (String c' rest)))
    with (if is_newline c && is_newline c'
          then collapse_newlines (String c' rest)
          else String c (collapse_newlines (String c' rest))).
  by rewrite Hnl, IH.
Qed.

Lemma double_newline_app_r (a b : string) :
  double_newline (a +:+ b) = false → double_newline b = false.
Proof.
  induction a as [|c a IH]; [done|]. rewrite append_cons.
  destruct (a +:+ b) as [|c' rest] eqn:Hab.
  { destruct a; [|done]. rewrite app_empty_l in Hab. by rewrite Hab. }
  change (double_newline (String c (String c' rest)))
    with (is_newline c && is_newline c' || double_newline (String c' rest)).
  intros [_ Hrest]%orb_false_elim. by apply IH.
Qed.

Lemma double_newline_app_l (a b : string) :
  double_newline (a +:+ b) = false → double_newline a = false.
Proof.
  induction a as [|c a IH]; [done|]. rewrite append_cons.
  destruct a as [|c' a]; [done|]. rewrite append_cons.
  change (double_newline (String c (String c' (a +:+ b))))
    with (is_newline c && is_newline c' || double_newline (String c' (a +:+ b))).
  change (double_newline (String c (String c' a)))
    with (is_newline c && is_newline c' || double_newline (String c' a)).
  intros [-> Hrest]%orb_false_elim. rewrite <- append_cons in Hrest.
  by rewrite (IH Hrest).
Qed.

Lemma strip_keeps_clean s :
  double_newline s = false → double_newline (strip s) = false.
Proof.
  intros Hs. unfold strip.
  destruct (lstrip_suffix s) as (pre & Hpre).
  destruct (rstrip_prefix (lstrip s)) as (post & Hpost).
  rewrite Hpre in Hs. apply double_newline_app_r in Hs.
  rewrite Hpost in Hs. by apply double_newline_app_l in Hs.
Qed.

(** X16: the clean-up [get_wikimedia_summary] applies to an extract before
    it stores it leaves no two line feeds in a row and no white space at
    either end, and cleaning a cleaned text again changes nothing. *)
Theorem cleaned_summary (extract : string) :
  let summary := strip (collapse_newlines extract) in
  double_newline summary = false
  ∧ drop_any_prefix WHITESPACE summary = None
  ∧ drop_any_prefix (map String.rev WHITESPACE) (String.rev summary) = None
  ∧ strip (collapse_newlines summary) = summary.
Proof.
  cbv zeta.
  pose proof (strip_keeps_clean _ (collapse_newlines_clean extract)) as Hnl.
  destruct (strip_clean (collapse_newlines extract)) as [Hl Hr].
  split; [done|]. split; [done|]. split; [done|].
  rewrite (collapse_newlines_id _ Hnl). by apply strip_id.
Qed.

(** ** Searches *)

Lemma search_wikimedia_request search_net query project limit :
  (search_wikimedia search_net query project limit).2
  = [{| search_url := default "wikipedia" (base_url !! project);
        srsearch := query; srlimit := limit |}].
Proof. unfold search_wikimedia. by destruct (search_net _). Qed.

Lemma search_title_inv data title :
  search_title data = Ok title → title ≠ JNull →
  ∃ found hit rest,
    json_item data "query" = Ok found
    ∧ json_item found "search" = Ok (JArr (hit :: rest))
    ∧ json_item hit "title" = Ok title.
Proof.
  unfold search_title. intros H Htitle.
  apply bind_ok in H as (has_query & _ & H).
  destruct has_query; [|by simplify_eq].
  apply bind_ok in H as (found & Hfound & H).
  apply bind_ok in H as (has_search & _ & H).
  destruct has_search; [|by simplify_eq].
  apply bind_ok in H as (hits & Hhits & H).
  destruct (truthy hits); [|by simplify_eq].
  exists found. unfold first_title in H.
  destruct hits as [| | |[|? ?]|[|hit rest]|]; try done.
  by exists hit, rest.
Qed.

(** X17: [search_wikimedia] sends exactly one request.  When the request
    fails it returns [None]; a title it returns is the title of the
    first hit of the answer, however many hits there are. *)
Theorem search_wikimedia_first_hit search_net query project limit :
  let req :=
    {| search_url := default "wikipedia" (base_url !! project);
       srsearch := query; srlimit := limit |} in
  let call := search_wikimedia search_net query project limit in
  call.2 = [req]
  ∧ (∀ e, search_net req = RequestException e → call.1 = Ok JNull)
  ∧ ∀ title,
      call.1 = Ok title → title ≠ JNull →
      ∃ data found hit rest,
        search_net req = Body data
        ∧ json_item data "query" = Ok found
        ∧ json_item found "search" = Ok (JArr (hit :: rest))
        ∧ json_item hit "title" = Ok title.
Proof.
  cbv zeta. split; [apply search_wikimedia_request|].
  unfold search_wikimedia. destruct (search_net _) as [msg|data] eqn:Hnet.
  - split; [done|]. cbn [fst]. intros title [= <-] Hne. done.
  - split; [done|]. cbn [fst]. intros title Htitle Hne.
    destruct (search_title_inv data title Htitle Hne)
      as (found & hit & rest & ? & ? & ?).
    by exists data, found, hit, rest.
Qed.

(** ** Part information and maintenance tips *)

Lemma summary_of_hit_inv network title project s sent l :
  summary_of_hit network title project s sent = Some l →
  ∃ t, title = JStr t
    ∧ looked_up l = returned (get_wikimedia_summary network (Some t) project s)
    ∧ session_after l
      = state_after (get_wikimedia_summary network (Some t) project s)
    ∧ requests_sent l
      = sent ++ (ExtractRequest
                   <$> requests_made
                         (get_wikimedia_summary network (Some t) project s)).
Proof.
  unfold summary_of_hit. destruct title as [| | |t| |]; try done.
  intros [= <-]. by exists t.
Qed.

Lemma get_wikimedia_summary_raise network title project s :
  is_ok (returned (get_wikimedia_summary network title project s)) = false →
  state_after (get_wikimedia_summary network title project s) = s.
Proof.
  destruct (get_wikimedia_summary_change network title project s)
    as [->|(t & cache & summary & _ & _ & _ & -> & _)]; done.
Qed.

Lemma summary_of_hit_frame network title project s sent l :
  summary_of_hit network title project s sent = Some l →
  vehicles (session_after l) = vehicles s
  ∧ cache_kept s (session_after l)
  ∧ (is_ok (looked_up l) = false → session_after l = s)
  ∧ ∃ extracts,
      requests_sent l = sent ++ (ExtractRequest <$> extracts)
      ∧ (length extracts ≤ 1)%nat.
Proof.
  intros (t & -> & -> & -> & ->)%summary_of_hit_inv.
  split; [apply get_wikimedia_summary_vehicles|].
  split; [apply get_wikimedia_summary_kept|].
  split; [apply get_wikimedia_summary_raise|].
  eexists. split; [done|]. apply get_wikimedia_summary_requests.
Qed.

(** X18: [get_part_information] sends one or two searches to Wikipedia, for
    the part name with and then without the word Automotive, followed by
    at most one request for an extract.  It never touches the fleet and
    never drops or changes an entry of the memo, and when it raises an
    exception it leaves the session state as it was. *)
Theorem get_part_information_frame search_net network part_name s l :
  get_part_information search_net network part_name s = Some l →
  vehicles (session_after l) = vehicles s
  ∧ cache_kept s (session_after l)
  ∧ (is_ok (looked_up l) = false → session_after l = s)
  ∧ ∃ searches extracts,
      requests_sent l
      = (SearchRequest <$> searches) ++ (ExtractRequest <$> extracts)
      ∧ (searches = [wikipedia_search ("Automotive " +:+ part_name)]
         ∨ searches = [wikipedia_search ("Automotive " +:+ part_name);
                       wikipedia_search part_name])
      ∧ (length extracts ≤ 1)%nat.
Proof.
  unfold get_part_information.
  pose proof (search_wikimedia_request search_net
                ("Automotive " +:+ part_name) "wikipedia" 1) as Hreq1.
  pose proof (search_wikimedia_request search_net part_name "wikipedia" 1)
    as Hreq2.
  destruct (search_wikimedia search_net ("Automotive " +:+ part_name) _ _)
    as [title1 sent1].
  destruct (search_wikimedia search_net part_name _ _) as [title2 sent2].
  cbn [snd] in Hreq1, Hreq2. subst sent1 sent2.
  change (default "wikipedia" (base_url !! "wikipedia"))
    with "https://en.wikipedia.org/w/api.php".
  fold (wikipedia_search ("Automotive " +:+ part_name)).
  fold (wikipedia_search part_name).
  assert (∀ l' : lookup string,
            session_after l' = s →
            (requests_sent l'
             = SearchRequest <$> [wikipedia_search ("Automotive " +:+ part_name)]
             ∨ requests_sent l'
               = SearchRequest <$> [wikipedia_search ("Automotive " +:+ part_name);
                                    wikipedia_search part_name]) →
            vehicles (session_after l') = vehicles s
            ∧ cache_kept s (session_after l')
            ∧ (is_ok (looked_up l') = false → session_after l' = s)
            ∧ ∃ searches extracts,
                requests_sent l'
                = (SearchRequest <$> searches) ++ (ExtractRequest <$> extracts)
                ∧ (searches = [wikipedia_search ("Automotive " +:+ part_name)]
                   ∨ searches = [wikipedia_search ("Automotive " +:+ part_name);
                                 wikipedia_search part_name])
                ∧ (length extracts ≤ 1)%nat) as Hsame.
  { intros l' -> Hsent. split; [done|]. split; [apply cache_kept_refl|].
    split; [done|].
    destruct Hsent as [-> | ->]; eexists _, []; rewrite app_nil_r;
      (split; [done|]); (split; [|cbn; lia]); [by left|by right]. }
  assert (∀ title sent (l' : lookup string) searches,
            sent = SearchRequest <$> searches →
            (searches = [wikipedia_search ("Automotive " +:+ part_name)]
             ∨ searches = [wikipedia_search ("Automotive " +:+ part_name);
                           wikipedia_search part_name]) →
            summary_of_hit network title "wikipedia" s sent = Some l' →
            vehicles (session_after l') = vehicles s
            ∧ cache_kept s (session_after l')
            ∧ (is_ok (looked_up l') = false → session_after l' = s)
            ∧ ∃ searches extracts,
                requests_sent l'
                = (SearchRequest <$> searches) ++ (ExtractRequest <$> extracts)
                ∧ (searches = [wikipedia_search ("Automotive " +:+ part_name)]
                   ∨ searches = [wikipedia_search ("Automotive " +:+ part_name);
                                 wikipedia_search part_name])
                ∧ (length extracts ≤ 1)%nat) as Hhit.
  { intros title sent l' searches -> Hsearches
      (Hv & Hk & Hr & extracts & -> & Hlen)%summary_of_hit_frame.
    split; [done|]. split; [done|]. split; [done|]. by exists searches, extracts. }
  destruct title1 as [title1|e1].
  2:{ intros [= <-]. apply Hsame; [done|by left]. }
  destruct (truthy title1).
  { apply (Hhit _ _ _ [wikipedia_search ("Automotive " +:+ part_name)]);
      [done|by left]. }
  destruct title2 as [title2|e2].
  2:{ intros [= <-]. apply Hsame; [done|by right]. }
  destruct (truthy title2).
  { apply (Hhit _ _ _ [wikipedia_search ("Automotive " +:+ part_name);
                       wikipedia_search part_name]); [done|by right]. }
  intros [= <-]. apply Hsame; [done|by right].
Qed.

Lemma get_part_information_frame_witness :
  get_part_information sample_search sample_network "Clutch" sample_session
  = Some sample_part_lookup
  ∧ vehicles (session_after sample_part_lookup) = vehicles sample_session
  ∧ cache_kept sample_session (session_after sample_part_lookup).
Proof.
  assert (get_part_information sample_search sample_network "Clutch"
            sample_session = Some sample_part_lookup) as Hl
    by (vm_compute; reflexivity).
  split; [assumption|].
  destruct (get_part_information_frame sample_search sample_network "Clutch"
              sample_session sample_part_lookup Hl) as (Hv & Hk & _).
  exact (conj Hv Hk).
Defined.

(** X19: when neither search yields a title, be it that the request failed
    or that there is no hit, [get_part_information] returns its fixed
    message after exactly the two searches, with no request for an
    extract and the session state as it was. *)
Theorem get_part_information_not_found search_net network part_name s
    title1 title2 :
  (search_wikimedia search_net ("Automotive " +:+ part_name) "wikipedia" 1).1
  = Ok title1 →
  truthy title1 = false →
  (search_wikimedia search_net part_name "wikipedia" 1).1 = Ok title2 →
  truthy title2 = false →
  get_part_information search_net network part_name s
  = Some {| looked_up := Ok "Information not available for this part.";
            session_after := s;
            requests_sent :=
              [SearchRequest (wikipedia_search ("Automotive " +:+ part_name));
               SearchRequest (wikipedia_search part_name)] |}.
Proof.
  unfold get_part_information.
  pose proof (search_wikimedia_request search_net
                ("Automotive " +:+ part_name) "wikipedia" 1) as Hreq1.
  pose proof (search_wikimedia_request search_net part_name "wikipedia" 1)
    as Hreq2.
  destruct (search_wikimedia search_net ("Automotive " +:+ part_name) _ _)
    as [r1 sent1].
  destruct (search_wikimedia search_net part_name _ _) as [r2 sent2].
  cbn [fst snd] in *. subst sent1 sent2.
  by intros -> -> -> ->.
Qed.

Lemma get_part_information_not_found_witness :
  (search_wikimedia offline_search ("Automotive " +:+ "Clutch") "wikipedia" 1).1
  = Ok JNull
  ∧ truthy JNull = false
  ∧ (search_wikimedia offline_search "Clutch" "wikipedia" 1).1 = Ok JNull
  ∧ get_part_information offline_search offline_network "Clutch" sample_session
    = Some {| looked_up := Ok "Information not available for this part.";
              session_after := sample_session;
              requests_sent :=
                [SearchRequest (wikipedia_search ("Automotive " +:+ "Clutch"));
                 SearchRequest (wikipedia_search "Clutch")] |}.
Proof.
  assert ((search_wikimedia offline_search ("Automotive " +:+ "Clutch")
             "wikipedia" 1).1 = Ok JNull) as H1 by reflexivity.
  assert (truthy JNull = false) as Hfalse by reflexivity.
  assert ((search_wikimedia offline_search "Clutch" "wikipedia" 1).1 = Ok JNull)
    as H2 by reflexivity.
  do 3 (split; [assumption|]).
  exact (get_part_information_not_found offline_search offline_network
           "Clutch" sample_session JNull JNull H1 Hfalse H2 Hfalse).
Defined.

(** ** Maintenance tips *)

Lemma accepted_summary summary :
  negb (String.eqb summary "") && negb (says_not_available summary) = true →
  summary ≠ "" ∧ says_not_available summary = false.
Proof.
  intros [Hne Hsays]%andb_prop. split.
  - intros ->. done.
  - by apply negb_true_iff.
Qed.

Lemma wikipedia_tips_classified search_net network s sent l tips source :
  wikipedia_tips search_net network s sent = Some l →
  looked_up l = Ok (tips, source) →
  (source = "N/A" ∧ tips = "General maintenance tips not available." ∧ says_not_available tips = true)
  ∨ (source = "Wikipedia" ∧ tips ≠ "" ∧ says_not_available tips = false).
Proof.
  unfold wikipedia_tips.
  destruct (search_wikimedia search_net _ _ _) as [[title|e] sent'].
  2:{ by intros [= <-]. }
  destruct (truthy title).
  2:{ intros [= <-] [= <- <-]. left. by vm_compute. }
  destruct (summary_of_hit network title "wikipedia" s _) as [hit|];
    cbn [mbind option_bind]; [|done].
  intros [= <-]. destruct (looked_up hit) as [summary|e]; cbn [looked_up]; [|done].
  destruct (negb _ && negb _) eqn:Hok.
  - intros [= <- <-]. right. split; [done|]. by apply accepted_summary.
  - intros [= <- <-]. left. by vm_compute.
Qed.

(** X20: the tips [get_maintenance_tips] returns come with one of three
    sources.  With the source N/A they are the fixed message, which says
    that tips are not available; with Wikibooks or Wikipedia they are
    not empty and do not say "not available" in any letter case. *)
Theorem get_maintenance_tips_source search_net network vehicle_type s l
    tips source :
  get_maintenance_tips search_net network vehicle_type s = Some l →
  looked_up l = Ok (tips, source) →
  (source = "N/A"
   ∧ tips = "General maintenance tips not available."
   ∧ says_not_available tips = true)
  ∨ ((source = "Wikibooks" ∨ source = "Wikipedia")
     ∧ tips ≠ "" ∧ says_not_available tips = false).
Proof.
  assert (∀ s' sent,
            wikipedia_tips search_net network s' sent = Some l →
            looked_up l = Ok (tips, source) →
            (source = "N/A"
             ∧ tips = "General maintenance tips not available."
             ∧ says_not_available tips = true)
            ∨ ((source = "Wikibooks" ∨ source = "Wikipedia")
               ∧ tips ≠ "" ∧ says_not_available tips = false)) as Hwiki.
  { intros s' sent Hl Htips.
    destruct (wikipedia_tips_classified _ _ _ _ _ _ _ Hl Htips)
      as [?|(-> & ? & ?)]; [by left|right]. split; [by right|done]. }
  unfold get_maintenance_tips.
  destruct (search_wikimedia search_net _ _ _) as [[title|e] sent].
  2:{ by intros [= <-]. }
  destruct (truthy title); [|apply Hwiki].
  destruct (summary_of_hit network title "wikibooks" s _) as [hit|];
    cbn [mbind option_bind]; [|done].
  destruct (looked_up hit) as [summary|e]; [|by intros [= <-]].
  destruct (negb _ && negb _) eqn:Hok; [|apply Hwiki].
  intros [= <-] [= <- <-]. right. split; [by left|]. by apply accepted_summary.
Qed.

Lemma get_maintenance_tips_source_witness :
  get_maintenance_tips sample_search sample_network "Car" sample_session
  = Some sample_tips_lookup
  ∧ looked_up sample_tips_lookup
    = Ok ("A clutch engages power transmission.", "Wikibooks")
  ∧ (("Wikibooks" = "N/A"
      ∧ "A clutch engages power transmission."
        = "General maintenance tips not available."
      ∧ says_not_available "A clutch engages power transmission." = true)
     ∨ (("Wikibooks" = "Wikibooks" ∨ "Wikibooks" = "Wikipedia")
        ∧ "A clutch engages power transmission." ≠ ""
        ∧ says_not_available "A clutch engages power transmission." = false)).
Proof.
  assert (get_maintenance_tips sample_search sample_network "Car"
            sample_session = Some sample_tips_lookup) as Hl
    by (vm_compute; reflexivity).
  assert (looked_up sample_tips_lookup
          = Ok ("A clutch engages power transmission.", "Wikibooks")) as Htips
    by reflexivity.
  do 2 (split; [assumption|]).
  exact (get_maintenance_tips_source sample_search sample_network "Car"
           sample_session sample_tips_lookup
           "A clutch engages power transmission." "Wikibooks" Hl Htips).
Defined.

Lemma wikipedia_tips_frame search_net network s sent l :
  wikipedia_tips search_net network s sent = Some l →
  vehicles (session_after l) = vehicles s
  ∧ cache_kept s (session_after l)
  ∧ ∃ more, requests_sent l = sent ++ more ∧ (length more ≤ 2)%nat.
Proof.
  unfold wikipedia_tips.
  pose proof (search_wikimedia_request search_net "Automobile maintenance"
                "wikipedia" 1) as Hreq.
  destruct (search_wikimedia search_net _ _ _) as [title sent'].
  cbn [snd] in Hreq. subst sent'.
  assert (∀ l' : lookup (string * string),
            session_after l' = s →
            (∃ more, requests_sent l' = sent ++ more ∧ (length more ≤ 2)%nat) →
            vehicles (session_after l') = vehicles s
            ∧ cache_kept s (session_after l')
            ∧ ∃ more, requests_sent l' = sent ++ more ∧ (length more ≤ 2)%nat)
    as Hsame.
  { intros l' -> Hsent. split; [done|]. split; [apply cache_kept_refl|done]. }
  destruct title as [title|e].
  2:{ intros [= <-]. apply Hsame; [done|]. eexists. split; [done|]. cbn. lia. }
  destruct (truthy title).
  2:{ intros [= <-]. apply Hsame; [done|]. eexists. split; [done|]. cbn. lia. }
  destruct (summary_of_hit network title "wikipedia" s _) as [hit|] eqn:Hhit;
    cbn [mbind option_bind]; [|done].
  apply summary_of_hit_frame in Hhit as (Hv & Hk & _ & extracts & Hsent & Hlen).
  intros [= <-].
  assert (∃ more, requests_sent hit = sent ++ more ∧ (length more ≤ 2)%nat)
    as Hmore.
  { eexists. rewrite Hsent, <- app_assoc. split; [done|].
    rewrite length_app, !length_fmap. cbn. lia. }
  by destruct (looked_up hit) as [summary|e].
Qed.

(** X21: [get_maintenance_tips] sends at most four requests, the first of
    them the search on Wikibooks; it never touches the fleet and never
    drops or changes an entry of the memo. *)
Theorem get_maintenance_tips_frame search_net network vehicle_type s l :
  get_maintenance_tips search_net network vehicle_type s = Some l →
  vehicles (session_after l) = vehicles s
  ∧ cache_kept s (session_after l)
  ∧ ∃ more,
      requests_sent l
      = SearchRequest
          {| search_url := "https://en.wikibooks.org/w/api.php";
             srsearch :=
               default ("Automobile Maintenance/" +:+ vehicle_type)
                       (query_map !! vehicle_type);
             srlimit := 1 |} :: more
      ∧ (length more ≤ 3)%nat.
Proof.
  unfold get_maintenance_tips.
  pose proof (search_wikimedia_request search_net
                (default ("Automobile Maintenance/" +:+ vehicle_type)
                         (query_map !! vehicle_type)) "wikibooks" 1) as Hreq.
  destruct (search_wikimedia search_net _ _ _) as [title sent].
  cbn [snd] in Hreq. subst sent.
  change (default "wikipedia" (base_url !! "wikibooks"))
    with "https://en.wikibooks.org/w/api.php".
  set (req := {| search_url := "https://en.wikibooks.org/w/api.php";
                 srsearch := default _ _; srlimit := 1 |}).
  destruct title as [title|e].
  2:{ intros [= <-]. split; [done|]. split; [apply cache_kept_refl|].
      exists []. split; [done|]. cbn. lia. }
  destruct (truthy title).
  2:{ intros (Hv & Hk & more & -> & Hlen)%wikipedia_tips_frame.
      split; [done|]. split; [done|]. exists more. split; [done|lia]. }
  destruct (summary_of_hit network title "wikibooks" s _) as [hit|] eqn:Hhit;
    cbn [mbind option_bind]; [|done].
  apply summary_of_hit_frame in Hhit as (Hv & Hk & _ & extracts & Hsent & Hlen).
  assert (∃ more, requests_sent hit = SearchRequest req :: more
                  ∧ (length more ≤ 1)%nat) as Hmore.
  { exists (ExtractRequest <$> extracts). split; [done|]. by rewrite length_fmap. }
  destruct (looked_up hit) as [summary|e].
  2:{ intros [= <-]. split; [done|]. split; [done|].
      destruct Hmore as (more & -> & ?). exists more. split; [done|]. lia. }
  destruct (negb _ && negb _).
  { intros [= <-]. split; [done|]. split; [done|].
    destruct Hmore as (more & -> & ?). exists more. split; [done|]. lia. }
  intros (Hv' & Hk' & more' & -> & Hlen')%wikipedia_tips_frame.
  split; [congruence|]. split; [by eapply cache_kept_trans|].
  destruct Hmore as (more & -> & ?). exists (more ++ more').
  split; [done|]. rewrite length_app. lia.
Qed.

Lemma get_maintenance_tips_frame_witness :
  get_maintenance_tips sample_search sample_network "Car" sample_session
  = Some sample_tips_lookup
  ∧ vehicles (session_after sample_tips_lookup) = vehicles sample_session
  ∧ cache_kept sample_session (session_after sample_tips_lookup).
Proof.
  assert (get_maintenance_tips sample_search sample_network "Car"
            sample_session = Some sample_tips_lookup) as Hl
    by (vm_compute; reflexivity).
  split; [assumption|].
  destruct (get_maintenance_tips_frame sample_search sample_network "Car"
              sample_session sample_tips_lookup Hl) as (Hv & Hk & _).
  exact (conj Hv Hk).
Defined.

(** X22: when the search on Wikibooks yields a title and the request for its
    extract fails, [get_maintenance_tips] returns the text of the
    network error as the tips, with Wikibooks as their source, unless
    the error itself says "not available": the second source is not
    tried and nothing is stored. *)
Theorem get_maintenance_tips_network_error search_net network vehicle_type s
    (title e : string) :
  (search_wikimedia search_net
     (default ("Automobile Maintenance/" +:+ vehicle_type)
              (query_map !! vehicle_type)) "wikibooks" 1).1
  = Ok (JStr title) →
  title ≠ "" →
  default ∅ (parts_cache s) !! ("wikibooks_" +:+ title) = None →
  network {| api_url := "https://en.wikibooks.org/w/api.php";
             titles := title |} = RequestException e →
  says_not_available e = false →
  ∃ l,
    get_maintenance_tips search_net network vehicle_type s = Some l
    ∧ looked_up l
      = Ok ("Network error retrieving information: " +:+ e, "Wikibooks")
    ∧ session_after l = s
    ∧ length (requests_sent l) = 2%nat.
Proof.
  intros Hsearch Htitle Hmiss Hnet He.
  unfold get_maintenance_tips.
  pose proof (search_wikimedia_request search_net
                (default ("Automobile Maintenance/" +:+ vehicle_type)
                         (query_map !! vehicle_type)) "wikibooks" 1) as Hreq.
  destruct (search_wikimedia search_net _ _ _) as [r sent].
  cbn [fst snd] in Hsearch, Hreq. subst r sent.
  destruct title as [|c title]; [done|]. cbn [truthy String.eqb negb].
  unfold summary_of_hit, get_wikimedia_summary.
  change ("wikibooks" +:+ "_" +:+ String c title)
    with ("wikibooks_" +:+ String c title).
  rewrite Hmiss.
  change (default "wikipedia" (base_url !! "wikibooks"))
    with "https://en.wikibooks.org/w/api.php".
  rewrite Hnet. cbn [mbind option_bind looked_up returned].
  assert (says_not_available ("Network error retrieving information: " +:+ e)
          = says_not_available e) as Hsays by reflexivity.
  rewrite Hsays, He. cbn [String.eqb Ascii.eqb negb andb].
  eexists. split; [done|]. done.
Qed.

Lemma get_maintenance_tips_network_error_witness :
  (search_wikimedia sample_search
     (default ("Automobile Maintenance/" +:+ "Car") (query_map !! "Car"))
     "wikibooks" 1).1 = Ok (JStr "Clutch")
  ∧ "Clutch" ≠ ""
  ∧ default ∅ (parts_cache sample_session) !! ("wikibooks_" +:+ "Clutch") = None
  ∧ offline_network {| api_url := "https://en.wikibooks.org/w/api.php";
                       titles := "Clutch" |}
    = RequestException "connection refused"
  ∧ says_not_available "connection refused" = false
  ∧ ∃ l,
      get_maintenance_tips sample_search offline_network "Car" sample_session
      = Some l
      ∧ looked_up l
        = Ok ("Network error retrieving information: " +:+ "connection refused",
              "Wikibooks")
      ∧ session_after l = sample_session
      ∧ length (requests_sent l) = 2%nat.
Proof.
  assert ((search_wikimedia sample_search
             (default ("Automobile Maintenance/" +:+ "Car") (query_map !! "Car"))
             "wikibooks" 1).1 = Ok (JStr "Clutch")) as Hsearch
    by (vm_compute; reflexivity).
  assert ("Clutch" ≠ "") as Htitle by discriminate.
  assert (default ∅ (parts_cache sample_session) !! ("wikibooks_" +:+ "Clutch")
          = None) as Hmiss by (vm_compute; reflexivity).
  assert (offline_network {| api_url := "https://en.wikibooks.org/w/api.php";
                             titles := "Clutch" |}
          = RequestException "connection refused") as Hnet by reflexivity.
  assert (says_not_available "connection refused" = false) as He
    by (vm_compute; reflexivity).
  do 5 (split; [assumption|]).
  exact (get_maintenance_tips_network_error sample_search offline_network "Car"
           sample_session "Clutch" "connection refused"
           Hsearch Htitle Hmiss Hnet He).
Defined.
